(** * Bird species observation analysis: the load / merge / impute pipeline

    A shallow embedding of [load_data] and [preprocess_data] of [app.py], of
    the script lines that call them, and of [load_and_preprocess_data] of
    [birds.py]; then of the pages built on them: the section structure,
    the temporal section and the species counts of [app.py], the start-up,
    the metrics and the column check of [birds.py].

    Both programs are sequences of calls into the dataframe library.  The
    library operations they call are modelled here on column-oriented
    tables: a frame is a row count and a list of labelled columns, a column
    (series) is a dtype tag and its cells.  Labels are expected to be unique,
    which the spreadsheet and CSV readers guarantee for the tables they
    produce; where the library behaves differently on repeated labels the
    model says so at the operation. *)

From Stdlib Require Import ZArith String Ascii List Lia Bool Arith Sorted.
From stdpp Require Import base tactics decidable option list strings.

Local Open Scope string_scope.
Local Open Scope list_scope.
Local Open Scope nat_scope.

(** ** Cells, dtypes, series and frames *)

(** A time of day, as [datetime.time] holds it. *)
Record time := mk_time {
  hour : nat; minute : nat; second : nat; microsecond : nat
}.

(** A timestamp: a calendar date and a time of day. *)
Record datetime := mk_datetime {
  year : nat; month : nat; day : nat; tod : time
}.

(** The values a cell of a loaded spreadsheet can hold.  Numbers carry an
    integer payload: no step of the pipeline computes with them.  [NaN] is
    the missing marker of numeric and object columns, [NaT] the one of
    datetime columns and of parsed values. *)
Inductive cell :=
| Num (z : Z)
| Str (s : string)
| Bool (b : bool)
| Timestamp (d : datetime)
| Time (t : time)
| NaN
| NaT.

Inductive dtype := DInt | DFloat | DBool | DObject | DDatetime.

Record Series := mk_series { dt : dtype; values : list cell }.

Record DataFrame := mk_frame {
  nrows : nat;
  columns : list (string * Series)
}.

#[global] Instance time_eq_dec : EqDecision time.
Proof. solve_decision. Defined.
#[global] Instance datetime_eq_dec : EqDecision datetime.
Proof. solve_decision. Defined.
#[global] Instance cell_eq_dec : EqDecision cell.
Proof. solve_decision. Defined.
#[global] Instance dtype_eq_dec : EqDecision dtype.
Proof. solve_decision. Defined.
#[global] Instance Series_eq_dec : EqDecision Series.
Proof. solve_decision. Defined.
#[global] Instance DataFrame_eq_dec : EqDecision DataFrame.
Proof. solve_decision. Defined.

(** [pd.isna] on a scalar. *)
Definition isna (c : cell) : bool :=
  match c with NaN | NaT => true | _ => false end.

(** What [select_dtypes(include=['number'])] and
    [select_dtypes(include=['object'])] select. *)
Definition is_number (d : dtype) : bool :=
  match d with DInt | DFloat => true | _ => false end.

Definition is_object (d : dtype) : bool :=
  match d with DObject => true | _ => false end.

Definition labels (df : DataFrame) : list string := (columns df).*1.

(** A frame is well formed when its labels are unique and every column has
    one cell per row. *)
Definition wf_frame (df : DataFrame) : Prop :=
  NoDup (labels df) ∧
  Forall (λ c : string * Series, length (values c.2) = nrows df) (columns df).

(** ** Exceptions and the two effects of the scripts *)

Inductive exn :=
| FileNotFoundError (path : string)
| KeyError (label : string)
| MergeError
| ValueError
| OtherError.

Inductive result (A : Type) :=
| Ok (a : A)
| Raise (e : exn).
Arguments Ok {A} a.
Arguments Raise {A} e.

#[global] Instance result_ret : MRet result := λ A a, Ok a.
#[global] Instance result_bind : MBind result := λ A B f m,
  match m with Ok a => f a | Raise e => Raise e end.

(** What the scripts show on the page. *)
Inductive event :=
| Spinner (text : string)
| StError (text : string)
| StSuccess (text : string)
| StWrite (text : string).

(** A computation that shows events and returns or raises. *)
Definition St (A : Type) : Type := list event * result A.

#[global] Instance St_ret : MRet St := λ A a, ([], Ok a).
#[global] Instance St_bind : MBind St := λ A B f m,
  match m with
  | (l, Ok a) => let '(l', r) := f a in (l ++ l', r)
  | (l, Raise e) => (l, Raise e)
  end.

Definition show (e : event) : St unit := ([e], Ok tt).
Definition lift {A} (r : result A) : St A := ([], r).

(** ** Parsing text under a fixed format

    [pd.to_datetime(..., format=fmt, errors='coerce')] is called with two
    formats only.  The parser below follows the library's directive table:
    [%Y] is four digits, the other directives one or two digits within the
    directive's range, and [%d] also a blank followed by one digit; the
    separators are literal and the whole text must be consumed.  [%S] reads
    up to 61, and what exceeds 59 is carried into the minute, the hour and
    the day.  A date must exist in the calendar and lie within the range of
    a nanosecond timestamp.  A text is a string of eight-bit characters, so
    the only digits are [0] to [9]. *)

Inductive format := FmtDate (* '%Y-%m-%d' *) | FmtTime (* '%H:%M:%S' *).

Definition digit_of (c : ascii) : option nat :=
  let n := nat_of_ascii c in
  if (48 <=? n) && (n <=? 57) then Some (n - 48) else None.

Fixpoint number_of (cs : list ascii) (acc : nat) : option nat :=
  match cs with
  | [] => Some acc
  | c :: cs' =>
      match digit_of c with
      | Some d => number_of cs' (10 * acc + d)
      | None => None
      end
  end.

(** A run of between [lo] and [hi] digits, as a number. *)
Definition field (lo hi : nat) (cs : list ascii) : option nat :=
  if (lo <=? length cs) && (length cs <=? hi) then number_of cs 0 else None.

Fixpoint split_on (sep : ascii) (cs : list ascii) : list (list ascii) :=
  match cs with
  | [] => [[]]
  | c :: cs' =>
      if Ascii.eqb c sep then [] :: split_on sep cs'
      else match split_on sep cs' with
           | f :: fs => (c :: f) :: fs
           | [] => [[c]]
           end
  end.

Definition is_leap (y : nat) : bool :=
  ((y mod 4 =? 0) && negb (y mod 100 =? 0)) || (y mod 400 =? 0).

Definition days_in_month (y m : nat) : nat :=
  match m with
  | 2 => if is_leap y then 29 else 28
  | 4 | 6 | 9 | 11 => 30
  | _ => 31
  end.

Definition midnight : time := mk_time 0 0 0 0.

(** The day directive: one or two digits, or a blank and a digit from 1
    to 9. *)
Definition day_field (cs : list ascii) : option nat :=
  match cs with
  | [b; c] =>
      if Ascii.eqb b " "%char
      then match digit_of c with
           | Some d => if 1 <=? d then Some d else None
           | None => None
           end
      else field 1 2 cs
  | _ => field 1 2 cs
  end.

(** The range of a timestamp counted in nanoseconds from 1970 in 64 bits,
    [Timestamp.min] to [Timestamp.max], in whole microseconds: from
    1677-09-21 00:12:43.145225 to 2262-04-11 23:47:16.854775. *)
Definition stamp_fields (d : datetime) : list N :=
  N.of_nat <$> [year d; month d; day d;
                hour (tod d); minute (tod d); second (tod d); microsecond (tod d)].

Fixpoint lex_le (a b : list N) : bool :=
  match a, b with
  | x :: a', y :: b' => (x <? y)%N || ((x =? y)%N && lex_le a' b')
  | _, _ => true
  end.

Definition Timestamp_min : list N := [1677; 9; 21; 0; 12; 43; 145225]%N.
Definition Timestamp_max : list N := [2262; 4; 11; 23; 47; 16; 854775]%N.

Definition in_bounds (d : datetime) : bool :=
  lex_le Timestamp_min (stamp_fields d) && lex_le (stamp_fields d) Timestamp_max.

(** The time of day read under ['%H:%M:%S'], on the default date: the
    fields are added up, so a second of 60 or 61 runs over into the next
    minute. *)
Definition carry_seconds (h m sec : nat) : datetime :=
  let m1 := m + sec / 60 in
  let h1 := h + m1 / 60 in
  mk_datetime 1900 1 (1 + h1 / 24) (mk_time (h1 mod 24) (m1 mod 60) (sec mod 60) 0).

Definition strptime (fmt : format) (s : string) : option datetime :=
  match fmt with
  | FmtDate =>
      match split_on "-"%char (list_ascii_of_string s) with
      | [fy; fm; fd] =>
          match field 4 4 fy, field 1 2 fm, day_field fd with
          | Some y, Some m, Some d =>
              if (1 <=? m) && (m <=? 12) && (1 <=? d) && (d <=? days_in_month y m)
                 && in_bounds (mk_datetime y m d midnight)
              then Some (mk_datetime y m d midnight) else None
          | _, _, _ => None
          end
      | _ => None
      end
  | FmtTime =>
      match split_on ":"%char (list_ascii_of_string s) with
      | [fh; fm; fs] =>
          match field 1 2 fh, field 1 2 fm, field 1 2 fs with
          | Some h, Some m, Some sec =>
              if (h <=? 23) && (m <=? 59) && (sec <=? 61)
              then Some (carry_seconds h m sec) else None
          | _, _, _ => None
          end
      | _ => None
      end
  end.

(** [str] of a [datetime.time]: [HH:MM:SS], followed by [.ffffff] when the
    microsecond is not zero. *)
Definition digit_char (d : nat) : ascii := ascii_of_nat (48 + d mod 10).

Fixpoint zero_pad (width n : nat) : list ascii :=
  match width with
  | 0 => []
  | S w => zero_pad w (n / 10) ++ [digit_char n]
  end.

Definition isoformat (t : time) : string :=
  string_of_list_ascii
    (zero_pad 2 (hour t) ++ ":"%char :: zero_pad 2 (minute t) ++ ":"%char ::
     zero_pad 2 (second t) ++
     (if microsecond t =? 0 then [] else "."%char :: zero_pad 6 (microsecond t))).

(** The texts the library reads as a missing date. *)
Definition nat_strings : list string :=
  ["NaT"; "nat"; "NAT"; "nan"; "NaN"; "NAN"].

Definition of_parse (o : option datetime) : cell :=
  match o with Some d => Timestamp d | None => NaT end.


(** One element of [to_datetime] with [errors='coerce']: a timestamp within
    the range is kept, a missing cell and an empty or missing-like text
    give [NaT], any other object is parsed from its text, and what does not
    parse gives [NaT].  The text of a number or of a boolean has neither
    separator, so it never parses. *)
Definition to_datetime_scalar (fmt : format) (c : cell) : cell :=
  match c with
  | Str s =>
      if bool_decide (s = "") || bool_decide (s ∈ nat_strings) then NaT
      else of_parse (strptime fmt s)
  | Timestamp d => if in_bounds d then Timestamp d else NaT
  | Time t => of_parse (strptime fmt (isoformat t))
  | Num _ | Bool _ => NaT
  | NaN | NaT => NaT
  end.

(** [pd.to_datetime(series, format=fmt, errors='coerce')]: a series that is
    already of datetime dtype is returned as it is. *)
Definition to_datetime (fmt : format) (s : Series) : Series :=
  match dt s with
  | DDatetime => s
  | _ => mk_series DDatetime (to_datetime_scalar fmt <$> values s)
  end.

(** [series.dt.time]: the time of day of each timestamp, as objects.  The
    series built from them is of object dtype, unless it has a cell and
    every cell is [NaT]: the library then infers the datetime dtype. *)
Definition time_of_cell (c : cell) : cell :=
  match c with Timestamp d => Time (tod d) | _ => NaT end.

Definition dt_time (s : Series) : Series :=
  let cells := time_of_cell <$> values s in
  mk_series
    (if bool_decide (cells ≠ [] ∧ Forall (λ c, c = NaT) cells) then DDatetime else DObject)
    cells.

(** [series.fillna(v)]. *)
Definition fillna_cell (v c : cell) : cell := if isna c then v else c.

Definition fillna (v : cell) (s : Series) : Series :=
  mk_series (dt s) (fillna_cell v <$> values s).

(** ** Frame operations *)

(** [df[label]]: the column with that label.  No such column is a
    [KeyError]; with a repeated label the library selects a frame, which
    every caller below refuses. *)
Definition getitem (df : DataFrame) (label : string) : result Series :=
  match filter (λ c : string * Series, c.1 = label) (columns df) with
  | [] => Raise (KeyError label)
  | [c] => Ok c.2
  | _ => Raise ValueError
  end.

(** [df[label] = s] for a label that is present. *)
Definition setitem (df : DataFrame) (label : string) (s : Series) : DataFrame :=
  mk_frame (nrows df)
    ((λ c : string * Series, if bool_decide (c.1 = label) then (c.1, s) else c)
       <$> columns df).

(** [df.select_dtypes(include=[...]).columns]: the labels of the columns
    whose dtype is selected. *)
Definition select_dtypes (include : dtype → bool) (df : DataFrame) : list string :=
  (filter (λ c : string * Series, include (dt c.2) = true) (columns df)).*1.

(** [df[cols] = df[cols].fillna(v)]. *)
Definition fillna_columns (v : cell) (cols : list string) (df : DataFrame) : DataFrame :=
  mk_frame (nrows df)
    ((λ c : string * Series,
        if bool_decide (c.1 ∈ cols) then (c.1, fillna v c.2) else c)
       <$> columns df).

(** *** The outer join

    [pd.merge(left, right, on=key, how='outer', suffixes=(lsuffix, rsuffix))].
    The join computes two row indexers of equal length, one into each input,
    where [None] stands for "no row on this side"; every column of the
    result is its source column taken through its side's indexer.  Equal
    keys match, and two missing keys match each other.  Two things the
    library does are left out.  It orders the rows of the result by key;
    the model keeps the rows of the left input in their order, followed by
    the unmatched rows of the right input, and nothing below depends on the
    order of the rows.  And it compares the two key columns first and
    refuses some pairs with a [ValueError]; of that comparison the model
    has the refusals that follow from the dtypes and from a key of texts
    ([refused_keys] below) and accepts every other pair, among them pairs
    with a key of mixed contents that the library refuses.  What is stated
    on the merge succeeding assumes keys of numbers. *)

Definition matches (k : cell) (ks : list cell) : list nat :=
  (filter (λ p : nat * cell, p.2 = k) (imap pair ks)).*1.

Definition left_rows (lk rk : list cell) : list (option nat * option nat) :=
  mjoin (imap (λ i k,
           match matches k rk with
           | [] => [(Some i, None)]
           | js => (λ j, (Some i, Some j)) <$> js
           end) lk).

Definition right_rows (lk rk : list cell) : list (option nat * option nat) :=
  mjoin (imap (λ j k, if bool_decide (k ∈ lk) then [] else [(None, Some j)]) rk).

Definition outer_join_indexers (lk rk : list cell)
  : list (option nat * option nat) :=
  left_rows lk rk ++ right_rows lk rk.

(** The dtype of a column once missing cells are introduced, and the marker
    introduced.  A column of integers becomes a column of floats; the
    payload of a number is kept as it is, where the library rounds an
    integer beyond 2^53 to the nearest float. *)
Definition promote (d : dtype) : dtype :=
  match d with DInt => DFloat | DBool => DObject | _ => d end.

Definition na_value (d : dtype) : cell :=
  match d with DDatetime => NaT | _ => NaN end.

Definition take_cell (d : dtype) (vs : list cell) (o : option nat) : cell :=
  match o with
  | Some i => default (na_value d) (vs !! i)
  | None => na_value d
  end.

Definition take (ix : list (option nat)) (s : Series) : Series :=
  mk_series (if bool_decide (None ∈ ix) then promote (dt s) else dt s)
            (take_cell (dt s) (values s) <$> ix).

(** The key column of the result: the left key where there is a left row,
    the right key elsewhere. *)
Definition common_dtype (a b : dtype) : dtype :=
  if bool_decide (a = b) then a
  else if is_number a && is_number b then DFloat else DObject.

Definition key_cell (lk rk : Series) (p : option nat * option nat) : cell :=
  match p.1 with
  | Some _ => take_cell (dt lk) (values lk) p.1
  | None => take_cell (dt rk) (values rk) p.2
  end.

Definition key_series (lk rk : Series) (ix : list (option nat * option nat)) : Series :=
  mk_series (common_dtype (dt lk) (dt rk)) (key_cell lk rk <$> ix).

(** Which positions of a label list repeat an earlier label
    ([Index.duplicated]). *)
Fixpoint duplicated_from (seen l : list string) : list bool :=
  match l with
  | [] => []
  | x :: l' => bool_decide (x ∈ seen) :: duplicated_from (x :: seen) l'
  end.

Definition duplicated (l : list string) : list bool := duplicated_from [] l.

(** The labels of both sides after suffixing.  A label is renamed when it
    occurs on both sides; the call fails when the renaming makes two labels
    of one side equal that were not equal before. *)
Definition renamer (to_rename : list string) (suffix x : string) : string :=
  if bool_decide (x ∈ to_rename) then x +:+ suffix else x.

Definition new_duplicates (old new : list string) : list string :=
  (filter (λ p : string * (bool * bool), p.2.1 = true ∧ p.2.2 = false)
     (zip new (zip (duplicated new) (duplicated old)))).*1.

Definition items_overlap_with_suffix (left right : list string)
    (suffixes : string * string) : result (list string * list string) :=
  let to_rename := filter (λ x, x ∈ right) left in
  match to_rename with
  | [] => Ok (left, right)
  | _ =>
      let llabels := renamer to_rename suffixes.1 <$> left in
      let rlabels := renamer to_rename suffixes.2 <$> right in
      match new_duplicates left llabels ++ new_duplicates right rlabels with
      | [] => Ok (llabels, rlabels)
      | _ => Raise MergeError
      end
  end.

(** The comparison of the two key columns.  It is passed over when exactly
    one of them has no cell.  A key of timestamps is refused against a key
    of any other dtype, and a key of numbers against a key of objects that
    holds a text and otherwise only texts and missing cells. *)
Definition key_of_texts (s : Series) : bool :=
  is_object (dt s)
  && existsb (λ c, match c with Str _ => true | _ => false end) (values s)
  && forallb (λ c, match c with Str _ => true | _ => isna c end) (values s).

Definition refused_keys (lk rk : Series) : bool :=
  negb (xorb (bool_decide (values lk = [])) (bool_decide (values rk = [])))
  && (xorb (bool_decide (dt lk = DDatetime)) (bool_decide (dt rk = DDatetime))
      || (key_of_texts lk && is_number (dt rk))
      || (is_number (dt lk) && key_of_texts rk)).

Definition drop_label (label : string) (cols : list (string * Series))
  : list (string * Series) :=
  filter (λ c : string * Series, c.1 ≠ label) cols.

Definition merge (left right : DataFrame) (on : string)
    (suffixes : string * string) : result DataFrame :=
  lk ← getitem left on;
  rk ← getitem right on;
  if refused_keys lk rk then Raise ValueError else
  let rcols := drop_label on (columns right) in
  '(llabels, rlabels) ← items_overlap_with_suffix (labels left) rcols.*1 suffixes;
  let ix := outer_join_indexers (values lk) (values rk) in
  Ok (mk_frame (length ix)
        (zip_with (λ (l : string) (c : string * Series),
                     if bool_decide (c.1 = on) then (l, key_series lk rk ix)
                     else (l, take ix.*1 c.2))
                  llabels (columns left)
         ++ zip_with (λ (l : string) (c : string * Series), (l, take ix.*2 c.2))
                  rlabels rcols)).

(** *** Stacking the sheets of a workbook

    [pd.concat(frames, ignore_index=True)]: the rows of the frames one after
    the other, over the union of their labels in order of first appearance;
    a frame without a label contributes missing cells.  Frames that have
    neither a row nor a column are left out first, unless all are such.  It
    refuses an empty list.  The dtype of a stacked column is taken here as
    the common dtype of its pieces; the library in addition passes over a
    piece that is empty or all missing when the other pieces are floats or
    timestamps.  Nothing below depends on the dtype of a stack. *)

Definition lookup_col (label : string) (df : DataFrame) : option Series :=
  snd <$> head (filter (λ c : string * Series, c.1 = label) (columns df)).

(** The labels of a list in order of first appearance. *)
Fixpoint first_appearance (seen l : list string) : list string :=
  match l with
  | [] => []
  | x :: l' =>
      if bool_decide (x ∈ seen) then first_appearance seen l'
      else x :: first_appearance (x :: seen) l'
  end.

Definition union_labels (frames : list DataFrame) : list string :=
  first_appearance [] (frames ≫= labels).

Definition concat_column (frames : list DataFrame) (label : string) : Series :=
  let present := omap (lookup_col label) frames in
  let d0 := match present with
            | [] => DObject
            | s :: ss => foldr (λ s' d, common_dtype (dt s') d) (dt s) ss
            end in
  let d := if bool_decide (length present = length frames) then d0 else promote d0 in
  mk_series d
    (frames ≫= (λ df, match lookup_col label df with
                      | Some s => values s
                      | None => replicate (nrows df) (na_value d0)
                      end)).

(** A frame with neither a row nor a column, as a blank sheet parses. *)
Definition blank (df : DataFrame) : bool :=
  (nrows df =? 0) && (length (columns df) =? 0).

Definition non_empties (frames : list DataFrame) : list DataFrame :=
  match filter (λ df, blank df = false) frames with
  | [] => frames
  | objs => objs
  end.

Definition concat (frames : list DataFrame) : result DataFrame :=
  match frames with
  | [] => Raise ValueError
  | _ =>
      let objs := non_empties frames in
      Ok (mk_frame (sum_list (nrows <$> objs))
            ((λ l, (l, concat_column objs l)) <$> union_labels objs))
  end.

(** ** [app.py] *)

(** What [pd.ExcelFile(path)] gives: the sheet names and the parse of a
    sheet.  The file system maps a path to a workbook or to the exception
    opening it raises. *)
Record ExcelFile := mk_excel {
  sheet_names : list string;
  parse : string → result DataFrame
}.

Definition filesystem := string → result ExcelFile.

(** The [for sheet_name in sheet_names] loop filling a dict, in insertion
    order; a name met again overwrites its entry in place. *)
Fixpoint dict_set (d : list (string * DataFrame)) (k : string) (v : DataFrame)
  : list (string * DataFrame) :=
  match d with
  | [] => [(k, v)]
  | (k', v') :: d' =>
      if bool_decide (k' = k) then (k', v) :: d' else (k', v') :: dict_set d' k v
  end.

Fixpoint parse_sheets (excel_data : ExcelFile) (names : list string)
    (sheet_dict : list (string * DataFrame)) : result (list (string * DataFrame)) :=
  match names with
  | [] => Ok sheet_dict
  | sheet_name :: names' =>
      df ← parse excel_data sheet_name;
      parse_sheets excel_data names' (dict_set sheet_dict sheet_name df)
  end.

(** One half of the [try] block: open the workbook, parse every sheet,
    stack them. *)
Definition read_workbook (fs : filesystem) (file_path : string) : result DataFrame :=
  excel_data ← fs file_path;
  sheet_dict ← parse_sheets excel_data (sheet_names excel_data) [];
  concat sheet_dict.*2.

(** [repr] of a text, as the interpreter writes a path or a key into the
    message of an exception: between single quotes, or between double
    quotes when the text holds a single quote and no double quote; the
    backslash and the quote are escaped, and so is what does not print.  A
    character above 127 is read as the Latin-1 character of that code. *)
Definition double_quote : ascii := ascii_of_nat 34.

Definition hex_digit (n : nat) : ascii :=
  ascii_of_nat (if n <? 10 then 48 + n else 87 + n).

Definition repr_char (quote c : ascii) : list ascii :=
  let n := nat_of_ascii c in
  if Ascii.eqb c quote || Ascii.eqb c "\"%char then ["\"%char; c]
  else if n =? 9 then ["\"%char; "t"%char]
  else if n =? 10 then ["\"%char; "n"%char]
  else if n =? 13 then ["\"%char; "r"%char]
  else if (n <? 32) || (n =? 127) || ((128 <=? n) && (n <=? 160)) || (n =? 173)
  then ["\"%char; "x"%char; hex_digit (n / 16); hex_digit (n mod 16)]
  else [c].

Definition py_repr (s : string) : string :=
  let cs := list_ascii_of_string s in
  let quote :=
    if bool_decide ("'"%char ∈ cs) && negb (bool_decide (double_quote ∈ cs))
    then double_quote else "'"%char in
  string_of_list_ascii (quote :: (cs ≫= repr_char quote) ++ [quote]).

(** [str(e)].  The exceptions that carry no text stand for their class,
    and are shown by its name. *)
Definition str_exn (e : exn) : string :=
  match e with
  | FileNotFoundError path =>
      "[Errno 2] No such file or directory: " +:+ py_repr path
  | KeyError label => py_repr label
  | MergeError => "MergeError"
  | ValueError => "ValueError"
  | OtherError => "Error"
  end.

(** The two [except] clauses. *)
Definition load_handler (e : exn) : St unit :=
  match e with
  | FileNotFoundError _ => show (StError ("Error loading file: " +:+ str_exn e))
  | _ => show (StError ("An error occurred during data loading: " +:+ str_exn e))
  end.

(** [load_data].  Both results start as [None]; the [try] block assigns the
    forest table, then the grassland table; an exception leaves what was
    assigned before it, and the function returns both variables. *)
Definition load_data (fs : filesystem) (file_path_1 file_path_2 : string)
  : St (option DataFrame * option DataFrame) :=
  let combined_data_1 : option DataFrame := None in
  let combined_data_2 : option DataFrame := None in
  match read_workbook fs file_path_1 with
  | Raise e => load_handler e;; mret (combined_data_1, combined_data_2)
  | Ok df_1 =>
      let combined_data_1 := Some df_1 in
      match read_workbook fs file_path_2 with
      | Raise e => load_handler e;; mret (combined_data_1, combined_data_2)
      | Ok df_2 =>
          let combined_data_2 := Some df_2 in
          mret (combined_data_1, combined_data_2)
      end
  end.

(** The "Filling missing values..." block, on a table whose labels are
    unique.  On a repeated label the two assignments of the library select
    more columns than they are given; the model fills each column by its
    label, and what is stated of the filled cells is stated of tables with
    unique labels. *)
Definition fill_missing (merged_df : DataFrame) : DataFrame :=
  let numerical_cols := select_dtypes is_number merged_df in
  let merged_df := fillna_columns (Num 0) numerical_cols merged_df in
  let object_cols := select_dtypes is_object merged_df in
  fillna_columns (Str "Unknown") object_cols merged_df.

(** One line of the "Converting data types..." block. *)
Definition convert_date (label : string) (df : DataFrame) : result DataFrame :=
  s ← getitem df label;
  Ok (setitem df label (to_datetime FmtDate s)).

Definition convert_time (label : string) (df : DataFrame) : result DataFrame :=
  s ← getitem df label;
  Ok (setitem df label (dt_time (to_datetime FmtTime s))).

Definition convert_types (merged_df : DataFrame) : result DataFrame :=
  merged_df ← convert_date "Date_forest" merged_df;
  merged_df ← convert_date "Date_grassland" merged_df;
  merged_df ← convert_time "Start_Time_forest" merged_df;
  merged_df ← convert_time "End_Time_forest" merged_df;
  merged_df ← convert_time "Start_Time_grassland" merged_df;
  convert_time "End_Time_grassland" merged_df.

(** The normalization steps of [preprocess_data]: fill, then convert. *)
Definition normalize (merged_df : DataFrame) : result DataFrame :=
  convert_types (fill_missing merged_df).

Definition suffixes : string * string := ("_forest", "_grassland").

(** The merge and the normalization, without what is shown. *)
Definition merge_and_normalize (df_forest df_grassland : DataFrame)
  : result DataFrame :=
  merged_df ← merge df_forest df_grassland "AcceptedTSN" suffixes;
  normalize merged_df.

Definition preprocess_data (df_forest df_grassland : option DataFrame)
  : St (option DataFrame) :=
  match df_forest, df_grassland with
  | Some df_forest, Some df_grassland =>
      show (Spinner "Merging data...");;
      merged_df ← lift (merge df_forest df_grassland "AcceptedTSN" suffixes);
      show (Spinner "Filling missing values...");;
      let merged_df := fill_missing merged_df in
      show (Spinner "Converting data types...");;
      merged_df ← lift (convert_types merged_df);
      mret (Some merged_df)
  | _, _ => mret None
  end.

Definition file_path_forest : string :=
  "C:\Users\anous\OneDrive\PROJECTS\BIRD SPECIES OBSERVATION PROJECT\Bird_Monitoring_Data_FOREST.XLSX".
Definition file_path_grassland : string :=
  "C:\Users\anous\OneDrive\PROJECTS\BIRD SPECIES OBSERVATION PROJECT\Bird_Monitoring_Data_GRASSLAND.XLSX".

(** The script around the two functions: load, then preprocess when both
    tables are there. *)
Definition script (fs : filesystem) : St (option DataFrame) :=
  show (Spinner "Loading data...");;
  '(forest_df, grassland_df) ← load_data fs file_path_forest file_path_grassland;
  match forest_df, grassland_df with
  | Some _, Some _ =>
      processed_df ← preprocess_data forest_df grassland_df;
      match processed_df with
      | Some _ =>
          show (StSuccess "Data loading and preprocessing complete!");;
          show (StWrite "Processed Data:");;
          show (StWrite "processed_df.head()");;
          mret processed_df
      | None => mret processed_df
      end
  | _, _ =>
      let processed_df : option DataFrame := None in
      show (StError "Data loading failed. Please check file paths.");;
      mret processed_df
  end.

(** ** [birds.py] *)

Definition FOREST_FILE : string := "bird_observations_forest.csv".
Definition GRASSLAND_FILE : string := "bird_observations_grassland.csv".

(** [pd.to_datetime(series, errors='coerce')] is called here without a
    format: the library guesses one from the column and converts each
    element with it.  The guess is the library's; the conversion of one
    element, given the cells of its column, is left open, and so is the
    dtype of the series returned, which is the datetime dtype in general
    and the object dtype when the texts carry different UTC offsets. *)
Record inference := mk_inference {
  infer_cell : list cell → cell → cell;
  infer_dtype : list cell → dtype
}.

Section Birds.

Variable infer_datetime : inference.

Definition to_datetime_infer (s : Series) : Series :=
  match dt s with
  | DDatetime => s
  | _ => mk_series (infer_dtype infer_datetime (values s))
           (infer_cell infer_datetime (values s) <$> values s)
  end.

(** What [pd.read_csv(path)] gives for each path. *)
Definition csv_files := string → result DataFrame.

(** [df.columns = new_labels]. *)
Definition set_columns (df : DataFrame) (new_labels : list string) : DataFrame :=
  mk_frame (nrows df)
    (zip_with (λ (l : string) (c : string * Series), (l, c.2)) new_labels (columns df)).

(** ['Date' in col]. *)
Definition contains (needle hay : string) : bool :=
  match String.index 0 needle hay with Some _ => true | None => false end.

(** [for col in date_cols: df[col] = pd.to_datetime(df[col], errors='coerce')]. *)
Fixpoint convert_date_cols (date_cols : list string) (df : DataFrame)
  : result DataFrame :=
  match date_cols with
  | [] => Ok df
  | col :: date_cols' =>
      s ← getitem df col;
      convert_date_cols date_cols' (setitem df col (to_datetime_infer s))
  end.

(** [df.head(n)]: the first [n] rows. *)
Definition head_series (n : nat) (s : Series) : Series :=
  mk_series (dt s) (firstn n (values s)).

Definition head_rows (n : nat) (df : DataFrame) : DataFrame :=
  mk_frame (Nat.min n (nrows df))
    ((λ c : string * Series, (c.1, head_series n c.2)) <$> columns df).

(** [pd.concat([a, b], axis=1)] of two frames indexed [0..]: the columns
    of [a], then those of [b], over the longer of the two row ranges; a
    column of the shorter frame is padded with missing cells. *)
Definition reindex_rows (have want : nat) (s : Series) : Series :=
  mk_series (if have <? want then promote (dt s) else dt s)
            (resize want (na_value (dt s)) (values s)).

Definition concat_axis1 (a b : DataFrame) : DataFrame :=
  let n := Nat.max (nrows a) (nrows b) in
  mk_frame n
    (((λ c : string * Series, (c.1, reindex_rows (nrows a) n c.2)) <$> columns a)
     ++ ((λ c : string * Series, (c.1, reindex_rows (nrows b) n c.2)) <$> columns b)).

(** The body of the [try] block. *)
Definition load_and_preprocess_body (files : csv_files)
    (forest_path grassland_path : string)
  : result (DataFrame * DataFrame * DataFrame) :=
  forest_df ← files forest_path;
  grassland_df ← files grassland_path;
  let forest_df :=
    set_columns forest_df ((λ col, col +:+ "_forest") <$> labels forest_df) in
  let grassland_df :=
    set_columns grassland_df ((λ col, col +:+ "_grassland") <$> labels grassland_df) in
  let date_cols_f := filter (λ col, contains "Date" col = true) (labels forest_df) in
  forest_df ← convert_date_cols date_cols_f forest_df;
  let date_cols_g := filter (λ col, contains "Date" col = true) (labels grassland_df) in
  grassland_df ← convert_date_cols date_cols_g grassland_df;
  let max_rows := Nat.min (nrows forest_df) (nrows grassland_df) in
  let merged_df :=
    concat_axis1 (head_rows max_rows forest_df) (head_rows max_rows grassland_df) in
  Ok (merged_df, forest_df, grassland_df).

Definition empty_frame : DataFrame := mk_frame 0 [].

Definition load_and_preprocess_data (files : csv_files)
    (forest_path grassland_path : string)
  : St (DataFrame * DataFrame * DataFrame) :=
  match load_and_preprocess_body files forest_path grassland_path with
  | Ok r => mret r
  | Raise (FileNotFoundError _) =>
      show (StError ("Data files not found. Please ensure '" +:+ FOREST_FILE
                     +:+ "' and '" +:+ GRASSLAND_FILE
                     +:+ "' are in the project folder."));;
      mret (empty_frame, empty_frame, empty_frame)
  | Raise e =>
      show (StError ("An error occurred during data loading or preprocessing: "
                     +:+ str_exn e));;
      mret (empty_frame, empty_frame, empty_frame)
  end.

End Birds.

(** ** The properties under study *)

Definition returns {A} (m : St A) (a : A) : Prop := m.2 = Ok a.
Definition shown {A} (m : St A) : list event := m.1.

(** The six columns the conversion block assigns, in its order. *)
Definition date_cols : list string := ["Date_forest"; "Date_grassland"].
Definition time_cols : list string :=
  ["Start_Time_forest"; "End_Time_forest"; "Start_Time_grassland"; "End_Time_grassland"].
Definition datetime_cols : list string := date_cols ++ time_cols.

(** What the conversion block does to one labelled column. *)
Definition convert_column (c : string * Series) : string * Series :=
  if bool_decide (c.1 ∈ date_cols) then (c.1, to_datetime FmtDate c.2)
  else if bool_decide (c.1 ∈ time_cols) then (c.1, dt_time (to_datetime FmtTime c.2))
  else c.


(** The sentinel imputation a column's own dtype calls for. *)
Definition impute (s : Series) : Series :=
  if is_number (dt s) then fillna (Num 0) s
  else if is_object (dt s) then fillna (Str "Unknown") s
  else s.

Definition no_missing (s : Series) : Prop :=
  Forall (λ c, isna c = false) (values s).

(** Imputation totality as the specification words it: no cell of a numeric
    or textual column of the output is missing. *)
Definition imputation_total (out : DataFrame) : Prop :=
  ∀ label s, (label, s) ∈ columns out →
    is_number (dt s) = true ∨ is_object (dt s) = true → no_missing s.

(** The two sentinels. *)
Definition is_sentinel (c : cell) : Prop := c = Num 0 ∨ c = Str "Unknown".

(** The cell of column [c] at row [r]. *)
Definition cell_at (c : string * Series) (r : nat) : option cell := values c.2 !! r.

(** A time of day that [str] renders as [HH:MM:SS] and the time format reads
    back. *)
Definition whole_second (t : time) : Prop :=
  hour t < 24 ∧ minute t < 60 ∧ second t < 60 ∧ microsecond t = 0.

Definition whole_second_cell (v : cell) : Prop :=
  match v with Time t => whole_second t | _ => True end.

Definition whole_second_times (df : DataFrame) : Prop :=
  Forall (λ c : string * Series,
            c.1 ∈ time_cols → Forall whole_second_cell (values c.2))
         (columns df).

(** The columns of a merged table by origin: the forest columns come first,
    the key among them. *)
Definition forest_part (df_forest : DataFrame) (merged : DataFrame)
  : list (string * Series) :=
  firstn (length (columns df_forest)) (columns merged).

Definition grassland_part (df_forest : DataFrame) (merged : DataFrame)
  : list (string * Series) :=
  skipn (length (columns df_forest)) (columns merged).

Definition missing_at (r : nat) (c : string * Series) : Prop :=
  ∃ v, cell_at c r = Some v ∧ isna v = true.

(** How many times a label occurs. *)
Definition count_label (label : string) (ls : list string) : nat :=
  length (filter (λ l, l = label) ls).

(** The number of distinct keys of a key column. *)
Definition nunique (ks : list cell) : nat := length (remove_dups ks).

(** The label a column of either input carries in the merged table, by the
    labels of the other input. *)
Definition suffixed (suffix key : string) (other : list string) (x : string) : string :=
  if bool_decide (x ≠ key ∧ x ∈ other) then x +:+ suffix else x.


(** One assignment of the conversion block, as a map over the columns. *)
Definition relabel (l : string) (g : Series → Series) (c : string * Series)
  : string * Series :=
  if bool_decide (c.1 = l) then (c.1, g c.2) else c.

(** The fill block, as a map over the columns of the frame it is given. *)
Definition fill_column (df : DataFrame) (c : string * Series) : string * Series :=
  let c1 := if bool_decide (c.1 ∈ select_dtypes is_number df)
            then (c.1, fillna (Num 0) c.2) else c in
  if bool_decide (c1.1 ∈ select_dtypes is_object df)
  then (c1.1, fillna (Str "Unknown") c1.2) else c1.

(** The entries of the left indexer for one left row. *)
Definition row_entries (rk : list cell) (i : nat) (k : cell)
  : list (option nat * option nat) :=
  match matches k rk with
  | [] => [(Some i, None)]
  | js => (λ j, (Some i, Some j)) <$> js
  end.

(** Rows of the merged table that one input alone contributes. *)
Definition forest_only (ix : list (option nat * option nat)) (r : nat) : Prop :=
  ∃ i, ix !! r = Some (Some i, None).

Definition grassland_only (ix : list (option nat * option nat)) (r : nat) : Prop :=
  ∃ j, ix !! r = Some (None, Some j).

(** What the normalized table holds where the other habitat has no row: the
    missing marker in the six designated columns and in columns of datetime
    dtype, the sentinel of the column's dtype elsewhere. *)
Definition filled_as_absent (c : string * Series) (r : nat) : Prop :=
  cell_at c r =
    Some (if bool_decide (c.1 ∈ datetime_cols) then NaT
          else if is_number (dt c.2) then Num 0
          else if is_object (dt c.2) then Str "Unknown"
          else NaT).

(** The invariant of the merged table as the specification words it: no
    cell of any column, the key included, is missing. *)
Definition every_cell_present (df : DataFrame) : Prop :=
  ∀ c, c ∈ columns df → no_missing c.2.

(** The sentinel reading of the disjoint-key scenario: at row [r] every
    column of the other habitat holds a sentinel. *)
Definition sentinels_at (cols : list (string * Series)) (r : nat) : Prop :=
  ∀ c, c ∈ cols → ∃ v, cell_at c r = Some v ∧ is_sentinel v.

#[global] Instance whole_second_dec (t : time) : Decision (whole_second t).
Proof. unfold whole_second. apply _. Defined.

#[global] Instance whole_second_cell_dec (v : cell) : Decision (whole_second_cell v).
Proof. destruct v; simpl; apply _. Defined.

#[global] Instance whole_second_times_dec (df : DataFrame)
  : Decision (whole_second_times df).
Proof. unfold whole_second_times. apply _. Defined.

#[global] Instance wf_frame_dec (df : DataFrame) : Decision (wf_frame df).
Proof. unfold wf_frame. apply _. Defined.

(** ** Example tables

    One observation per habitat, in the shape of the survey sheets: the
    species key, a date, a start and an end time, an observer and a
    temperature. *)

Definition text (s : string) : Series := mk_series DObject [Str s].
Definition stamp (d : datetime) : Series := mk_series DDatetime [Timestamp d].

Definition observations (id : Z) (date start : Series) (stop observer : string)
    (temp : Z) : DataFrame :=
  mk_frame 1
    [("AcceptedTSN", mk_series DInt [Num id]);
     ("Date", date);
     ("Start_Time", start);
     ("End_Time", text stop);
     ("Observer", text observer);
     ("Temperature", mk_series DInt [Num temp])].

(** Dates and times as text. *)
Definition forest_A : DataFrame :=
  observations 1 (text "2021-06-01") (text "08:00:00") "09:00:00" "Ann" 20.
Definition grassland_A : DataFrame :=
  observations 2 (text "2021-07-01") (text "10:00:00") "11:00:00" "Bob" 25.


(** A forest sheet that already carries a column named like a suffixed
    grassland column. *)
Definition forest_X : DataFrame :=
  mk_frame 1
    [("AcceptedTSN", mk_series DInt [Num 1]);
     ("Date", text "2021-06-01");
     ("Date_grassland", text "2021-06-02");
     ("Start_Time", text "08:00:00");
     ("End_Time", text "09:00:00")].

(** Dates as the spreadsheet reader types date cells. *)
Definition forest_D : DataFrame :=
  observations 1 (stamp (mk_datetime 2021 6 1 midnight)) (text "08:00:00")
    "09:00:00" "Ann" 20.
Definition grassland_D : DataFrame :=
  observations 2 (stamp (mk_datetime 2021 7 1 midnight)) (text "10:00:00")
    "11:00:00" "Bob" 25.

(** Start times typed as timestamps, one of them with a fraction of a
    second. *)
Definition forest_S : DataFrame :=
  observations 1 (stamp (mk_datetime 2021 6 1 midnight))
    (stamp (mk_datetime 2021 6 1 (mk_time 8 30 0 250))) "09:00:00" "Ann" 20.
Definition grassland_S : DataFrame :=
  observations 1 (stamp (mk_datetime 2021 7 1 midnight))
    (stamp (mk_datetime 2021 7 1 (mk_time 10 0 0 0))) "11:00:00" "Bob" 25.

(** A workbook of one sheet, and a file system in which only the forest
    workbook exists. *)
Definition one_sheet (df : DataFrame) : ExcelFile :=
  mk_excel ["Sheet1"] (λ _, Ok df).

Definition forest_only_files : filesystem :=
  λ path, if bool_decide (path = file_path_forest) then Ok (one_sheet forest_A)
          else Raise (FileNotFoundError path).

(** Two CSV files, holding one and two observations. *)
Definition two_rows : DataFrame :=
  mk_frame 2
    [("AcceptedTSN", mk_series DInt [Num 2; Num 3]);
     ("Date", mk_series DObject [Str "2021-07-01"; Str "2021-07-02"])].

(** A guess under which every column is read as ISO dates. *)
Definition iso_dates : inference :=
  mk_inference (λ _, to_datetime_scalar FmtDate) (λ _, DDatetime).

Definition two_csv_files : csv_files :=
  λ path, if bool_decide (path = FOREST_FILE) then Ok forest_A
          else if bool_decide (path = GRASSLAND_FILE) then Ok two_rows
          else Raise (FileNotFoundError path).

(** The merged and the normalized tables of the examples, evaluated. *)
Definition frame_of (r : result DataFrame) : DataFrame :=
  match r with Ok df => df | Raise _ => mk_frame 0 [] end.

Definition merged_A : DataFrame :=
  Eval vm_compute in frame_of (merge forest_A grassland_A "AcceptedTSN" suffixes).
Definition normalized_A : DataFrame :=
  Eval vm_compute in frame_of (normalize merged_A).


Definition merged_X : DataFrame :=
  Eval vm_compute in frame_of (merge forest_X grassland_A "AcceptedTSN" suffixes).

Definition merged_D : DataFrame :=
  Eval vm_compute in frame_of (merge forest_D grassland_D "AcceptedTSN" suffixes).
Definition normalized_D : DataFrame :=
  Eval vm_compute in frame_of (normalize merged_D).

Definition merged_S : DataFrame :=
  Eval vm_compute in frame_of (merge forest_S grassland_S "AcceptedTSN" suffixes).
Definition normalized_S : DataFrame :=
  Eval vm_compute in frame_of (normalize merged_S).
Definition renormalized_S : DataFrame :=
  Eval vm_compute in frame_of (normalize normalized_S).

(** ** Further notions for the loaders and the merge *)

(** The sheets of a workbook that parse, in sheet order. *)
Definition parsed_sheets (excel_data : ExcelFile) : list DataFrame :=
  omap (λ sheet_name,
          match parse excel_data sheet_name with
          | Ok df => Some df
          | Raise _ => None
          end)
       (sheet_names excel_data).

(** The text the two [except] clauses of [load_data] show. *)
Definition load_error_text (e : exn) : string :=
  match e with
  | FileNotFoundError _ => "Error loading file: " +:+ str_exn e
  | _ => "An error occurred during data loading: " +:+ str_exn e
  end.

(** [x.endswith(sfx)]. *)
Definition ends_with (sfx x : string) : bool :=
  let n := String.length x in
  let m := String.length sfx in
  (m <=? n) && String.eqb (substring (n - m) m x) sfx.

(** Labels none of which already carries a habitat suffix. *)
Definition unsuffixed (ls : list string) : Prop :=
  Forall (λ x, ends_with "_forest" x = false ∧ ends_with "_grassland" x = false) ls.

(** Inputs whose key columns both hold numbers: a pair of keys the library
    accepts. *)
Definition numeric_keys (f g : DataFrame) : Prop :=
  ∀ lk rk, getitem f "AcceptedTSN" = Ok lk → getitem g "AcceptedTSN" = Ok rk →
    is_number (dt lk) = true ∧ is_number (dt rk) = true.

(** The three columns both sheets must carry for the six designated columns
    to exist after the merge. *)
Definition required_cols : list string := ["Date"; "Start_Time"; "End_Time"].

(** A cell of a converted time column: a time object or the missing
    marker. *)
Definition time_or_missing (c : cell) : Prop :=
  c = NaT ∨ ∃ t, c = Time t.

(** A cell of a converted date column. *)
Definition stamp_or_missing (c : cell) : Prop :=
  c = NaT ∨ ∃ d, c = Timestamp d.

(** What the date loop of [birds.py] does to one labelled column. *)
Definition date_column (infer_datetime : inference)
    (c : string * Series) : string * Series :=
  if contains "Date" c.1 then (c.1, to_datetime_infer infer_datetime c.2) else c.

(** A workbook [load_data] can read: its sheet names are distinct, there is
    at least one, and every sheet parses. *)
Definition readable (excel_data : ExcelFile) : Prop :=
  NoDup (sheet_names excel_data) ∧ sheet_names excel_data ≠ [] ∧
  Forall (λ sheet_name, ∃ df, parse excel_data sheet_name = Ok df)
         (sheet_names excel_data).

(** ** The page of [app.py] below the preprocessing

    Below line 90 the script is a sequence of sections, each under
    [if processed_df is not None:], with one exception: the flyover
    statements of lines 390-436 stand at the top level and subscript
    [processed_df] whatever it is.  What a section shows for a table is left
    open here; what matters is which of them run. *)

(** How a run of the page can end early: an exception of the library, or
    the [TypeError] of subscripting [None]. *)
Inductive crash :=
| Library (e : exn)
| TypeError (message : string).

Definition Page (A : Type) : Type := list event * (A + crash).

#[global] Instance Page_ret : MRet Page := λ A a, ([], inl a).
#[global] Instance Page_bind : MBind Page := λ A B f m,
  match m with
  | (l, inl a) => let '(l', r) := f a in (l ++ l', r)
  | (l, inr c) => (l, inr c)
  end.

Definition of_St {A} (m : St A) : Page A :=
  match m with
  | (l, Ok a) => (l, inl a)
  | (l, Raise e) => (l, inr (Library e))
  end.

(** [if processed_df is not None: body]; a section may add columns to the
    table. *)
Definition guarded (body : DataFrame → St DataFrame) (processed_df : option DataFrame)
  : Page (option DataFrame) :=
  match processed_df with
  | Some df => df ← of_St (body df); mret (Some df)
  | None => mret None
  end.

(** [processed_df[...]] at the top level. *)
Definition subscript (processed_df : option DataFrame) : Page DataFrame :=
  match processed_df with
  | Some df => mret df
  | None => ([], inr (TypeError "'NoneType' object is not subscriptable"))
  end.

Section Dashboard.

(** The guarded sections of lines 91-387, in order, the flyover statements
    of lines 390-436, and the guarded section of lines 438-472. *)
Variable sections : list (DataFrame → St DataFrame).
Variable flyover : DataFrame → St unit.
Variable id_method : DataFrame → St DataFrame.

Fixpoint run_sections (bodies : list (DataFrame → St DataFrame))
    (processed_df : option DataFrame) : Page (option DataFrame) :=
  match bodies with
  | [] => mret processed_df
  | body :: bodies' =>
      processed_df ← guarded body processed_df;
      run_sections bodies' processed_df
  end.

Definition page (fs : filesystem) : Page unit :=
  processed_df ← of_St (script fs);
  processed_df ← run_sections sections processed_df;
  df ← subscript processed_df;
  of_St (flyover df);;
  guarded id_method processed_df;;
  mret tt.

End Dashboard.

(** ** The page of [birds.py] *)

(** What the page shows: the loader's error, the fixed heading of lines
    147-156, a metric with its value and the row count of its delta, the
    information and warning boxes, the tab bar and, for a habitat whose
    table passes the column check, the four analyses of lines 78-142. *)
Inductive element :=
| Shown (e : event)
| Heading
| Metric (label : string) (value total : nat)
| Info (text : string)
| Warning (text : string)
| Tabs
| Analyses (habitat_name : string).

(** [df.empty]: some axis has length zero. *)
Definition df_empty (df : DataFrame) : bool :=
  (nrows df =? 0) || (length (columns df) =? 0).

(** [series.nunique()]: the distinct cells that are not missing, told
    apart as the interpreter does ([True] equals [1]). *)
Definition py_key (c : cell) : cell :=
  match c with Bool b => Num (Z.b2z b) | _ => c end.

Definition series_nunique (s : Series) : nat :=
  length (remove_dups (py_key <$> filter (λ c, isna c = false) (values s))).

(** The [try] block of lines 158-170. *)
Definition summary_metrics (FOREST_DF GRASSLAND_DF : DataFrame) : list element :=
  let body : result (list element) :=
    if bool_decide ("Common_Name_forest" ∈ labels FOREST_DF)
       && bool_decide ("Common_Name_grassland" ∈ labels GRASSLAND_DF)
    then
      forest_names ← getitem FOREST_DF "Common_Name_forest";
      let unique_species_forest := series_nunique forest_names in
      grassland_names ← getitem GRASSLAND_DF "Common_Name_grassland";
      let unique_species_grassland := series_nunique grassland_names in
      let total_obs_forest := nrows FOREST_DF in
      let total_obs_grassland := nrows GRASSLAND_DF in
      Ok [Metric "Unique Species (Forest)" unique_species_forest total_obs_forest;
          Metric "Unique Species (Grassland)" unique_species_grassland
            total_obs_grassland]
    else
      Ok [Info "Cannot calculate summary metrics. Check if data contains 'Common_Name' column."]
  in
  match body with
  | Ok shown => shown
  | Raise e => [Shown (StError ("Error calculating metrics: " +:+ str_exn e))]
  end.

(** [render_habitat_analysis], up to its column check. *)
Definition render_habitat_analysis (df : DataFrame) (habitat_name suffix : string)
  : list element :=
  let common_name_col := "Common_Name" +:+ suffix in
  let id_method_col := "ID_Method" +:+ suffix in
  let flyover_col := "Flyover_Observed" +:+ suffix in
  let plot_name_col := "Plot_Name" +:+ suffix in
  if forallb (λ col, bool_decide (col ∈ labels df))
       [common_name_col; id_method_col; flyover_col; plot_name_col]
  then [Analyses habitat_name]
  else [Warning ("Required columns not found in " +:+ habitat_name
                 +:+ " data. Cannot render charts.")].

(** The script: load, stop on an empty merged table, else the heading, the
    metrics and the two tabs. *)
Definition birds_page (infer_datetime : inference) (files : csv_files)
  : list element :=
  match load_and_preprocess_data infer_datetime files FOREST_FILE GRASSLAND_FILE with
  | (shown, Ok (MERGED_DF, FOREST_DF, GRASSLAND_DF)) =>
      (Shown <$> shown)
      ++ (if df_empty MERGED_DF then []
          else Heading :: summary_metrics FOREST_DF GRASSLAND_DF
               ++ Tabs :: render_habitat_analysis FOREST_DF "Forest" "_forest"
               ++ render_habitat_analysis GRASSLAND_DF "Grassland" "_grassland")
  | (shown, Raise _) => Shown <$> shown
  end.

(** The table of one habitat as [load_and_preprocess_data] returns it:
    every label suffixed, the ['Date'] columns converted. *)
Definition loaded (infer_datetime : inference) (sfx : string)
    (df : DataFrame) : DataFrame :=
  mk_frame (nrows df)
    (date_column infer_datetime
       <$> ((λ c : string * Series, (c.1 +:+ sfx, c.2)) <$> columns df)).

(** The four columns [render_habitat_analysis] asks for, without suffix. *)
Definition analysis_cols : list string :=
  ["Common_Name"; "ID_Method"; "Flyover_Observed"; "Plot_Name"].

(** ** The temporal section of [app.py] (lines 91-135) *)

(** [df[label] = s]: the column is replaced when the label is there and
    added at the end when it is not. *)
Definition assign (df : DataFrame) (label : string) (s : Series) : DataFrame :=
  if bool_decide (label ∈ labels df) then setitem df label s
  else mk_frame (nrows df) (columns df ++ [(label, s)]).

(** [series.dt.year] and the like: the accessor is there for a column of
    datetime dtype only; a missing timestamp gives a missing number, which
    makes the column a float column. *)
Definition field_of_cell (f : datetime → nat) (c : cell) : cell :=
  match c with Timestamp d => Num (Z.of_nat (f d)) | _ => NaN end.

Definition dt_field (f : datetime → nat) (s : Series) : result Series :=
  match dt s with
  | DDatetime =>
      Ok (mk_series
            (if bool_decide (Forall (λ c, isna c = false) (values s)) then DInt else DFloat)
            (field_of_cell f <$> values s))
  | _ => Raise OtherError
  end.

(** [series.map({1: 'Winter', ...})]: a month outside the dict, a missing
    month included, maps to a missing cell. *)
Definition season_of (c : cell) : cell :=
  match c with
  | Num 1 | Num 2 | Num 12 => Str "Winter"
  | Num 3 | Num 4 | Num 5 => Str "Spring"
  | Num 6 | Num 7 | Num 8 => Str "Summer"
  | Num 9 | Num 10 | Num 11 => Str "Autumn"
  | _ => NaN
  end.

Definition map_season (s : Series) : Series :=
  mk_series DObject (season_of <$> values s).

(** Lines 95-101. *)
Definition temporal_features (processed_df : DataFrame) : result DataFrame :=
  date_forest ← getitem processed_df "Date_forest";
  years ← dt_field year date_forest;
  let processed_df := assign processed_df "Year" years in
  date_forest ← getitem processed_df "Date_forest";
  months ← dt_field month date_forest;
  let processed_df := assign processed_df "Month" months in
  months ← getitem processed_df "Month";
  Ok (assign processed_df "Season" (map_season months)).

(** [==] of the interpreter on cells: a missing cell equals nothing. *)
Definition py_eq (a b : cell) : bool :=
  negb (isna a) && negb (isna b) && bool_decide (py_key a = py_key b).

(** [series != v], element by element. *)
Definition ne_scalar (v : cell) (s : Series) : list bool :=
  (λ c, negb (py_eq c v)) <$> values s.

(** [df[mask]]: the rows at which the mask holds. *)
Definition mask_values {A} (mask : list bool) (vs : list A) : list A :=
  (filter (λ p : bool * A, p.1 = true) (zip mask vs)).*2.

Definition mask_rows (mask : list bool) (df : DataFrame) : DataFrame :=
  mk_frame (length (filter (λ b : bool, b = true) mask))
    ((λ c : string * Series, (c.1, mk_series (dt c.2) (mask_values mask (values c.2))))
       <$> columns df).

(** [df.dropna(subset=labels, how='all')]: the rows that are missing in
    every one of the columns are dropped. *)
Fixpoint getitems (df : DataFrame) (subset : list string) : result (list Series) :=
  match subset with
  | [] => Ok []
  | label :: subset' =>
      s ← getitem df label;
      ss ← getitems df subset';
      Ok (s :: ss)
  end.

Definition all_missing_at (cols : list Series) (i : nat) : bool :=
  forallb (λ s : Series, match values s !! i with Some c => isna c | None => true end) cols.

Definition dropna_all (subset : list string) (df : DataFrame) : result DataFrame :=
  cols ← getitems df subset;
  Ok (mask_rows ((λ i, negb (all_missing_at cols i)) <$> seq 0 (nrows df)) df).

(** [str(x)] of a cell, for [series.astype(str)]. *)
Fixpoint decimal_digits (fuel n : nat) : list ascii :=
  match fuel with
  | 0 => []
  | S fuel' =>
      if n <? 10 then [digit_char n]
      else decimal_digits fuel' (n / 10) ++ [digit_char n]
  end.

Definition str_nat (n : nat) : string :=
  string_of_list_ascii (decimal_digits (S n) n).

Definition str_Z (z : Z) : string :=
  if (z <? 0)%Z then "-" +:+ str_nat (Z.to_nat (- z)) else str_nat (Z.to_nat z).

Definition str_date (d : datetime) : string :=
  string_of_list_ascii
    (zero_pad 4 (year d) ++ "-"%char :: zero_pad 2 (month d) ++ "-"%char ::
     zero_pad 2 (day d)).

Definition str_cell (c : cell) : string :=
  match c with
  | Num z => str_Z z
  | Str s => s
  | Bool b => if b then "True" else "False"
  | Timestamp d => str_date d +:+ " " +:+ isoformat (tod d)
  | Time t => isoformat t
  | NaN => "nan"
  | NaT => "NaT"
  end.

Definition astype_str (s : Series) : Series :=
  mk_series DObject ((λ c, Str (str_cell c)) <$> values s).

(** [series.dt.hour] of what [pd.to_datetime] returns. *)
Definition dt_hour (s : Series) : Series :=
  mk_series
    (if bool_decide (Forall (λ c, isna c = false) (values s)) then DInt else DFloat)
    (field_of_cell (λ d, hour (tod d)) <$> values s).

(** [series.dropna()]. *)
Definition dropna_values (vs : list cell) : list cell :=
  filter (λ c, isna c = false) vs.

(** [series.value_counts().sort_index()] of a series of numbers: each
    number that occurs with how often it does, by ascending number. *)
Definition number_of_cell (c : cell) : option Z :=
  match py_key c with Num z => Some z | _ => None end.

Fixpoint insert_sorted (z : Z) (l : list Z) : list Z :=
  match l with
  | [] => [z]
  | y :: l' => if (z <=? y)%Z then z :: l else y :: insert_sorted z l'
  end.

Definition sort_numbers (l : list Z) : list Z := foldr insert_sorted [] l.

Definition count_sorted (numbers : list Z) : list (Z * nat) :=
  (λ z, (z, length (filter (λ y, y = z) numbers)))
    <$> sort_numbers (remove_dups numbers).

Definition value_counts_sorted (vs : list cell) : list (Z * nat) :=
  count_sorted (omap number_of_cell vs).

(** Lines 104-115: what [start_hour_counts] holds. *)
Definition observation_time_analysis (processed_df : DataFrame)
  : result (list (Z * nat)) :=
  filtered_df ← dropna_all ["Start_Time_forest"; "Start_Time_grassland"] processed_df;
  start_forest ← getitem filtered_df "Start_Time_forest";
  start_grassland ← getitem filtered_df "Start_Time_grassland";
  let filtered_df :=
    mask_rows (zip_with orb (ne_scalar (Str "Unknown") start_forest)
                            (ne_scalar (Str "Unknown") start_grassland))
              filtered_df in
  start_forest ← getitem filtered_df "Start_Time_forest";
  let filtered_df :=
    assign filtered_df "Start_Hour_forest"
      (dt_hour (to_datetime FmtTime (astype_str start_forest))) in
  start_grassland ← getitem filtered_df "Start_Time_grassland";
  let filtered_df :=
    assign filtered_df "Start_Hour_grassland"
      (dt_hour (to_datetime FmtTime (astype_str start_grassland))) in
  hours_forest ← getitem filtered_df "Start_Hour_forest";
  hours_grassland ← getitem filtered_df "Start_Hour_grassland";
  let all_start_hours :=
    dropna_values (values hours_forest ++ values hours_grassland) in
  Ok (value_counts_sorted all_start_hours).

(** A time of day as the interpreter can hold it. *)
Definition valid_time (t : time) : Prop :=
  hour t < 24 ∧ minute t < 60 ∧ second t < 60.

(** The hour a cell of a start-time column adds to the distribution: that
    of a time of day without a fraction of a second. *)
Definition counted_hour (c : cell) : option Z :=
  match c with
  | Time t => if microsecond t =? 0 then Some (Z.of_nat (hour t)) else None
  | _ => None
  end.

(** ** The species counts of [app.py]

    From line 127 on the page computes, for one column after the other,

    [processed_df[processed_df[col] != v].groupby(col)['AcceptedTSN'].nunique()]

    with [v] the sentinel ['Unknown'], or [0] for the temperature and the
    humidity; the section on the identification method counts the common
    names instead of the species keys.  The groups are those of the keys
    that are not missing, in the library's sorted order of the keys, which
    is left open here; each group counts the distinct cells of the counted
    column in its rows that are not missing. *)

Section Groups.

Variable sort_keys : list cell → list cell.

Definition group_keys (keys : list cell) : list cell :=
  sort_keys (remove_dups (py_key <$> dropna_values keys)).

Definition group_species (k : cell) (keys species : list cell) : list cell :=
  (filter (λ p : cell * cell, py_key p.1 = k) (zip keys species)).*2.

Definition groupby_nunique (keys species : Series) : list (cell * nat) :=
  (λ k, (k, length (remove_dups
                      (py_key <$> dropna_values
                                    (group_species k (values keys) (values species))))))
    <$> group_keys (values keys).

(** [processed_df[processed_df[col] != v].groupby(col)[counted].nunique()]. *)
Definition nunique_by (col : string) (v : cell) (counted : string)
    (processed_df : DataFrame) : result (list (cell * nat)) :=
  s ← getitem processed_df col;
  let kept := mask_rows (ne_scalar v s) processed_df in
  keys ← getitem kept col;
  species ← getitem kept counted;
  Ok (groupby_nunique keys species).

Definition species_count_by (col : string) (v : cell) (processed_df : DataFrame)
  : result (list (cell * nat)) :=
  nunique_by col v "AcceptedTSN" processed_df.

End Groups.

(** The sentinel the fill block leaves in a column of the given dtype. *)
Definition sentinel_of (d : dtype) : cell :=
  if is_number d then Num 0 else Str "Unknown".

(** ** Further example tables *)

(** A file system with both workbooks, and one whose forest workbook has a
    second sheet that does not parse. *)
Definition both_files : filesystem :=
  λ path, if bool_decide (path = file_path_forest) then Ok (one_sheet forest_A)
          else Ok (one_sheet grassland_A).

Definition broken_workbook : ExcelFile :=
  mk_excel ["Sheet1"; "Sheet2"]
    (λ sheet_name, if bool_decide (sheet_name = "Sheet2") then Raise OtherError
                   else Ok forest_A).

Definition broken_files : filesystem := λ _, Ok broken_workbook.


(** A sheet without the key column. *)
Definition no_key : DataFrame := mk_frame 1 [("Date", text "2021-06-01")].

(** CSV files of which only the forest one exists, CSV files of which the
    grassland one has a header and no row, and two CSV files with the
    columns the analyses read. *)
Definition forest_csv_only : csv_files :=
  λ path, if bool_decide (path = FOREST_FILE) then Ok forest_A
          else Raise (FileNotFoundError path).

Definition no_rows : DataFrame :=
  mk_frame 0 [("AcceptedTSN", mk_series DInt []); ("Date", mk_series DObject [])].

Definition header_only_files : csv_files :=
  λ path, if bool_decide (path = FOREST_FILE) then Ok forest_A else Ok no_rows.

Definition sightings (names : list string) : DataFrame :=
  mk_frame (length names)
    [("Common_Name", mk_series DObject (Str <$> names));
     ("ID_Method", mk_series DObject ((λ _, Str "Singing") <$> names));
     ("Flyover_Observed", mk_series DBool ((λ _, Bool false) <$> names));
     ("Plot_Name", mk_series DObject ((λ _, Str "P1") <$> names))].

Definition sighting_files : csv_files :=
  λ path, if bool_decide (path = FOREST_FILE)
          then Ok (sightings ["Robin"; "Robin"; "Wren"])
          else Ok (sightings ["Lark"]).

(** The normalized table of the fractional-second example with its
    temporal features. *)
Definition featured_S : DataFrame :=
  Eval vm_compute in frame_of (temporal_features normalized_S).

Definition featured_A : DataFrame :=
  Eval vm_compute in frame_of (temporal_features normalized_A).

(** * Properties of the model *)

(** ** The parser on the specification's examples *)

Example strptime_date_ok :
  strptime FmtDate "2021-06-01" = Some (mk_datetime 2021 6 1 midnight).
Proof. reflexivity. Qed.

Example strptime_not_a_date : strptime FmtDate "not-a-date" = None.
Proof. reflexivity. Qed.

Example strptime_unknown :
  strptime FmtDate "Unknown" = None ∧ strptime FmtTime "Unknown" = None.
Proof. split; reflexivity. Qed.

Example strptime_time_ok :
  strptime FmtTime "08:30:00" = Some (mk_datetime 1900 1 1 (mk_time 8 30 0 0)).
Proof. reflexivity. Qed.

(** A second of 60 runs over, a day may be written with a blank, and a date
    outside the range of a nanosecond timestamp is not read. *)
Example strptime_second_60 :
  strptime FmtTime "23:59:60" = Some (mk_datetime 1900 1 2 midnight)
  ∧ strptime FmtTime "10:15:61" = Some (mk_datetime 1900 1 1 (mk_time 10 16 1 0))
  ∧ strptime FmtTime "10:15:62" = None.
Proof. split_and!; reflexivity. Qed.

Example strptime_blank_day :
  strptime FmtDate "2021-06- 5" = Some (mk_datetime 2021 6 5 midnight)
  ∧ strptime FmtDate "2021- 6-05" = None.
Proof. split; reflexivity. Qed.

Example strptime_range :
  strptime FmtDate "1677-09-21" = None
  ∧ strptime FmtDate "1677-09-22" = Some (mk_datetime 1677 9 22 midnight)
  ∧ strptime FmtDate "2262-04-11" = Some (mk_datetime 2262 4 11 midnight)
  ∧ strptime FmtDate "2262-04-12" = None.
Proof. split_and!; reflexivity. Qed.

Example isoformat_whole : isoformat (mk_time 8 30 0 0) = "08:30:00".
Proof. reflexivity. Qed.

Example isoformat_fraction : isoformat (mk_time 8 30 0 250) = "08:30:00.000250".
Proof. reflexivity. Qed.

(** ** The library operations on small inputs *)

(** A time column without a time of day comes out with the datetime
    dtype; with no row at all it keeps the object dtype. *)
Example dt_time_all_missing :
  dt_time (mk_series DDatetime [NaT; NaT]) = mk_series DDatetime [NaT; NaT]
  ∧ dt_time (mk_series DDatetime []) = mk_series DObject []
  ∧ dt_time (mk_series DDatetime [NaT; Timestamp (mk_datetime 1900 1 1 midnight)])
    = mk_series DObject [NaT; Time midnight].
Proof. split_and!; reflexivity. Qed.

(** A timestamp held as an object is kept when it lies in the range. *)
Example to_datetime_scalar_range :
  to_datetime_scalar FmtDate (Timestamp (mk_datetime 1500 1 1 midnight)) = NaT
  ∧ to_datetime_scalar FmtDate (Timestamp (mk_datetime 2021 6 1 midnight))
    = Timestamp (mk_datetime 2021 6 1 midnight).
Proof. split; reflexivity. Qed.

(** The labels of a stack come in order of first appearance, and a blank
    sheet leaves the dtypes alone. *)
Example concat_label_order :
  labels (frame_of (concat [mk_frame 0 [("a", mk_series DObject []);
                                        ("b", mk_series DObject [])];
                            mk_frame 0 [("c", mk_series DObject []);
                                        ("a", mk_series DObject [])]]))
  = ["a"; "b"; "c"].
Proof. reflexivity. Qed.

Example concat_blank_sheet :
  concat [mk_frame 1 [("x", mk_series DInt [Num 1])]; mk_frame 0 []]
  = Ok (mk_frame 1 [("x", mk_series DInt [Num 1])])
  ∧ concat [mk_frame 1 [("x", mk_series DInt [Num 1])];
            mk_frame 1 [("y", mk_series DInt [Num 2])]]
    = Ok (mk_frame 2 [("x", mk_series DFloat [Num 1; NaN]);
                      ("y", mk_series DFloat [NaN; Num 2])]).
Proof. split; reflexivity. Qed.

(** A key of numbers does not merge with a key of texts. *)
Example merge_refuses_text_key :
  merge (mk_frame 1 [("AcceptedTSN", mk_series DInt [Num 1])])
        (mk_frame 1 [("AcceptedTSN", mk_series DObject [Str "1"])])
        "AcceptedTSN" suffixes
  = Raise ValueError.
Proof. reflexivity. Qed.

(** The text of a missing file, with its path as [repr] writes it. *)
Example str_exn_path :
  str_exn (FileNotFoundError "C:\data.xlsx")
  = "[Errno 2] No such file or directory: 'C:\\data.xlsx'".
Proof. reflexivity. Qed.

(** ** Columns by label *)

Lemma count_label_columns (l : string) (cols : list (string * Series)) :
  length (filter (λ c : string * Series, c.1 = l) cols) = count_label l cols.*1.
Proof.
  unfold count_label. induction cols as [|[l' s] cols IH]; [done|].
  rewrite fmap_cons, !filter_cons. simpl.
  destruct (decide (l' = l)); simpl; by rewrite IH.
Qed.

Lemma count_label_0 (l : string) (ls : list string) :
  count_label l ls = 0 ↔ l ∉ ls.
Proof.
  unfold count_label. rewrite length_zero_iff_nil. split.
  - intros H Hin. assert (l ∈ filter (λ x, x = l) ls) as Hf
      by (apply list_elem_of_filter; done).
    rewrite H in Hf. by apply elem_of_nil in Hf.
  - intros H. induction ls as [|x ls IH]; [done|].
    rewrite filter_cons. apply not_elem_of_cons in H as [Hne H].
    destruct (decide (x = l)); [congruence|]. by apply IH.
Qed.

Lemma count_label_NoDup (l : string) (ls : list string) :
  NoDup ls → count_label l ls ≤ 1.
Proof.
  unfold count_label. induction 1 as [|x ls Hx Hnd IH]; [simpl; lia|].
  rewrite filter_cons. destruct (decide (x = l)) as [->|]; [|done].
  simpl. apply count_label_0 in Hx. unfold count_label in Hx. lia.
Qed.

Lemma getitem_count (df : DataFrame) (l : string) :
  match getitem df l with
  | Ok s => count_label l (labels df) = 1 ∧ (l, s) ∈ columns df
  | Raise e => (e = KeyError l ∧ count_label l (labels df) = 0)
               ∨ (e = ValueError ∧ 2 ≤ count_label l (labels df))
  end.
Proof.
  unfold getitem, labels. rewrite <- count_label_columns.
  destruct (filter _ (columns df)) as [|[l' s] [|c' rest]] eqn:Hf; simpl.
  - by left.
  - assert ((l', s) ∈ filter (λ c : string * Series, c.1 = l) (columns df)) as Hin
      by (rewrite Hf; left).
    apply list_elem_of_filter in Hin as [Hl Hin]. simpl in Hl. by subst.
  - right. split; [done|lia].
Qed.

Lemma getitem_Ok_count (df : DataFrame) (l : string) (s : Series) :
  getitem df l = Ok s → count_label l (labels df) = 1 ∧ (l, s) ∈ columns df.
Proof. intros H. pose proof (getitem_count df l) as G. by rewrite H in G. Qed.

Lemma getitem_of_count (df : DataFrame) (l : string) :
  count_label l (labels df) = 1 → ∃ s, getitem df l = Ok s.
Proof.
  intros H. pose proof (getitem_count df l) as G.
  destruct (getitem df l) as [s|e]; [by exists s|].
  destruct G as [[_ G]|[_ G]]; lia.
Qed.

Lemma getitem_absent (df : DataFrame) (l : string) :
  l ∉ labels df → getitem df l = Raise (KeyError l).
Proof.
  intros H. apply count_label_0 in H. pose proof (getitem_count df l) as G.
  destruct (getitem df l) as [s|e].
  - destruct G; lia.
  - destruct G as [[-> _]|[_ G]]; [done|lia].
Qed.

Lemma getitem_present (df : DataFrame) (l : string) :
  NoDup (labels df) → l ∈ labels df → ∃ s, getitem df l = Ok s.
Proof.
  intros Hnd Hin. apply getitem_of_count.
  pose proof (count_label_NoDup l _ Hnd).
  destruct (count_label l (labels df)) as [|[|n]] eqn:E; [|done|lia].
  apply count_label_0 in E. done.
Qed.

(** A label that occurs once names one column: the columns carrying it are
    all that column. *)
Lemma unique_column (df : DataFrame) (l : string) (s : Series) :
  getitem df l = Ok s →
  ∀ c, c ∈ columns df → c.1 = l → c = (l, s).
Proof.
  unfold getitem. intros H c Hc Hl.
  assert (c ∈ filter (λ c : string * Series, c.1 = l) (columns df)) as Hin
    by (apply list_elem_of_filter; done).
  destruct (filter _ (columns df)) as [|c0 [|c1 rest]]; try discriminate.
  apply list_elem_of_singleton in Hin. subst c0.
  injection H as <-. destruct c; simpl in *; by subst.
Qed.

Lemma setitem_unique (g : Series → Series) (df : DataFrame) (l : string) (s : Series) :
  getitem df l = Ok s →
  setitem df l (g s)
  = mk_frame (nrows df)
      ((λ c : string * Series, if bool_decide (c.1 = l) then (c.1, g c.2) else c)
         <$> columns df).
Proof.
  intros H. unfold setitem. f_equal.
  apply list_fmap_ext. intros i c Hc.
  case_bool_decide as E; [|done].
  apply list_elem_of_lookup_2 in Hc.
  by rewrite (unique_column df l s H c Hc E).
Qed.

Lemma labels_setitem (df : DataFrame) (l : string) (s : Series) :
  labels (setitem df l s) = labels df.
Proof.
  unfold labels, setitem. simpl. rewrite <- list_fmap_compose.
  apply list_fmap_ext. intros i c _. simpl. by case_bool_decide.
Qed.

Lemma labels_fillna_columns (v : cell) (cols : list string) (df : DataFrame) :
  labels (fillna_columns v cols df) = labels df.
Proof.
  unfold labels, fillna_columns. simpl. rewrite <- list_fmap_compose.
  apply list_fmap_ext. intros i c _. simpl. by case_bool_decide.
Qed.

Lemma labels_fill_missing (df : DataFrame) :
  labels (fill_missing df) = labels df.
Proof. unfold fill_missing. by rewrite !labels_fillna_columns. Qed.

Ltac solve_elem :=
  repeat first [apply list_elem_of_here | apply list_elem_of_further].

(** ** The conversion block *)

Lemma convert_date_Ok (l : string) (df df' : DataFrame) :
  convert_date l df = Ok df' →
  df' = mk_frame (nrows df) (relabel l (to_datetime FmtDate) <$> columns df).
Proof.
  unfold convert_date. destruct (getitem df l) as [s|e] eqn:G; simpl; [|done].
  intros [= <-]. by apply (setitem_unique (to_datetime FmtDate)).
Qed.

Lemma convert_time_Ok (l : string) (df df' : DataFrame) :
  convert_time l df = Ok df' →
  df' = mk_frame (nrows df)
          (relabel l (λ s, dt_time (to_datetime FmtTime s)) <$> columns df).
Proof.
  unfold convert_time. destruct (getitem df l) as [s|e] eqn:G; simpl; [|done].
  intros [= <-]. by apply (setitem_unique (λ s, dt_time (to_datetime FmtTime s))).
Qed.

Lemma convert_column_other (c : string * Series) :
  c.1 ∉ datetime_cols → convert_column c = c.
Proof.
  unfold datetime_cols. rewrite not_elem_of_app. intros [Hd Ht].
  unfold convert_column. by rewrite !bool_decide_eq_false_2.
Qed.

Lemma relabel_hit (l : string) (g : Series → Series) (c : string * Series) :
  c.1 = l → relabel l g c = (c.1, g c.2).
Proof. intros E. unfold relabel. by rewrite bool_decide_eq_true_2. Qed.

Lemma relabel_miss (l : string) (g : Series → Series) (c : string * Series) :
  c.1 ≠ l → relabel l g c = c.
Proof. intros E. unfold relabel. by rewrite bool_decide_eq_false_2. Qed.

Ltac solve_not_elem :=
  repeat (apply not_elem_of_cons; split; [discriminate|]); apply not_elem_of_nil.

Ltac relabel_case E :=
  match type of E with
  | fst ?c = _ =>
      rewrite (relabel_hit _ _ c) by exact E;
      repeat (rewrite (relabel_miss _ _ (c.1, _))
                by (cbn [fst]; rewrite E; discriminate))
  end;
  unfold convert_column;
  first
    [ rewrite (bool_decide_eq_true_2 (_ ∈ date_cols)) by (rewrite E; solve_elem)
    | rewrite (bool_decide_eq_false_2 (_ ∈ date_cols)) by (rewrite E; solve_not_elem);
      rewrite (bool_decide_eq_true_2 (_ ∈ time_cols)) by (rewrite E; solve_elem) ];
  reflexivity.

Lemma relabel_chain (c : string * Series) :
  relabel "End_Time_grassland" (λ s, dt_time (to_datetime FmtTime s))
    (relabel "Start_Time_grassland" (λ s, dt_time (to_datetime FmtTime s))
       (relabel "End_Time_forest" (λ s, dt_time (to_datetime FmtTime s))
          (relabel "Start_Time_forest" (λ s, dt_time (to_datetime FmtTime s))
             (relabel "Date_grassland" (to_datetime FmtDate)
                (relabel "Date_forest" (to_datetime FmtDate) c)))))
  = convert_column c.
Proof.
  destruct (decide (c.1 = "Date_forest")) as [E1|N1]; [relabel_case E1|].
  rewrite (relabel_miss "Date_forest") by done.
  destruct (decide (c.1 = "Date_grassland")) as [E2|N2]; [relabel_case E2|].
  rewrite (relabel_miss "Date_grassland") by done.
  destruct (decide (c.1 = "Start_Time_forest")) as [E3|N3]; [relabel_case E3|].
  rewrite (relabel_miss "Start_Time_forest") by done.
  destruct (decide (c.1 = "End_Time_forest")) as [E4|N4]; [relabel_case E4|].
  rewrite (relabel_miss "End_Time_forest") by done.
  destruct (decide (c.1 = "Start_Time_grassland")) as [E5|N5]; [relabel_case E5|].
  rewrite (relabel_miss "Start_Time_grassland") by done.
  destruct (decide (c.1 = "End_Time_grassland")) as [E6|N6]; [relabel_case E6|].
  rewrite (relabel_miss "End_Time_grassland") by done.
  symmetry. apply convert_column_other. unfold datetime_cols, date_cols, time_cols.
  cbn [app]. rewrite !not_elem_of_cons. split_and!; try done. apply not_elem_of_nil.
Qed.

Lemma convert_types_Ok (df out : DataFrame) :
  convert_types df = Ok out →
  out = mk_frame (nrows df) (convert_column <$> columns df).
Proof.
  unfold convert_types. intros H.
  destruct (convert_date "Date_forest" df) as [d1|] eqn:E1; simpl in H; [|done].
  destruct (convert_date "Date_grassland" d1) as [d2|] eqn:E2; simpl in H; [|done].
  destruct (convert_time "Start_Time_forest" d2) as [d3|] eqn:E3; simpl in H; [|done].
  destruct (convert_time "End_Time_forest" d3) as [d4|] eqn:E4; simpl in H; [|done].
  destruct (convert_time "Start_Time_grassland" d4) as [d5|] eqn:E5; simpl in H; [|done].
  apply convert_date_Ok in E1, E2. apply convert_time_Ok in E3, E4, E5, H.
  subst. simpl. f_equal. rewrite <- !list_fmap_compose.
  apply list_fmap_ext. intros i c _. simpl. apply relabel_chain.
Qed.

Lemma convert_date_step (l : string) (df : DataFrame) :
  NoDup (labels df) →
  (l ∈ labels df ∧ (∃ df', convert_date l df = Ok df' ∧ labels df' = labels df))
  ∨ ((l ∉ labels df) ∧ convert_date l df = Raise (KeyError l)).
Proof.
  intros Hnd. unfold convert_date. destruct (decide (l ∈ labels df)) as [Hin|Hout].
  - left. split; [done|]. destruct (getitem_present df l Hnd Hin) as [s ->].
    simpl. eexists. split; [done|]. apply labels_setitem.
  - right. split; [done|]. by rewrite (getitem_absent df l Hout).
Qed.

Lemma convert_time_step (l : string) (df : DataFrame) :
  NoDup (labels df) →
  (l ∈ labels df ∧ (∃ df', convert_time l df = Ok df' ∧ labels df' = labels df))
  ∨ ((l ∉ labels df) ∧ convert_time l df = Raise (KeyError l)).
Proof.
  intros Hnd. unfold convert_time. destruct (decide (l ∈ labels df)) as [Hin|Hout].
  - left. split; [done|]. destruct (getitem_present df l Hnd Hin) as [s ->].
    simpl. eexists. split; [done|]. apply labels_setitem.
  - right. split; [done|]. by rewrite (getitem_absent df l Hout).
Qed.

Lemma convert_types_outcome (df : DataFrame) :
  NoDup (labels df) →
  (Forall (λ l, l ∈ labels df) datetime_cols ∧ (∃ out, convert_types df = Ok out))
  ∨ (∃ l, l ∈ datetime_cols ∧ (l ∉ labels df) ∧ convert_types df = Raise (KeyError l)).
Proof.
  intros Hnd. unfold convert_types.
  destruct (convert_date_step "Date_forest" df Hnd)
    as [[I1 (d1 & -> & L1)]|[O1 ->]]; simpl;
    [|right; eexists; split_and!; [|done|done]; solve_elem].
  rewrite <- L1 in Hnd.
  destruct (convert_date_step "Date_grassland" d1 Hnd)
    as [[I2 (d2 & -> & L2)]|[O2 ->]]; simpl;
    [|right; eexists; split_and!; [|by rewrite <- L1|done]; solve_elem].
  rewrite <- L2 in Hnd.
  destruct (convert_time_step "Start_Time_forest" d2 Hnd)
    as [[I3 (d3 & -> & L3)]|[O3 ->]]; simpl;
    [|right; eexists; split_and!; [|by rewrite <- L1, <- L2|done]; solve_elem].
  rewrite <- L3 in Hnd.
  destruct (convert_time_step "End_Time_forest" d3 Hnd)
    as [[I4 (d4 & -> & L4)]|[O4 ->]]; simpl;
    [|right; eexists; split_and!; [|by rewrite <- L1, <- L2, <- L3|done]; solve_elem].
  rewrite <- L4 in Hnd.
  destruct (convert_time_step "Start_Time_grassland" d4 Hnd)
    as [[I5 (d5 & -> & L5)]|[O5 ->]]; simpl;
    [|right; eexists; split_and!; [|by rewrite <- L1, <- L2, <- L3, <- L4|done]; solve_elem].
  rewrite <- L5 in Hnd.
  destruct (convert_time_step "End_Time_grassland" d5 Hnd)
    as [[I6 (d6 & -> & L6)]|[O6 ->]]; simpl;
    [|right; eexists; split_and!; [|by rewrite <- L1, <- L2, <- L3, <- L4, <- L5|done]; solve_elem].
  left. split; [|by eexists].
  rewrite L5, L4, L3, L2, L1 in I6. rewrite L4, L3, L2, L1 in I5.
  rewrite L3, L2, L1 in I4. rewrite L2, L1 in I3. rewrite L1 in I2.
  unfold datetime_cols, date_cols, time_cols. simpl. repeat constructor; done.
Qed.

Lemma filter_label_fmap (f : string * Series → string * Series) (l : string)
    (cols : list (string * Series)) :
  (∀ c, (f c).1 = c.1) →
  filter (λ c : string * Series, c.1 = l) (f <$> cols)
  = f <$> filter (λ c : string * Series, c.1 = l) cols.
Proof.
  intros Hf. induction cols as [|c cols IH]; [done|].
  rewrite fmap_cons, !filter_cons, Hf.
  destruct (decide (c.1 = l)); by rewrite IH.
Qed.

Lemma getitem_fmap (f : string * Series → string * Series) (n : nat)
    (df : DataFrame) (l : string) :
  (∀ c, (f c).1 = c.1) →
  getitem (mk_frame n (f <$> columns df)) l
  = match getitem df l with Ok s => Ok (f (l, s)).2 | Raise e => Raise e end.
Proof.
  intros Hf. unfold getitem. simpl. rewrite (filter_label_fmap f l _ Hf).
  destruct (filter _ (columns df)) as [|[l' s] [|c1 rest]] eqn:E; simpl; try done.
  assert ((l', s) ∈ filter (λ c : string * Series, c.1 = l) (columns df)) as Hin
    by (rewrite E; left).
  apply list_elem_of_filter in Hin as [Hl _]. simpl in Hl. by subst.
Qed.

(** ** The fill block, column by column *)

Lemma fill_column_label (df : DataFrame) (c : string * Series) :
  (fill_column df c).1 = c.1.
Proof. unfold fill_column. repeat case_bool_decide; done. Qed.

Lemma select_dtypes_fillna_columns (incl : dtype → bool) (v : cell)
    (cols : list string) (df : DataFrame) :
  select_dtypes incl (fillna_columns v cols df) = select_dtypes incl df.
Proof.
  unfold select_dtypes, fillna_columns. simpl.
  induction (columns df) as [|c l IH]; [done|].
  rewrite fmap_cons, !filter_cons.
  assert (dt ((if bool_decide (c.1 ∈ cols) then (c.1, fillna v c.2) else c).2) = dt c.2
          ∧ (if bool_decide (c.1 ∈ cols) then (c.1, fillna v c.2) else c).1 = c.1)
    as [-> E1] by (case_bool_decide; done).
  destruct (decide (incl (dt c.2) = true)); [|done].
  rewrite !fmap_cons, E1. by f_equal.
Qed.

Lemma fill_missing_columns (df : DataFrame) :
  fill_missing df = mk_frame (nrows df) (fill_column df <$> columns df).
Proof.
  unfold fill_missing. rewrite select_dtypes_fillna_columns.
  unfold fillna_columns at 1. simpl. f_equal.
  rewrite <- list_fmap_compose. apply list_fmap_ext. intros i c _. done.
Qed.

Lemma elem_of_select_dtypes (incl : dtype → bool) (df : DataFrame) (l : string) :
  l ∈ select_dtypes incl df ↔ ∃ s, (l, s) ∈ columns df ∧ incl (dt s) = true.
Proof.
  unfold select_dtypes. rewrite list_elem_of_fmap. split.
  - intros [[l' s] [-> Hin]]. apply list_elem_of_filter in Hin as [Hd Hin].
    by exists s.
  - intros [s [Hin Hd]]. exists (l, s). split; [done|].
    by apply list_elem_of_filter.
Qed.

(** With unique labels a column is filled by its own dtype. *)
Lemma fill_column_impute (df : DataFrame) (l : string) (s : Series) :
  count_label l (labels df) = 1 → (l, s) ∈ columns df →
  fill_column df (l, s) = (l, impute s).
Proof.
  intros Hc Hin. destruct (getitem_of_count df l Hc) as [s0 G].
  assert (∀ s', (l, s') ∈ columns df → s' = s) as Hu.
  { intros s' Hs'. pose proof (unique_column df l s0 G _ Hs' eq_refl).
    pose proof (unique_column df l s0 G _ Hin eq_refl). congruence. }
  assert (∀ incl, l ∈ select_dtypes incl df ↔ incl (dt s) = true) as Hsel.
  { intros incl. rewrite elem_of_select_dtypes. split.
    - intros [s' [Hs' Hd]]. by rewrite <- (Hu s' Hs').
    - intros Hd. by exists s. }
  unfold fill_column, impute. simpl.
  destruct (bool_decide (l ∈ select_dtypes is_number df)) eqn:Bn; simpl;
    destruct (bool_decide (l ∈ select_dtypes is_object df)) eqn:Bo;
    first [apply bool_decide_eq_true in Bn | apply bool_decide_eq_false in Bn];
    first [apply bool_decide_eq_true in Bo | apply bool_decide_eq_false in Bo];
    rewrite Hsel in Bn, Bo; destruct (dt s); simpl in *; congruence.
Qed.

(** Whatever the labels, filling keeps the dtype and the present cells, and
    puts nothing but a sentinel in place of a missing one. *)
Lemma fill_column_cells (df : DataFrame) (c : string * Series) :
  dt (fill_column df c).2 = dt c.2 ∧
  Forall2 (λ a b, b = a ∨ (isna a = true ∧ is_sentinel b))
    (values c.2) (values (fill_column df c).2).
Proof.
  unfold fill_column.
  repeat case_bool_decide; simpl; (split; [done|]);
    rewrite <- ?list_fmap_compose;
    first [apply Forall2_fmap_r | idtac];
    apply Forall_Forall2_diag, Forall_forall; intros a _;
    unfold fillna_cell, is_sentinel; destruct a; simpl; auto.
Qed.

Lemma preprocess_data_returns (f g out : DataFrame) :
  returns (preprocess_data (Some f) (Some g)) (Some out)
  ↔ merge_and_normalize f g = Ok out.
Proof.
  unfold returns, preprocess_data, merge_and_normalize, normalize.
  destruct (merge f g "AcceptedTSN" suffixes) as [m|e]; simpl; [|done].
  destruct (convert_types (fill_missing m)) as [o|e]; simpl; [|done].
  split; congruence.
Qed.

(** The output of the normalization, column by column. *)
Lemma normalize_columns (merged out : DataFrame) :
  normalize merged = Ok out →
  out = mk_frame (nrows merged)
          (convert_column <$> (fill_column merged <$> columns merged)).
Proof.
  unfold normalize. intros H. apply convert_types_Ok in H.
  by rewrite fill_missing_columns in H.
Qed.

Lemma convert_column_label (c : string * Series) : (convert_column c).1 = c.1.
Proof. unfold convert_column. repeat case_bool_decide; done. Qed.

Lemma normalize_getitem (merged out : DataFrame) (l : string) (s : Series) :
  normalize merged = Ok out → getitem merged l = Ok s →
  getitem out l = Ok (convert_column (l, (fill_column merged (l, s)).2)).2.
Proof.
  intros H G. rewrite (normalize_columns _ _ H).
  pose proof (getitem_fmap convert_column (nrows merged)
                (mk_frame (nrows merged) (fill_column merged <$> columns merged)) l
                convert_column_label) as E.
  simpl in E. rewrite E.
  rewrite (getitem_fmap (fill_column merged) (nrows merged) merged l
             (fill_column_label merged)), G.
  pose proof (fill_column_label merged (l, s)) as L. simpl in L.
  destruct (fill_column merged (l, s)) as [l' s']. simpl in *. by subst.
Qed.




(** C8 (amended).  On a merged table whose column labels are unique the
    normalization succeeds exactly when the six designated columns are all
    present, whatever their cells hold; when it fails it raises the
    [KeyError] of a designated column that is absent. *)
Theorem normalize_fails_exactly_on_absent_column (merged_df : DataFrame) :
  NoDup (labels merged_df) →
  ((∃ out, normalize merged_df = Ok out)
     ↔ Forall (λ l, l ∈ labels merged_df) datetime_cols)
  ∧ (∀ e, normalize merged_df = Raise e →
       ∃ l, e = KeyError l ∧ l ∈ datetime_cols ∧ (l ∉ labels merged_df)).
Proof.
  intros Hnd. unfold normalize.
  rewrite <- (labels_fill_missing merged_df) in *.
  destruct (convert_types_outcome _ Hnd) as [[Hall [out ->]]|(l & Hl & Habs & ->)].
  - split; [split; [done|by eexists]|done].
  - split.
    + split; [by intros [out ?]|].
      intros Hall. rewrite Forall_forall in Hall. by specialize (Hall l Hl).
    + intros e [= <-]. by exists l.
Qed.

Lemma count_label_elem (df : DataFrame) (l : string) (s : Series) :
  NoDup (labels df) → (l, s) ∈ columns df → count_label l (labels df) = 1.
Proof.
  intros Hnd Hin. pose proof (count_label_NoDup l _ Hnd).
  destruct (count_label l (labels df)) eqn:E; [|lia].
  apply count_label_0 in E. destruct E.
  unfold labels. apply list_elem_of_fmap. by exists (l, s).
Qed.

Lemma no_missing_fillna (v : cell) (s : Series) :
  isna v = false → no_missing (fillna v s).
Proof.
  intros Hv. unfold no_missing, fillna. simpl. apply Forall_fmap, Forall_forall.
  intros c _. simpl. unfold fillna_cell. by destruct (isna c) eqn:E.
Qed.

(** C1 (amended).  In the table [preprocess_data] returns, every column of
    the merged table other than the six designated date and time columns
    has been imputed by its own dtype: a numeric column holds [0] and a
    textual column holds ["Unknown"] wherever the merged table had a missing
    cell, and no cell of such a column is missing.  The six designated
    columns are assigned afterwards by the conversion block and are
    outside this statement. *)
Theorem imputation_outside_datetime_columns (f g merged out : DataFrame) :
  merge f g "AcceptedTSN" suffixes = Ok merged →
  NoDup (labels merged) →
  returns (preprocess_data (Some f) (Some g)) (Some out) →
  Forall2 (λ mc oc : string * Series,
             oc.1 = mc.1 ∧
             ((mc.1 ∉ datetime_cols) →
                oc.2 = impute mc.2 ∧
                (is_number (dt mc.2) = true ∨ is_object (dt mc.2) = true →
                   no_missing oc.2)))
    (columns merged) (columns out).
Proof.
  intros Hm Hnd Hr. apply preprocess_data_returns in Hr.
  unfold merge_and_normalize in Hr. rewrite Hm in Hr. simpl in Hr.
  rewrite (normalize_columns _ _ Hr). simpl.
  rewrite <- list_fmap_compose. apply Forall2_fmap_r, Forall_Forall2_diag, Forall_forall.
  intros [l s] Hin. simpl.
  rewrite (fill_column_impute merged l s (count_label_elem _ _ _ Hnd Hin) Hin).
  split; [apply convert_column_label|].
  intros Hl. rewrite convert_column_other by done. simpl. split; [done|].
  unfold impute. intros [Hn|Ho].
  - rewrite Hn. by apply no_missing_fillna.
  - destruct (is_number (dt s)); [by apply no_missing_fillna|].
    rewrite Ho. by apply no_missing_fillna.
Qed.
(** ** The text of a whole-second time reads back *)

Lemma split_on_no_sep (sep : ascii) (a : list ascii) :
  sep ∉ a → split_on sep a = [a].
Proof.
  induction a as [|c a IH]; [done|].
  intros [Hne Ha]%not_elem_of_cons. simpl.
  destruct (Ascii.eqb_spec c sep) as [->|_]; [done|]. by rewrite IH.
Qed.

Lemma split_on_app (sep : ascii) (a rest : list ascii) :
  sep ∉ a → split_on sep (a ++ sep :: rest) = a :: split_on sep rest.
Proof.
  induction a as [|c a IH]; intros Ha; simpl.
  - by rewrite Ascii.eqb_refl.
  - apply not_elem_of_cons in Ha as [Hne Ha].
    destruct (Ascii.eqb_spec c sep) as [->|_]; [done|]. by rewrite IH.
Qed.

Lemma two_digits (n : nat) :
  n < 60 → (":"%char ∉ zero_pad 2 n) ∧ field 1 2 (zero_pad 2 n) = Some n.
Proof.
  intros Hn.
  do 60 (destruct n as [|n];
         [split; [apply (bool_decide_unpack _); by vm_compute|by vm_compute]|]).
  lia.
Qed.

Lemma carry_seconds_whole (h m s : nat) :
  h < 24 → m < 60 → s < 60 →
  carry_seconds h m s = mk_datetime 1900 1 1 (mk_time h m s 0).
Proof.
  intros Hh Hm Hs. unfold carry_seconds. cbn zeta.
  rewrite (Nat.div_small s 60) by done. rewrite Nat.add_0_r.
  rewrite (Nat.div_small m 60) by done. rewrite Nat.add_0_r.
  rewrite (Nat.div_small h 24) by done.
  by rewrite !Nat.mod_small by done.
Qed.

Lemma strptime_isoformat (t : time) :
  whole_second t → strptime FmtTime (isoformat t) = Some (mk_datetime 1900 1 1 t).
Proof.
  destruct t as [h m s us]. unfold whole_second.
  cbn [hour minute second microsecond]. intros (Hh & Hm & Hs & ->).
  destruct (two_digits h ltac:(lia)) as [Sh Fh].
  destruct (two_digits m Hm) as [Sm Fm].
  destruct (two_digits s Hs) as [Ss Fs].
  unfold strptime, isoformat. cbn [hour minute second microsecond Nat.eqb].
  rewrite list_ascii_of_string_of_list_ascii, app_nil_r.
  rewrite (split_on_app _ _ _ Sh), (split_on_app _ _ _ Sm), (split_on_no_sep _ _ Ss).
  rewrite Fh, Fm, Fs.
  assert ((h <=? 23) = true) as -> by (apply Nat.leb_le; lia).
  assert ((m <=? 59) = true) as -> by (apply Nat.leb_le; lia).
  assert ((s <=? 61) = true) as -> by (apply Nat.leb_le; lia).
  cbn [andb]. by rewrite carry_seconds_whole.
Qed.

(** ** Normalizing twice *)

Lemma to_datetime_dt (fmt : format) (s : Series) : dt (to_datetime fmt s) = DDatetime.
Proof. unfold to_datetime. by destruct (dt s) eqn:E. Qed.

Lemma to_datetime_datetime (fmt : format) (s : Series) :
  dt s = DDatetime → to_datetime fmt s = s.
Proof. unfold to_datetime. by intros ->. Qed.

Lemma fillna_no_missing (v : cell) (s : Series) :
  no_missing s → fillna v s = s.
Proof.
  destruct s as [d vs]. unfold no_missing, fillna. simpl. intros H. f_equal.
  induction H as [|c vs Hc _ IH]; [done|].
  rewrite fmap_cons, IH. unfold fillna_cell. by rewrite Hc.
Qed.

Lemma impute_idem (s : Series) : impute (impute s) = impute s.
Proof.
  unfold impute. destruct (is_number (dt s)) eqn:En; simpl.
  - rewrite En. apply fillna_no_missing. by apply no_missing_fillna.
  - destruct (is_object (dt s)) eqn:Eo; simpl.
    + rewrite En, Eo. apply fillna_no_missing. by apply no_missing_fillna.
    + by rewrite En, Eo.
Qed.

Lemma time_cell_fixed (x : cell) :
  (∀ t, x = Time t → whole_second t) →
  (∃ y, x = time_of_cell y) →
  time_of_cell (to_datetime_scalar FmtTime (fillna_cell (Str "Unknown") x)) = x.
Proof.
  intros Hws [y ->].
  assert (time_of_cell (to_datetime_scalar FmtTime (fillna_cell (Str "Unknown") NaT))
          = NaT) as Hna by (by vm_compute).
  destruct y as [z|s|b|d|t| |]; try exact Hna.
  cbn [time_of_cell] in *. unfold fillna_cell. cbn [isna to_datetime_scalar].
  rewrite strptime_isoformat by (by apply Hws). reflexivity.
Qed.

Lemma time_series_fixed (s1 : Series) :
  (∀ t, Time t ∈ values (dt_time s1) → whole_second t) →
  dt_time (to_datetime FmtTime (impute (dt_time s1))) = dt_time s1.
Proof.
  intros Hws.
  assert (time_of_cell <$> values (to_datetime FmtTime (impute (dt_time s1)))
          = time_of_cell <$> values s1) as Hcells.
  { unfold dt_time in *. cbn zeta in *. cbn [values] in Hws. case_bool_decide as Hall.
    - unfold impute, to_datetime. cbn [dt values is_number is_object].
      destruct Hall as [_ Hall]. rewrite Forall_forall in Hall.
      transitivity (id <$> (time_of_cell <$> values s1)); [|apply list_fmap_id].
      apply list_fmap_ext. intros i y Hy. apply list_elem_of_lookup_2 in Hy.
      by rewrite (Hall y Hy).
    - unfold impute, to_datetime, fillna. cbn [dt values is_number is_object].
      rewrite <- !list_fmap_compose.
      apply list_fmap_ext. intros i y Hy. cbn [compose].
      apply (time_cell_fixed (time_of_cell y)); [|by eexists].
      intros t Ht. apply Hws. rewrite <- Ht.
      apply list_elem_of_fmap. exists y. split; [done|].
      by apply list_elem_of_lookup_2 in Hy. }
  unfold dt_time at 1. cbn zeta. rewrite Hcells. reflexivity.
Qed.

Lemma normalized_column_fixed (l : string) (s0 : Series) :
  (l ∈ time_cols →
   ∀ t, Time t ∈ values (convert_column (l, impute s0)).2 → whole_second t) →
  convert_column (l, impute (convert_column (l, impute s0)).2)
  = convert_column (l, impute s0).
Proof.
  intros Hws. unfold convert_column in *. cbn [fst snd] in *.
  destruct (bool_decide (l ∈ date_cols)) eqn:Bd.
  - (* a date column is of datetime dtype after the first pass *)
    cbn [fst snd].
    set (s := to_datetime FmtDate (impute s0)).
    assert (dt s = DDatetime) as E by apply to_datetime_dt.
    assert (impute s = s) as -> by (unfold impute; by rewrite E).
    by rewrite to_datetime_datetime.
  - destruct (bool_decide (l ∈ time_cols)) eqn:Bt.
    + (* a time column holds time objects and missing markers *)
      apply bool_decide_eq_true in Bt. specialize (Hws Bt).
      cbn [fst snd] in *. f_equal. by apply time_series_fixed.
    + cbn [fst snd]. by rewrite impute_idem.
Qed.

Lemma normalize_labels (t n : DataFrame) : normalize t = Ok n → labels n = labels t.
Proof.
  intros H. rewrite (normalize_columns _ _ H). unfold labels. simpl.
  rewrite <- !list_fmap_compose. apply list_fmap_ext. intros i c _. simpl.
  by rewrite convert_column_label, fill_column_label.
Qed.

(** C2 (amended).  Normalizing an already normalized table returns that
    very table, dates and times included, provided every time of day in
    its four time columns is a whole second (so that its text reads back
    under ['%H:%M:%S']). *)
Theorem normalize_idempotent_on_whole_seconds (t n : DataFrame) :
  NoDup (labels t) →
  normalize t = Ok n →
  whole_second_times n →
  normalize n = Ok n.
Proof.
  intros Hnd Ht Hws0.
  assert (∀ l s tt, (l, s) ∈ columns n → l ∈ time_cols →
            Time tt ∈ values s → whole_second tt) as Hws.
  { intros l s tt Hin Hl Htt. unfold whole_second_times in Hws0.
    rewrite Forall_forall in Hws0. specialize (Hws0 _ Hin Hl).
    rewrite Forall_forall in Hws0. by apply (Hws0 (Time tt)). }
  clear Hws0.
  pose proof (normalize_labels _ _ Ht) as Hlab.
  assert (NoDup (labels n)) as Hndn by (by rewrite Hlab).
  assert (NoDup (labels (fill_missing n))) as Hndf by (by rewrite labels_fill_missing).
  assert (NoDup (labels (fill_missing t))) as Hndt by (by rewrite labels_fill_missing).
  destruct (convert_types_outcome _ Hndf) as [[_ [n' Hn']]|(l & Hl & Habs & _)].
  - change (normalize n = Ok n') in Hn'. rewrite Hn'. f_equal.
    rewrite (normalize_columns _ _ Hn').
    pose proof (normalize_columns _ _ Ht) as En.
    assert (nrows n = nrows t) as Hrows by (by rewrite En).
    assert (columns n = convert_column <$> (fill_column t <$> columns t)) as Hcols
      by (by rewrite En).
    destruct n as [nr cols]. simpl in Hrows, Hcols. f_equal. simpl.
    rewrite <- list_fmap_compose.
    transitivity (id <$> cols); [|apply list_fmap_id].
    apply list_fmap_ext. intros i [l s] Hi. simpl.
    apply list_elem_of_lookup_2 in Hi as Hin.
    rewrite (fill_column_impute _ l s (count_label_elem _ _ _ Hndn Hin) Hin).
    rewrite Hcols in Hin. rewrite <- list_fmap_compose in Hin.
    apply list_elem_of_fmap in Hin as ([l0 s0] & Hc & Hin0). simpl in Hc.
    rewrite (fill_column_impute _ l0 s0 (count_label_elem _ _ _ Hnd Hin0) Hin0) in Hc.
    assert (l = l0) as <-.
    { pose proof (convert_column_label (l0, impute s0)) as L.
      rewrite <- Hc in L. done. }
    assert (s = (convert_column (l, impute s0)).2) as Hs by (by rewrite <- Hc).
    rewrite Hs. rewrite normalized_column_fixed; [by rewrite <- Hc|].
    intros Hlt tt Htt. rewrite <- Hs in Htt.
    apply (Hws l s tt); [|done|done].
    simpl. by apply list_elem_of_lookup_2 in Hi.
  - unfold normalize in Ht.
    destruct (convert_types_outcome _ Hndt) as [[Hall _]|(l' & _ & _ & E)];
      [|by rewrite E in Ht].
    rewrite Forall_forall in Hall. specialize (Hall l Hl).
    rewrite labels_fill_missing in Hall, Habs. by rewrite Hlab in Habs.
Qed.

(** ** The labels of the merged table *)

Lemma merge_Ok_inv (f g merged : DataFrame) (on : string) (sfx : string * string) :
  merge f g on sfx = Ok merged →
  ∃ lk rk llabels rlabels,
    getitem f on = Ok lk ∧ getitem g on = Ok rk ∧
    items_overlap_with_suffix (labels f) (drop_label on (columns g)).*1 sfx
      = Ok (llabels, rlabels) ∧
    merged =
      mk_frame (length (outer_join_indexers (values lk) (values rk)))
        (zip_with (λ (l : string) (c : string * Series),
                     if bool_decide (c.1 = on)
                     then (l, key_series lk rk
                                (outer_join_indexers (values lk) (values rk)))
                     else (l, take (outer_join_indexers (values lk) (values rk)).*1 c.2))
                  llabels (columns f)
         ++ zip_with (λ (l : string) (c : string * Series),
                        (l, take (outer_join_indexers (values lk) (values rk)).*2 c.2))
              rlabels (drop_label on (columns g))).
Proof.
  unfold merge. intros H.
  destruct (getitem f on) as [lk|] eqn:Gl; simpl in H; [|done].
  destruct (getitem g on) as [rk|] eqn:Gr; simpl in H; [|done].
  destruct (refused_keys lk rk); [done|].
  destruct (items_overlap_with_suffix _ _ sfx) as [[ll rl]|] eqn:Ho; simpl in H; [|done].
  injection H as <-. by exists lk, rk, ll, rl.
Qed.

Lemma items_overlap_labels (left right ll rl : list string) (sfx : string * string) :
  items_overlap_with_suffix left right sfx = Ok (ll, rl) →
  ll = renamer (filter (λ x, x ∈ right) left) sfx.1 <$> left ∧
  rl = renamer (filter (λ x, x ∈ right) left) sfx.2 <$> right.
Proof.
  unfold items_overlap_with_suffix.
  destruct (filter (λ x, x ∈ right) left) as [|x0 rest] eqn:E.
  - intros [= <- <-]. unfold renamer.
    split; rewrite <- (list_fmap_id) at 1; apply list_fmap_ext; intros i x _;
      by rewrite bool_decide_eq_false_2 by apply not_elem_of_nil.
  - destruct (new_duplicates _ _ ++ new_duplicates _ _); [|done].
    by intros [= <- <-].
Qed.

Lemma elem_of_drop_label (on : string) (cols : list (string * Series)) (x : string) :
  x ∈ (drop_label on cols).*1 ↔ x ∈ cols.*1 ∧ x ≠ on.
Proof.
  unfold drop_label. rewrite !list_elem_of_fmap. split.
  - intros [c [-> Hc]]. apply list_elem_of_filter in Hc as [Hne Hc].
    split; [by exists c|done].
  - intros [[c [-> Hc]] Hne]. exists c. split; [done|]. by apply list_elem_of_filter.
Qed.

Lemma drop_label_labels (on : string) (cols : list (string * Series)) :
  (drop_label on cols).*1 = filter (λ x, x ≠ on) cols.*1.
Proof.
  unfold drop_label. induction cols as [|c cols IH]; [done|].
  rewrite fmap_cons, !filter_cons.
  destruct (decide (c.1 ≠ on)); [rewrite fmap_cons; by f_equal|done].
Qed.

Lemma zip_with_fmap_label (h : string → string * Series → string * Series)
    (hl : string → string) (cols : list (string * Series)) :
  zip_with h (hl <$> cols.*1) cols = (λ c, h (hl c.1) c) <$> cols.
Proof. induction cols as [|c cols IH]; [done|]. cbn. f_equal. apply IH. Qed.

(** The merged table, column by column. *)
Lemma merge_columns (f g merged : DataFrame) (on : string) (sfx : string * string)
    (lk rk : Series) :
  merge f g on sfx = Ok merged →
  getitem f on = Ok lk → getitem g on = Ok rk →
  merged =
    mk_frame (length (outer_join_indexers (values lk) (values rk)))
      (((λ c : string * Series,
           (suffixed sfx.1 on (labels g) c.1,
            if bool_decide (c.1 = on)
            then key_series lk rk (outer_join_indexers (values lk) (values rk))
            else take (outer_join_indexers (values lk) (values rk)).*1 c.2))
          <$> columns f)
       ++ ((λ c : string * Series,
              (suffixed sfx.2 on (labels f) c.1,
               take (outer_join_indexers (values lk) (values rk)).*2 c.2))
             <$> drop_label on (columns g))).
Proof.
  intros H Gl Gr.
  destruct (merge_Ok_inv _ _ _ _ _ H) as (lk' & rk' & ll & rl & Gl' & Gr' & Ho & ->).
  rewrite Gl in Gl'. rewrite Gr in Gr'. injection Gl' as <-. injection Gr' as <-.
  apply items_overlap_labels in Ho as [-> ->]. f_equal. f_equal.
  - unfold labels at 2. rewrite zip_with_fmap_label.
    apply list_fmap_ext. intros i c Hc. simpl.
    assert (renamer (filter (λ x, x ∈ (drop_label on (columns g)).*1) (labels f))
              sfx.1 c.1 = suffixed sfx.1 on (labels g) c.1) as ->; [|by case_bool_decide].
    unfold renamer, suffixed. erewrite bool_decide_ext; [reflexivity|].
    rewrite list_elem_of_filter, elem_of_drop_label.
    assert (c.1 ∈ labels f); [|unfold labels in *; tauto].
    apply list_elem_of_fmap. exists c. split; [done|].
    by apply list_elem_of_lookup_2 in Hc.
  - rewrite zip_with_fmap_label.
    apply list_fmap_ext. intros i c Hc. simpl. f_equal.
    apply list_elem_of_lookup_2 in Hc.
    unfold renamer, suffixed. erewrite bool_decide_ext; [reflexivity|].
    rewrite list_elem_of_filter, elem_of_drop_label.
    apply list_elem_of_filter in Hc as [Hne Hc].
    assert (c.1 ∈ (columns g).*1) by (apply list_elem_of_fmap; by exists c).
    unfold labels. tauto.
Qed.

Lemma merge_labels (f g merged : DataFrame) (on : string) (sfx : string * string) :
  merge f g on sfx = Ok merged →
  labels merged
  = (suffixed sfx.1 on (labels g) <$> labels f)
    ++ (suffixed sfx.2 on (labels f) <$> filter (λ x, x ≠ on) (labels g)).
Proof.
  intros H. destruct (merge_Ok_inv _ _ _ _ _ H) as (lk & rk & _ & _ & Gl & Gr & _).
  rewrite (merge_columns _ _ _ _ _ _ _ H Gl Gr).
  unfold labels. simpl. rewrite fmap_app, <- drop_label_labels.
  by rewrite <- !list_fmap_compose.
Qed.

Lemma length_append (a b : string) :
  String.length (a +:+ b) = String.length a + String.length b.
Proof. induction a as [|c a IH]; simpl; [done|by rewrite IH]. Qed.

Lemma suffix_forest_not_key (x : string) : x +:+ "_forest" ≠ "AcceptedTSN".
Proof.
  intros H. assert (String.length x = 4) as Hlen.
  { apply (f_equal String.length) in H. rewrite length_append in H.
    simpl in H. lia. }
  destruct x as [|a1 [|a2 [|a3 [|a4 [|a5 x]]]]]; simpl in Hlen; try lia.
  simpl in H. discriminate.
Qed.

Lemma suffix_grassland_not_key (x : string) : x +:+ "_grassland" ≠ "AcceptedTSN".
Proof.
  intros H. assert (String.length x = 1) as Hlen.
  { apply (f_equal String.length) in H. rewrite length_append in H.
    simpl in H. lia. }
  destruct x as [|a1 [|a2 x]]; simpl in Hlen; try lia.
  simpl in H. discriminate.
Qed.

Lemma suffixed_key_iff (on : string) (sfx : string) (other : list string) (x : string) :
  (∀ y, y +:+ sfx ≠ on) →
  suffixed sfx on other x = on ↔ x = on.
Proof.
  intros Hs. unfold suffixed. case_bool_decide as E.
  - split; [intros H; by apply Hs in H|]. intros ->. by destruct E.
  - done.
Qed.

Lemma count_label_fmap_key (on : string) (h : string → string) (ls : list string) :
  (∀ x, x ∈ ls → h x = on ↔ x = on) →
  count_label on (h <$> ls) = count_label on ls.
Proof.
  unfold count_label. induction ls as [|x ls IH]; intros Hh; [done|].
  rewrite fmap_cons, !filter_cons.
  pose proof (Hh x ltac:(left)) as Hx.
  assert (∀ y, y ∈ ls → h y = on ↔ y = on) as Hh' by (intros y Hy; apply Hh; by right).
  destruct (decide (h x = on)), (decide (x = on)); simpl; rewrite ?IH by done; tauto.
Qed.

Lemma count_label_app (l : string) (a b : list string) :
  count_label l (a ++ b) = count_label l a + count_label l b.
Proof. unfold count_label. by rewrite filter_app, length_app. Qed.

(** C7.  In the merged table the key label occurs exactly once, unsuffixed;
    a label other than the key that both inputs carry appears as
    [label_forest] for the forest column and [label_grassland] for the
    grassland column, and every other label is unchanged. *)
Theorem suffixing_discipline (f g merged : DataFrame) :
  merge f g "AcceptedTSN" suffixes = Ok merged →
  count_label "AcceptedTSN" (labels merged) = 1
  ∧ labels merged
    = (suffixed "_forest" "AcceptedTSN" (labels g) <$> labels f)
      ++ (suffixed "_grassland" "AcceptedTSN" (labels f)
            <$> filter (λ x, x ≠ "AcceptedTSN") (labels g)).
Proof.
  intros H. pose proof (merge_labels _ _ _ _ _ H) as L. simpl in L.
  split; [|done]. rewrite L, count_label_app.
  destruct (merge_Ok_inv _ _ _ _ _ H) as (lk & rk & ll & rl & Gl & Gr & _).
  apply getitem_Ok_count in Gl as [Gl _].
  rewrite !count_label_fmap_key.
  - rewrite Gl. assert (count_label "AcceptedTSN"
                          (filter (λ x, x ≠ "AcceptedTSN") (labels g)) = 0) as ->; [|done].
    apply count_label_0. intros Hin. by apply list_elem_of_filter in Hin as [? _].
  - intros x _. apply suffixed_key_iff, suffix_grassland_not_key.
  - intros x _. apply suffixed_key_iff, suffix_forest_not_key.
Qed.

(** ** The row indexers of the outer join *)

Lemma elem_of_matches (j : nat) (k : cell) (ks : list cell) :
  j ∈ matches k ks ↔ ks !! j = Some k.
Proof.
  unfold matches. rewrite list_elem_of_fmap. split.
  - intros [[j' x] [-> Hin]]. apply list_elem_of_filter in Hin as [Hx Hin].
    apply elem_of_lookup_imap in Hin as (i & y & [= -> ->] & Hy). simpl in *. by subst.
  - intros H. exists (j, k). split; [done|]. apply list_elem_of_filter. split; [done|].
    apply elem_of_lookup_imap. by exists j, k.
Qed.

Lemma elem_of_left_rows (p : option nat * option nat) (lk rk : list cell) :
  p ∈ left_rows lk rk ↔ ∃ i k, lk !! i = Some k ∧ p ∈ row_entries rk i k.
Proof.
  unfold left_rows. rewrite list_elem_of_join. split.
  - intros (l & Hp & Hl). apply elem_of_lookup_imap in Hl as (i & k & -> & Hk).
    by exists i, k.
  - intros (i & k & Hk & Hp). exists (row_entries rk i k). split; [done|].
    apply elem_of_lookup_imap. by exists i, k.
Qed.

Lemma elem_of_right_rows (p : option nat * option nat) (lk rk : list cell) :
  p ∈ right_rows lk rk ↔ ∃ j k, rk !! j = Some k ∧ (k ∉ lk) ∧ p = (None, Some j).
Proof.
  unfold right_rows. rewrite list_elem_of_join. split.
  - intros (l & Hp & Hl). apply elem_of_lookup_imap in Hl as (j & k & -> & Hk).
    case_bool_decide; [by apply elem_of_nil in Hp|].
    apply list_elem_of_singleton in Hp. by exists j, k.
  - intros (j & k & Hk & Hn & ->).
    exists [(None, Some j)]. split; [left|].
    apply elem_of_lookup_imap. exists j, k. split; [|done].
    by rewrite bool_decide_eq_false_2.
Qed.

Lemma elem_of_row_entries (p : option nat * option nat) (rk : list cell) (i : nat)
    (k : cell) :
  p ∈ row_entries rk i k ↔
    (p = (Some i, None) ∧ (k ∉ rk)) ∨ (∃ j, p = (Some i, Some j) ∧ rk !! j = Some k).
Proof.
  unfold row_entries. destruct (matches k rk) as [|j0 js] eqn:E.
  - rewrite list_elem_of_singleton. split.
    + intros ->. left. split; [done|]. intros Hin.
      apply list_elem_of_lookup_1 in Hin as [j Hj]. apply elem_of_matches in Hj.
      rewrite E in Hj. by apply elem_of_nil in Hj.
    + intros [[-> _]|(j & -> & Hj)]; [done|].
      apply elem_of_matches in Hj. rewrite E in Hj. by apply elem_of_nil in Hj.
  - rewrite <- E. rewrite list_elem_of_fmap. split.
    + intros (j & -> & Hj). right. exists j. split; [done|]. by apply elem_of_matches.
    + intros [[-> Hn]|(j & -> & Hj)].
      * assert (j0 ∈ matches k rk) as Hj0 by (rewrite E; left).
        apply elem_of_matches, list_elem_of_lookup_2 in Hj0. done.
      * exists j. split; [done|]. by apply elem_of_matches.
Qed.

(** Every entry of the indexers is a matched pair of rows with one key, a
    left row whose key the right input lacks, or a right row whose key the
    left input lacks. *)
Lemma indexer_entry (lk rk : list cell) (p : option nat * option nat) :
  p ∈ outer_join_indexers lk rk →
  (∃ i j k, p = (Some i, Some j) ∧ lk !! i = Some k ∧ rk !! j = Some k)
  ∨ (∃ i k, p = (Some i, None) ∧ lk !! i = Some k ∧ (k ∉ rk))
  ∨ (∃ j k, p = (None, Some j) ∧ rk !! j = Some k ∧ (k ∉ lk)).
Proof.
  unfold outer_join_indexers. rewrite elem_of_app.
  rewrite elem_of_left_rows, elem_of_right_rows.
  intros [(i & k & Hk & Hp)|(j & k & Hk & Hn & ->)].
  - apply elem_of_row_entries in Hp as [[-> Hn]|(j & -> & Hj)].
    + right. left. by exists i, k.
    + left. by exists i, j, k.
  - right. right. by exists j, k.
Qed.

(** The key of a row tells where the row comes from: a key the right input
    lacks is the key of a left row without a match, and a key the left input
    lacks the key of a right row without a match. *)
Lemma key_cell_origin (lk rk : Series) (r : nat) (p : option nat * option nat) :
  outer_join_indexers (values lk) (values rk) !! r = Some p →
  (key_cell lk rk p ∉ values rk → ∃ i, p = (Some i, None))
  ∧ (key_cell lk rk p ∉ values lk → ∃ j, p = (None, Some j)).
Proof.
  intros Hp. apply list_elem_of_lookup_2, indexer_entry in Hp.
  destruct Hp as [(i & j & k & -> & Hi & Hj)|[(i & k & -> & Hi & Hn)|(j & k & -> & Hj & Hn)]];
    unfold key_cell, take_cell; cbn [fst snd].
  - rewrite Hi. cbn [default]. split; intros Hk; destruct Hk.
    + by apply list_elem_of_lookup_2 in Hj.
    + by apply list_elem_of_lookup_2 in Hi.
  - rewrite Hi. cbn [default]. split; intros Hk; [by exists i|].
    destruct Hk. by apply list_elem_of_lookup_2 in Hi.
  - rewrite Hj. cbn [default]. split; intros Hk; [|by exists j].
    destruct Hk. by apply list_elem_of_lookup_2 in Hj.
Qed.

Lemma left_row_covered (lk rk : list cell) (i : nat) (k : cell) :
  lk !! i = Some k → ∃ ro, (Some i, ro) ∈ outer_join_indexers lk rk.
Proof.
  intros Hk. destruct (decide (k ∈ rk)) as [Hin|Hn].
  - apply list_elem_of_lookup_1 in Hin as [j Hj]. exists (Some j).
    apply elem_of_app. left. apply elem_of_left_rows. exists i, k. split; [done|].
    apply elem_of_row_entries. right. by exists j.
  - exists None. apply elem_of_app. left. apply elem_of_left_rows. exists i, k.
    split; [done|]. apply elem_of_row_entries. by left.
Qed.

Lemma right_row_covered (lk rk : list cell) (j : nat) (k : cell) :
  rk !! j = Some k → ∃ lo, (lo, Some j) ∈ outer_join_indexers lk rk.
Proof.
  intros Hk. destruct (decide (k ∈ lk)) as [Hin|Hn].
  - apply list_elem_of_lookup_1 in Hin as [i Hi]. exists (Some i).
    apply elem_of_app. left. apply elem_of_left_rows. exists i, k. split; [done|].
    apply elem_of_row_entries. right. by exists j.
  - exists None. apply elem_of_app. right. apply elem_of_right_rows. by exists j, k.
Qed.

(** ** Cells of the merged table *)

Lemma na_value_isna (d : dtype) : isna (na_value d) = true.
Proof. by destruct d. Qed.

Lemma take_lookup (ix : list (option nat)) (s : Series) (r : nat) (o : option nat) :
  ix !! r = Some o → values (take ix s) !! r = Some (take_cell (dt s) (values s) o).
Proof. intros H. unfold take. simpl. by rewrite list_lookup_fmap, H. Qed.

Lemma take_missing (ix : list (option nat)) (s : Series) (r : nat) (l : string) :
  ix !! r = Some None → missing_at r (l, take ix s).
Proof.
  intros H. exists (na_value (dt s)). split; [|apply na_value_isna].
  unfold cell_at. simpl. by rewrite list_lookup_fmap, H.
Qed.

Section Merged.
Context (f g merged : DataFrame) (lk rk : Series).
Hypothesis Hmerge : merge f g "AcceptedTSN" suffixes = Ok merged.
Hypothesis Hlk : getitem f "AcceptedTSN" = Ok lk.
Hypothesis Hrk : getitem g "AcceptedTSN" = Ok rk.

Let ix := outer_join_indexers (values lk) (values rk).

Lemma merged_forest_part :
  forest_part f merged =
    (λ c : string * Series,
       (suffixed "_forest" "AcceptedTSN" (labels g) c.1,
        if bool_decide (c.1 = "AcceptedTSN") then key_series lk rk ix
        else take ix.*1 c.2)) <$> columns f.
Proof.
  unfold forest_part. rewrite (merge_columns _ _ _ _ _ _ _ Hmerge Hlk Hrk). simpl.
  rewrite take_app_length'; [done|]. by rewrite length_fmap.
Qed.

Lemma merged_grassland_part :
  grassland_part f merged =
    (λ c : string * Series,
       (suffixed "_grassland" "AcceptedTSN" (labels f) c.1, take ix.*2 c.2))
      <$> drop_label "AcceptedTSN" (columns g).
Proof.
  unfold grassland_part. rewrite (merge_columns _ _ _ _ _ _ _ Hmerge Hlk Hrk). simpl.
  rewrite drop_app_length'; [done|]. by rewrite length_fmap.
Qed.

Lemma merged_nrows : nrows merged = length ix.
Proof. by rewrite (merge_columns _ _ _ _ _ _ _ Hmerge Hlk Hrk). Qed.

Lemma merged_parts : columns merged = forest_part f merged ++ grassland_part f merged.
Proof. unfold forest_part, grassland_part. by rewrite take_drop. Qed.

Lemma suffixed_forest_key (x : string) (other : list string) :
  suffixed "_forest" "AcceptedTSN" other x = "AcceptedTSN" ↔ x = "AcceptedTSN".
Proof. apply suffixed_key_iff, suffix_forest_not_key. Qed.

Lemma merged_key_column : getitem merged "AcceptedTSN" = Ok (key_series lk rk ix).
Proof.
  assert (count_label "AcceptedTSN" (labels merged) = 1) as Hc.
  { pose proof (merge_labels _ _ _ _ _ Hmerge) as L. simpl in L.
    rewrite L, count_label_app, !count_label_fmap_key.
    - destruct (getitem_Ok_count _ _ _ Hlk) as [-> _].
      assert (count_label "AcceptedTSN"
                (filter (λ x, x ≠ "AcceptedTSN") (labels g)) = 0) as Hz.
      { apply count_label_0. intros Hin.
        by apply list_elem_of_filter in Hin as [? _]. }
      by rewrite Hz.
    - intros x _. apply suffixed_key_iff, suffix_grassland_not_key.
    - intros x _. apply suffixed_forest_key. }
  destruct (getitem_of_count _ _ Hc) as [s G]. rewrite G. f_equal.
  assert (("AcceptedTSN", key_series lk rk ix) ∈ columns merged) as Hin.
  { rewrite merged_parts, merged_forest_part. apply elem_of_app. left.
    apply list_elem_of_fmap. exists ("AcceptedTSN", lk).
    split; [|by apply getitem_Ok_count in Hlk as [_ ?]].
    reflexivity. }
  pose proof (unique_column _ _ _ G _ Hin eq_refl). congruence.
Qed.

(** A forest column of the merged table that is not the key is a forest
    column taken through the left indexer. *)
Lemma forest_column_take (c : string * Series) :
  c ∈ forest_part f merged → c.1 ≠ "AcceptedTSN" →
  ∃ s0, c = (c.1, take ix.*1 s0).
Proof.
  rewrite merged_forest_part. intros ([l0 s0] & -> & _)%list_elem_of_fmap Hne.
  simpl in *. exists s0. case_bool_decide as E; [|done].
  subst l0. destruct Hne. by apply suffixed_forest_key.
Qed.

Lemma grassland_column_take (c : string * Series) :
  c ∈ grassland_part f merged → ∃ s0, c = (c.1, take ix.*2 s0).
Proof.
  rewrite merged_grassland_part. intros ([l0 s0] & -> & _)%list_elem_of_fmap.
  by exists s0.
Qed.

Lemma key_cell_left (r i : nat) (ro : option nat) (k : cell) :
  ix !! r = Some (Some i, ro) → values lk !! i = Some k →
  values (key_series lk rk ix) !! r = Some k.
Proof.
  intros Hr Hk. unfold key_series. simpl. rewrite list_lookup_fmap, Hr. simpl.
  unfold key_cell, take_cell. simpl. by rewrite Hk.
Qed.

Lemma key_cell_right (r j : nat) (k : cell) :
  ix !! r = Some (None, Some j) → values rk !! j = Some k →
  values (key_series lk rk ix) !! r = Some k.
Proof.
  intros Hr Hk. unfold key_series. simpl. rewrite list_lookup_fmap, Hr. simpl.
  unfold key_cell, take_cell. simpl. by rewrite Hk.
Qed.

End Merged.

(** C5.  Every key of either input is the key of some row of the merged
    table; when the grassland input lacks the key that row is missing in
    every grassland column, and when the forest input lacks it that row is
    missing in every forest column other than the key. *)
Theorem join_completeness (f g merged : DataFrame) (lk rk : Series) (k : cell) :
  getitem f "AcceptedTSN" = Ok lk →
  getitem g "AcceptedTSN" = Ok rk →
  merge f g "AcceptedTSN" suffixes = Ok merged →
  k ∈ values lk ∨ k ∈ values rk →
  ∃ km r,
    getitem merged "AcceptedTSN" = Ok km ∧ values km !! r = Some k
    ∧ ((k ∉ values rk) → ∀ c, c ∈ grassland_part f merged → missing_at r c)
    ∧ ((k ∉ values lk) →
         ∀ c, c ∈ forest_part f merged → c.1 ≠ "AcceptedTSN" → missing_at r c).
Proof.
  intros Hlk Hrk Hm Hk.
  exists (key_series lk rk (outer_join_indexers (values lk) (values rk))).
  assert (k ∈ values lk ∨ ((k ∉ values lk) ∧ k ∈ values rk)) as [Hl|[Hnl Hr]]
    by (destruct (decide (k ∈ values lk)); tauto).
  - apply list_elem_of_lookup_1 in Hl as [i Hi].
    destruct (left_row_covered _ (values rk) _ _ Hi) as [ro Hin].
    apply list_elem_of_lookup_1 in Hin as Hrow. destruct Hrow as [r Hrow].
    exists r. split; [by apply (merged_key_column f g merged)|].
    split; [by eapply key_cell_left|]. split.
    + intros Hnr c Hc.
      destruct (grassland_column_take f g merged lk rk Hm Hlk Hrk c Hc) as [s0 ->].
      apply take_missing. rewrite list_lookup_fmap, Hrow. simpl. f_equal.
      apply indexer_entry in Hin as [(i' & j & k' & [= <- ->] & Hi' & Hj)
                                     |[(i' & k' & [= <- ->] & _)|(j & k' & [=] & _)]];
        [|done].
      rewrite Hi in Hi'. injection Hi' as <-.
      by apply list_elem_of_lookup_2 in Hj.
    + intros Hnl. by apply list_elem_of_lookup_2 in Hi.
  - apply list_elem_of_lookup_1 in Hr as [j Hj].
    destruct (right_row_covered (values lk) _ _ _ Hj) as [lo Hin].
    assert (lo = None) as ->.
    { apply indexer_entry in Hin as [(i & j' & k' & [= -> <-] & Hi & Hj')
                                     |[(i & k' & [=] & _)|(j' & k' & [= -> _] & _)]];
        [|done].
      rewrite Hj in Hj'. injection Hj' as <-.
      by apply list_elem_of_lookup_2 in Hi. }
    apply list_elem_of_lookup_1 in Hin as [r Hrow].
    exists r. split; [by apply (merged_key_column f g merged)|].
    split; [by eapply key_cell_right|]. split.
    + intros Hnr. by apply list_elem_of_lookup_2 in Hj.
    + intros _ c Hc Hne.
      destruct (forest_column_take f g merged lk rk Hm Hlk Hrk c Hc Hne) as [s0 ->].
      apply take_missing. by rewrite list_lookup_fmap, Hrow.
Qed.

(** ** Counting the rows of the outer join *)

Lemma length_matches_from (h : nat → nat) (k : cell) (ks : list cell) :
  length (filter (λ p : nat * cell, p.2 = k) (imap (λ i x, (h i, x)) ks))
  = length (filter (λ x, x = k) ks).
Proof.
  revert h. induction ks as [|x ks IH]; intros h; [done|].
  rewrite imap_cons, !filter_cons. simpl.
  specialize (IH (h ∘ S)). unfold compose in *.
  destruct (decide (x = k)); simpl; by rewrite IH.
Qed.

Lemma length_matches (k : cell) (ks : list cell) :
  length (matches k ks) = length (filter (λ x, x = k) ks).
Proof. unfold matches. rewrite length_fmap. apply (length_matches_from id). Qed.

Lemma length_mjoin {A} (ls : list (list A)) :
  length (mjoin ls) = sum_list (length <$> ls).
Proof.
  induction ls as [|l ls IH]; [done|]. simpl. by rewrite length_app, IH.
Qed.

Lemma length_left_rows (lk rk : list cell) :
  length (left_rows lk rk)
  = sum_list ((λ k, Nat.max 1 (length (matches k rk))) <$> lk).
Proof.
  unfold left_rows. rewrite length_mjoin. f_equal.
  apply list_eq. intros i. rewrite !list_lookup_fmap, list_lookup_imap.
  destruct (lk !! i) as [k|]; [|done]. simpl. f_equal.
  destruct (matches k rk) as [|j js]; [done|].
  simpl. rewrite ?length_fmap. lia.
Qed.

Lemma length_right_rows (lk rk : list cell) :
  length (right_rows lk rk) = length (filter (λ k, k ∉ lk) rk).
Proof.
  unfold right_rows. rewrite length_mjoin.
  transitivity (sum_list ((λ k, if bool_decide (k ∈ lk) then 0 else 1) <$> rk)).
  - f_equal. apply list_eq. intros j. rewrite !list_lookup_fmap, list_lookup_imap.
    destruct (rk !! j) as [k|]; [|done]. simpl. by case_bool_decide.
  - induction rk as [|k rk IH]; [done|]. rewrite fmap_cons, filter_cons. simpl.
    case_bool_decide; destruct (decide (k ∉ lk)); simpl; try done; by rewrite IH.
Qed.

Lemma sum_max_ge (h : cell → nat) (lk : list cell) :
  length lk ≤ sum_list ((λ k, Nat.max 1 (h k)) <$> lk).
Proof.
  induction lk as [|k lk IH]; [done|].
  rewrite fmap_cons. cbn [length sum_list sum_list_with id]. lia.
Qed.

Lemma indexers_ge_left (lk rk : list cell) :
  length lk ≤ length (outer_join_indexers lk rk).
Proof.
  unfold outer_join_indexers. rewrite length_app, length_left_rows.
  pose proof (sum_max_ge (λ k, length (matches k rk)) lk). lia.
Qed.

Lemma unmatched_cons (k : cell) (lk rk : list cell) :
  length (filter (λ x, x ∉ lk) rk)
  ≤ length (filter (λ x, x ∉ k :: lk) rk) + length (filter (λ x, x = k) rk).
Proof.
  induction rk as [|x rk IH]; [done|]. rewrite !filter_cons.
  destruct (decide (x ∉ lk)) as [Hx|Hx], (decide (x ∉ k :: lk)) as [Hy|Hy],
    (decide (x = k)) as [Hz|Hz]; simpl; try lia.
  destruct Hy. by apply not_elem_of_cons.
Qed.

Lemma filter_not_elem_nil (rk : list cell) : filter (λ x, x ∉ []) rk = rk.
Proof.
  induction rk as [|x rk IH]; [done|].
  rewrite filter_cons_True by apply not_elem_of_nil. by rewrite IH.
Qed.

Lemma right_count (lk rk : list cell) :
  length rk
  ≤ sum_list ((λ k, Nat.max 1 (length (filter (λ x, x = k) rk))) <$> lk)
    + length (filter (λ x, x ∉ lk) rk).
Proof.
  induction lk as [|k lk IH].
  - rewrite filter_not_elem_nil. cbn [fmap list_fmap sum_list sum_list_with]. lia.
  - rewrite fmap_cons. cbn [sum_list sum_list_with id].
    pose proof (unmatched_cons k lk rk). lia.
Qed.

Lemma indexers_ge_right (lk rk : list cell) :
  length rk ≤ length (outer_join_indexers lk rk).
Proof.
  unfold outer_join_indexers. rewrite length_app, length_left_rows, length_right_rows.
  pose proof (right_count lk rk) as H.
  erewrite (list_fmap_ext _ _ lk) in H; [exact H|].
  intros i k _. simpl. by rewrite length_matches.
Qed.

Lemma indexers_disjoint (lk rk : list cell) :
  (∀ k, k ∈ lk → k ∉ rk) →
  length (outer_join_indexers lk rk) = length lk + length rk.
Proof.
  intros Hd. unfold outer_join_indexers.
  rewrite length_app, length_left_rows, length_right_rows. f_equal.
  - induction lk as [|k lk IH]; [done|].
    rewrite fmap_cons. cbn [sum_list sum_list_with id length].
    rewrite IH by (intros k' Hk'; apply Hd; by right).
    assert (matches k rk = []) as ->; [|done].
    destruct (matches k rk) as [|j js] eqn:E; [done|].
    assert (j ∈ matches k rk) as Hj by (rewrite E; left).
    apply elem_of_matches, list_elem_of_lookup_2 in Hj.
    destruct (Hd k); [left|done].
  - f_equal. induction rk as [|x rk IH]; [done|].
    rewrite filter_cons_True.
    + f_equal. apply IH. intros k Hk Hin. apply (Hd k Hk). by right.
    + intros Hx. apply (Hd x Hx). left.
Qed.

Lemma disjoint_one_sided (lk rk : list cell) (r : nat) :
  (∀ k, k ∈ lk → k ∉ rk) →
  r < length (outer_join_indexers lk rk) →
  forest_only (outer_join_indexers lk rk) r
  ∨ grassland_only (outer_join_indexers lk rk) r.
Proof.
  intros Hd Hr. apply lookup_lt_is_Some_2 in Hr as [p Hp].
  apply list_elem_of_lookup_2 in Hp as Hin.
  apply indexer_entry in Hin as [(i & j & k & -> & Hi & Hj)
                                 |[(i & k & -> & _)|(j & k & -> & _)]].
  - apply list_elem_of_lookup_2 in Hi, Hj. by destruct (Hd k).
  - left. by exists i.
  - right. by exists j.
Qed.

Lemma length_remove_dups_le (l : list cell) : length (remove_dups l) ≤ length l.
Proof.
  induction l as [|x l IH]; [done|]. simpl.
  destruct (decide_rel elem_of x l); simpl; lia.
Qed.

(** ** Cells of the normalized table where the other habitat has no row *)

Lemma dt_impute (s : Series) : dt (impute s) = dt s.
Proof. unfold impute. by destruct (is_number (dt s)), (is_object (dt s)). Qed.

Lemma impute_lookup (T : Series) (r : nat) (v : cell) :
  values T !! r = Some v →
  values (impute T) !! r
  = Some (if is_number (dt T) then fillna_cell (Num 0) v
          else if is_object (dt T) then fillna_cell (Str "Unknown") v
          else v).
Proof.
  intros Hv. unfold impute.
  destruct (is_number (dt T)); [|destruct (is_object (dt T))];
    unfold fillna; cbn [values]; by rewrite ?list_lookup_fmap, Hv.
Qed.

Lemma absent_cell_converted (l : string) (d : dtype) (T : Series) (r : nat) :
  dt T = promote d → values T !! r = Some (na_value d) →
  filled_as_absent (convert_column (l, impute T)) r.
Proof.
  intros Hdt Hv. apply impute_lookup in Hv. rewrite Hdt in Hv.
  assert (dt (impute T) = promote d) as HdtS by (by rewrite dt_impute).
  set (S := impute T) in *. clearbody S. clear T Hdt.
  unfold filled_as_absent, cell_at, convert_column. cbn [fst snd].
  destruct (bool_decide (l ∈ date_cols)) eqn:Bd; cbn [fst snd].
  - apply bool_decide_eq_true in Bd.
    rewrite bool_decide_eq_true_2 by (apply elem_of_app; by left).
    unfold to_datetime. rewrite HdtS.
    destruct d; cbn [promote] in *; cbn [values];
      rewrite ?list_lookup_fmap, Hv; reflexivity.
  - destruct (bool_decide (l ∈ time_cols)) eqn:Bt; cbn [fst snd].
    + apply bool_decide_eq_true in Bt.
      rewrite bool_decide_eq_true_2 by (apply elem_of_app; by right).
      unfold dt_time, to_datetime. rewrite HdtS.
      destruct d; cbn [promote] in *; cbn [values];
        rewrite ?list_lookup_fmap, Hv; reflexivity.
    + apply bool_decide_eq_false in Bd, Bt.
      rewrite bool_decide_eq_false_2
        by (unfold datetime_cols; rewrite elem_of_app; tauto).
      rewrite HdtS, Hv. by destruct d.
Qed.

Lemma absent_cell_normalized (l : string) (ixs : list (option nat)) (s0 : Series)
    (r : nat) :
  ixs !! r = Some None →
  filled_as_absent (convert_column (l, impute (take ixs s0))) r.
Proof.
  intros Hr. apply (absent_cell_converted l (dt s0)).
  - unfold take. simpl. rewrite bool_decide_eq_true_2; [done|].
    by apply list_elem_of_lookup_2 in Hr.
  - by rewrite (take_lookup _ _ _ _ Hr).
Qed.

Lemma normalized_column (merged : DataFrame) (l : string) (s : Series) :
  NoDup (labels merged) → (l, s) ∈ columns merged →
  convert_column (fill_column merged (l, s)) = convert_column (l, impute s).
Proof.
  intros Hnd Hin.
  by rewrite (fill_column_impute merged l s (count_label_elem _ _ _ Hnd Hin) Hin).
Qed.

Lemma no_missing_impute (s : Series) :
  is_number (dt s) = true ∨ is_object (dt s) = true → no_missing (impute s).
Proof.
  unfold impute. intros [Hn|Ho].
  - rewrite Hn. by apply no_missing_fillna.
  - destruct (is_number (dt s)); [by apply no_missing_fillna|].
    rewrite Ho. by apply no_missing_fillna.
Qed.

Lemma wf_column_length (df : DataFrame) (l : string) (s : Series) :
  wf_frame df → getitem df l = Ok s → length (values s) = nrows df.
Proof.
  intros [_ Hlen] G. apply getitem_Ok_count in G as [_ Hin].
  rewrite Forall_forall in Hlen. by apply (Hlen (l, s)).
Qed.

Lemma normalized_label (merged : DataFrame) (c : string * Series) :
  (convert_column (fill_column merged c)).1 = c.1.
Proof. by rewrite convert_column_label, fill_column_label. Qed.

Lemma preprocess_data_normalize (f g merged out : DataFrame) :
  merge f g "AcceptedTSN" suffixes = Ok merged →
  returns (preprocess_data (Some f) (Some g)) (Some out) →
  normalize merged = Ok out.
Proof.
  intros Hm Hr. apply preprocess_data_returns in Hr.
  unfold merge_and_normalize in Hr. by rewrite Hm in Hr.
Qed.

Section Normalized.
Context (f g merged out : DataFrame) (lk rk : Series).
Hypothesis Hmerge : merge f g "AcceptedTSN" suffixes = Ok merged.
Hypothesis Hlk : getitem f "AcceptedTSN" = Ok lk.
Hypothesis Hrk : getitem g "AcceptedTSN" = Ok rk.
Hypothesis Hnd : NoDup (labels merged).
Hypothesis Hout : normalize merged = Ok out.

Let ix := outer_join_indexers (values lk) (values rk).

Lemma normalized_nrows : nrows out = length ix.
Proof.
  rewrite (normalize_columns _ _ Hout). simpl.
  by apply (merged_nrows f g merged lk rk).
Qed.

Lemma normalized_forest_part :
  forest_part f out
  = (λ c, convert_column (fill_column merged c)) <$> forest_part f merged.
Proof.
  unfold forest_part. rewrite (normalize_columns _ _ Hout). simpl.
  by rewrite <- list_fmap_compose, fmap_take.
Qed.

Lemma normalized_grassland_part :
  grassland_part f out
  = (λ c, convert_column (fill_column merged c)) <$> grassland_part f merged.
Proof.
  unfold grassland_part. rewrite (normalize_columns _ _ Hout). simpl.
  by rewrite <- list_fmap_compose, fmap_drop.
Qed.

Lemma grassland_absent (r : nat) (c : string * Series) :
  forest_only ix r → c ∈ grassland_part f out → filled_as_absent c r.
Proof.
  intros [i Hr]. rewrite normalized_grassland_part.
  intros (c0 & -> & Hc0)%list_elem_of_fmap.
  destruct (grassland_column_take f g merged lk rk Hmerge Hlk Hrk c0 Hc0) as [s0 E].
  assert (c0 ∈ columns merged) as Hin.
  { rewrite (merged_parts f merged). apply elem_of_app. by right. }
  rewrite E in Hin |- *. rewrite (normalized_column _ _ _ Hnd Hin).
  apply absent_cell_normalized. fold ix. by rewrite list_lookup_fmap, Hr.
Qed.

Lemma forest_absent (r : nat) (c : string * Series) :
  grassland_only ix r → c ∈ forest_part f out → c.1 ≠ "AcceptedTSN" →
  filled_as_absent c r.
Proof.
  intros [j Hr]. rewrite normalized_forest_part.
  intros (c0 & -> & Hc0)%list_elem_of_fmap Hne.
  rewrite normalized_label in Hne.
  destruct (forest_column_take f g merged lk rk Hmerge Hlk Hrk c0 Hc0 Hne) as [s0 E].
  assert (c0 ∈ columns merged) as Hin.
  { rewrite (merged_parts f merged). apply elem_of_app. by left. }
  rewrite E in Hin |- *. rewrite (normalized_column _ _ _ Hnd Hin).
  apply absent_cell_normalized. fold ix. by rewrite list_lookup_fmap, Hr.
Qed.

End Normalized.

(** C6 (amended).  The table [preprocess_data] returns has one row per
    entry of the join: at least as many as either input has rows or
    distinct keys, and exactly the sum of the two row counts when the
    inputs share no key, every row then coming from one input alone.  In a
    row that comes from one input alone, a column of the other habitat
    holds the sentinel of its dtype when it is numeric or textual and not
    one of the six designated columns; the designated columns and columns
    of datetime dtype hold the missing marker there. *)
Theorem disjoint_key_row_count (f g merged out : DataFrame) (lk rk : Series) :
  wf_frame f → wf_frame g →
  getitem f "AcceptedTSN" = Ok lk →
  getitem g "AcceptedTSN" = Ok rk →
  merge f g "AcceptedTSN" suffixes = Ok merged →
  NoDup (labels merged) →
  returns (preprocess_data (Some f) (Some g)) (Some out) →
  let ix := outer_join_indexers (values lk) (values rk) in
  nrows out = length ix
  ∧ Nat.max (nrows f) (nrows g) ≤ nrows out
  ∧ Nat.max (nunique (values lk)) (nunique (values rk)) ≤ nrows out
  ∧ (∀ r, forest_only ix r →
       ∀ c, c ∈ grassland_part f out → filled_as_absent c r)
  ∧ (∀ r, grassland_only ix r →
       ∀ c, c ∈ forest_part f out → c.1 ≠ "AcceptedTSN" → filled_as_absent c r)
  ∧ ((∀ k, k ∈ values lk → k ∉ values rk) →
       nrows out = nrows f + nrows g
       ∧ ∀ r, r < nrows out → forest_only ix r ∨ grassland_only ix r).
Proof.
  intros Hwf Hwg Hlk Hrk Hm Hnd Hr ix.
  pose proof (preprocess_data_normalize _ _ _ _ Hm Hr) as Hout.
  pose proof (normalized_nrows f g merged out lk rk Hm Hlk Hrk Hout) as Hn.
  pose proof (wf_column_length _ _ _ Hwf Hlk) as Hlf.
  pose proof (wf_column_length _ _ _ Hwg Hrk) as Hlg.
  pose proof (indexers_ge_left (values lk) (values rk)).
  pose proof (indexers_ge_right (values lk) (values rk)).
  pose proof (length_remove_dups_le (values lk)).
  pose proof (length_remove_dups_le (values rk)).
  fold ix in Hn. unfold nunique. split_and!.
  - done.
  - subst ix. lia.
  - subst ix. lia.
  - intros r Hfo c Hc.
    by apply (grassland_absent f g merged out lk rk Hm Hlk Hrk Hnd Hout r c).
  - intros r Hgo c Hc Hne.
    by apply (forest_absent f g merged out lk rk Hm Hlk Hrk Hnd Hout r c).
  - intros Hd. pose proof (indexers_disjoint _ _ Hd). split; [subst ix; lia|].
    intros r Hlt. apply disjoint_one_sided; [done|]. subst ix. lia.
Qed.

Lemma convert_column_length (c : string * Series) :
  length (values (convert_column c).2) = length (values c.2).
Proof.
  unfold convert_column, dt_time, to_datetime.
  repeat case_bool_decide; destruct (dt c.2); simpl; by rewrite ?length_fmap.
Qed.

Lemma fill_column_length (df : DataFrame) (c : string * Series) :
  length (values (fill_column df c).2) = length (values c.2).
Proof.
  unfold fill_column. repeat case_bool_decide; simpl; by rewrite ?length_fmap.
Qed.

Lemma merged_column_length (f g merged : DataFrame) (c : string * Series) :
  merge f g "AcceptedTSN" suffixes = Ok merged →
  c ∈ columns merged → length (values c.2) = nrows merged.
Proof.
  intros Hm Hc.
  destruct (merge_Ok_inv _ _ _ _ _ Hm) as (lk & rk & _ & _ & Gl & Gr & _).
  rewrite (merge_columns _ _ _ _ _ _ _ Hm Gl Gr) in Hc |- *. simpl in *.
  apply elem_of_app in Hc as [Hc|Hc]; apply list_elem_of_fmap in Hc as (c0 & -> & _);
    simpl; [case_bool_decide|]; simpl; by rewrite !length_fmap.
Qed.

(** C9 (amended).  The table [preprocess_data] returns has the labels of
    the merged table and one cell per row in every column; its key column
    has no missing cell when it is numeric or textual, and neither has any
    other numeric or textual column outside the six designated date and
    time columns.  In a row that one input alone contributes, every column
    of the other habitat that is one of the six designated columns or of
    datetime dtype holds the missing marker [NaT]; a row whose key in the
    merged table does not occur among the keys of the other input is such a
    row. *)
Theorem merged_table_invariant (f g merged out : DataFrame) :
  merge f g "AcceptedTSN" suffixes = Ok merged →
  NoDup (labels merged) →
  returns (preprocess_data (Some f) (Some g)) (Some out) →
  (∃ ks, getitem out "AcceptedTSN" = Ok ks
         ∧ (is_number (dt ks) = true ∨ is_object (dt ks) = true → no_missing ks))
  ∧ labels out = labels merged
  ∧ (∀ c, c ∈ columns out → length (values c.2) = nrows out)
  ∧ (∀ c, c ∈ columns out → (c.1 ∉ datetime_cols) →
       is_number (dt c.2) = true ∨ is_object (dt c.2) = true → no_missing c.2)
  ∧ (∃ lk rk km,
       getitem f "AcceptedTSN" = Ok lk ∧ getitem g "AcceptedTSN" = Ok rk
       ∧ getitem merged "AcceptedTSN" = Ok km
       ∧ nrows out = length (outer_join_indexers (values lk) (values rk))
       ∧ (∀ r c, forest_only (outer_join_indexers (values lk) (values rk)) r →
            c ∈ grassland_part f out →
            c.1 ∈ datetime_cols ∨ dt c.2 = DDatetime →
            cell_at c r = Some NaT)
       ∧ (∀ r c, grassland_only (outer_join_indexers (values lk) (values rk)) r →
            c ∈ forest_part f out → c.1 ≠ "AcceptedTSN" →
            c.1 ∈ datetime_cols ∨ dt c.2 = DDatetime →
            cell_at c r = Some NaT)
       ∧ (∀ r k, values km !! r = Some k → k ∉ values rk →
            forest_only (outer_join_indexers (values lk) (values rk)) r)
       ∧ (∀ r k, values km !! r = Some k → k ∉ values lk →
            grassland_only (outer_join_indexers (values lk) (values rk)) r)).
Proof.
  intros Hm Hnd Hr.
  pose proof (preprocess_data_normalize _ _ _ _ Hm Hr) as Hout.
  assert (∀ c, c ∈ columns out → (c.1 ∉ datetime_cols) →
            is_number (dt c.2) = true ∨ is_object (dt c.2) = true → no_missing c.2)
    as Hfill.
  { rewrite (normalize_columns _ _ Hout). simpl. rewrite <- list_fmap_compose.
    intros c ([l s] & -> & Hin)%list_elem_of_fmap. simpl.
    rewrite (normalized_column _ _ _ Hnd Hin).
    pose proof (convert_column_label (l, impute s)) as L. simpl in L.
    rewrite L. intros Hl. rewrite convert_column_other by done. simpl.
    rewrite dt_impute. apply no_missing_impute. }
  assert (∀ c r, filled_as_absent c r →
            c.1 ∈ datetime_cols ∨ dt c.2 = DDatetime → cell_at c r = Some NaT)
    as Habs.
  { intros c r Hf Hc. unfold filled_as_absent in Hf. rewrite Hf. f_equal.
    case_bool_decide as Hd; [done|]. destruct Hc as [Hc|Hc]; [done|]. by rewrite Hc. }
  destruct (merge_Ok_inv _ _ _ _ _ Hm) as (lk & rk & _ & _ & Gl & Gr & _).
  split_and!.
  - pose proof (merged_key_column f g merged lk rk Hm Gl Gr) as Gk.
    pose proof (normalize_getitem _ _ _ _ Hout Gk) as Gout.
    eexists. split; [exact Gout|].
    apply getitem_Ok_count in Gout as [_ Hin].
    apply (Hfill _ Hin). simpl. unfold datetime_cols, date_cols, time_cols. cbn [app].
    solve_not_elem.
  - by apply normalize_labels.
  - rewrite (normalize_columns _ _ Hout). simpl. rewrite <- list_fmap_compose.
    intros c (c0 & -> & Hin)%list_elem_of_fmap. simpl.
    rewrite convert_column_length, fill_column_length.
    by apply (merged_column_length f g).
  - done.
  - exists lk, rk, (key_series lk rk (outer_join_indexers (values lk) (values rk))).
    assert (∀ r k,
              values (key_series lk rk (outer_join_indexers (values lk) (values rk))) !! r
              = Some k →
              ∃ p, outer_join_indexers (values lk) (values rk) !! r = Some p
                   ∧ k = key_cell lk rk p) as Hkey.
    { intros r k Hk. cbn [key_series values] in Hk. rewrite list_lookup_fmap in Hk.
      destruct (outer_join_indexers (values lk) (values rk) !! r) as [p|]; [|done].
      injection Hk as <-. by exists p. }
    split_and!; [done|done| | | | | |].
    + by apply (merged_key_column f g merged lk rk).
    + by apply (normalized_nrows f g merged out lk rk).
    + intros r c Hfo Hc. apply Habs.
      by apply (grassland_absent f g merged out lk rk Hm Gl Gr Hnd Hout r c).
    + intros r c Hgo Hc Hne. apply Habs.
      by apply (forest_absent f g merged out lk rk Hm Gl Gr Hnd Hout r c).
    + intros r k Hk Hn. destruct (Hkey r k Hk) as (p & Hp & ->).
      destruct (proj1 (key_cell_origin lk rk r p Hp) Hn) as [i ->]. by exists i.
    + intros r k Hk Hn. destruct (Hkey r k Hk) as (p & Hp & ->).
      destruct (proj2 (key_cell_origin lk rk r p Hp) Hn) as [j ->]. by exists j.
Qed.

(** ** Loading *)

Lemma load_data_first_missing (fs : filesystem) (p1 p2 x : string) :
  fs p1 = Raise (FileNotFoundError x) →
  load_data fs p1 p2
  = ([StError ("Error loading file: " +:+ str_exn (FileNotFoundError x))],
     Ok (None, None)).
Proof. intros H. unfold load_data, read_workbook. by rewrite H. Qed.

Lemma load_data_second_missing (fs : filesystem) (p1 p2 x : string) (df1 : DataFrame) :
  read_workbook fs p1 = Ok df1 →
  fs p2 = Raise (FileNotFoundError x) →
  load_data fs p1 p2
  = ([StError ("Error loading file: " +:+ str_exn (FileNotFoundError x))],
     Ok (Some df1, None)).
Proof.
  intros H1 H2. unfold load_data. rewrite H1.
  unfold read_workbook at 1. by rewrite H2.
Qed.

(** C4 (amended).  When a workbook cannot be located, [load_data] shows the
    file error and returns no grassland table; it returns no forest table
    either when the forest workbook is the missing one, and the forest
    table it has already read when only the grassland workbook is missing.
    In both cases the script shows the failure and no stage of
    [preprocess_data] runs: its result is [None]. *)
Theorem load_data_source_not_found (fs : filesystem) (x : string) :
  fs file_path_forest = Raise (FileNotFoundError x)
  ∨ (∃ df1, read_workbook fs file_path_forest = Ok df1
            ∧ fs file_path_grassland = Raise (FileNotFoundError x)) →
  ∃ partial,
    load_data fs file_path_forest file_path_grassland
    = ([StError ("Error loading file: " +:+ str_exn (FileNotFoundError x))],
       Ok (partial, None))
    ∧ (fs file_path_forest = Raise (FileNotFoundError x) → partial = None)
    ∧ (∀ df1, read_workbook fs file_path_forest = Ok df1 → partial = Some df1)
    ∧ script fs
      = ([Spinner "Loading data...";
          StError ("Error loading file: " +:+ str_exn (FileNotFoundError x));
          StError "Data loading failed. Please check file paths."],
         Ok None).
Proof.
  intros [H1|(df1 & H1 & H2)].
  - exists None. pose proof (load_data_first_missing fs _ file_path_grassland _ H1) as L.
    split_and!; [done|done| |].
    + intros df1 Hd. unfold read_workbook in Hd. by rewrite H1 in Hd.
    + unfold script. by rewrite L.
  - exists (Some df1).
    pose proof (load_data_second_missing fs _ _ _ _ H1 H2) as L.
    split_and!; [done| |congruence|].
    + intros Hf. unfold read_workbook in H1. by rewrite Hf in H1.
    + unfold script. by rewrite L.
Qed.

(** ** [birds.py]: the side-by-side table *)

Lemma append_suffix_inj (sfx x y : string) : x +:+ sfx = y +:+ sfx → x = y.
Proof.
  revert y. induction x as [|a x IH]; intros [|b y] H.
  - done.
  - apply (f_equal String.length) in H. rewrite !length_append in H.
    cbn [String.length] in H. lia.
  - apply (f_equal String.length) in H. rewrite !length_append in H.
    cbn [String.length] in H. lia.
  - change (String a (x +:+ sfx) = String b (y +:+ sfx)) in H.
    injection H as -> H. f_equal. by apply IH.
Qed.

Section BirdsProofs.
Variable infer_datetime : inference.

Lemma labels_set_columns (df : DataFrame) (ls : list string) :
  length ls = length (columns df) → labels (set_columns df ls) = ls.
Proof.
  unfold labels, set_columns. simpl. generalize (columns df).
  induction ls as [|l ls IH]; intros [|c cols] Hlen; try done.
  simpl in *. f_equal. apply IH. lia.
Qed.

Lemma set_columns_values (df : DataFrame) (ls : list string) :
  length ls = length (columns df) →
  (columns (set_columns df ls)).*2 = (columns df).*2.
Proof.
  unfold set_columns. simpl. generalize (columns df).
  induction ls as [|l ls IH]; intros [|c cols] Hlen; try done.
  simpl in *. f_equal. apply IH. lia.
Qed.

Lemma wf_set_columns (df : DataFrame) (sfx : string) :
  wf_frame df →
  wf_frame (set_columns df ((λ col, col +:+ sfx) <$> labels df)).
Proof.
  intros [Hnd Hlen]. split.
  - rewrite labels_set_columns by (unfold labels; by rewrite !length_fmap).
    apply NoDup_fmap_2; [|done]. intros x y. apply append_suffix_inj.
  - assert (Forall (λ s : Series, length (values s) = nrows df)
              (columns (set_columns df ((λ col, col +:+ sfx) <$> labels df))).*2) as H.
    { rewrite set_columns_values by (unfold labels; by rewrite !length_fmap).
      by apply Forall_fmap. }
    by apply Forall_fmap in H.
Qed.

Lemma to_datetime_infer_length (s : Series) :
  length (values (to_datetime_infer infer_datetime s)) = length (values s).
Proof.
  unfold to_datetime_infer. destruct (dt s); simpl; by rewrite ?length_fmap.
Qed.

Lemma wf_setitem (df : DataFrame) (l : string) (s : Series) :
  wf_frame df → length (values s) = nrows df → wf_frame (setitem df l s).
Proof.
  intros [Hnd Hlen] Hs. split; [by rewrite labels_setitem|].
  unfold setitem. simpl. apply Forall_fmap, Forall_forall. intros c Hc. simpl.
  rewrite Forall_forall in Hlen. case_bool_decide; simpl; [done|by apply Hlen].
Qed.

(** On a well-formed frame the date loop cannot fail, and it keeps the
    frame's shape. *)
Lemma convert_date_cols_wf (date_cols : list string) (df : DataFrame) :
  wf_frame df → date_cols ⊆ labels df →
  ∃ df', convert_date_cols infer_datetime date_cols df = Ok df'
         ∧ wf_frame df' ∧ nrows df' = nrows df ∧ labels df' = labels df.
Proof.
  revert df. induction date_cols as [|col cols IH]; intros df Hwf Hsub.
  - by exists df.
  - simpl. destruct (getitem_present df col (proj1 Hwf)) as [s G].
    { apply Hsub. left. }
    rewrite G. simpl.
    pose proof (wf_column_length _ _ _ Hwf G) as Hl.
    destruct (IH (setitem df col (to_datetime_infer infer_datetime s))) as (df' & E & W & N & L).
    + apply wf_setitem; [done|]. by rewrite to_datetime_infer_length.
    + rewrite labels_setitem. intros x Hx. apply Hsub. by right.
    + exists df'. rewrite labels_setitem in L. by split_and!.
Qed.

Lemma head_rows_full (n : nat) (df : DataFrame) :
  wf_frame df → n ≤ nrows df →
  nrows (head_rows n df) = n
  ∧ Forall (λ c : string * Series, length (values c.2) = n) (columns (head_rows n df)).
Proof.
  intros [_ Hlen] Hn. unfold head_rows. simpl. split; [lia|].
  apply Forall_fmap, Forall_forall. intros c Hc. simpl.
  rewrite Forall_forall in Hlen. rewrite length_take, (Hlen c Hc). lia.
Qed.

Lemma reindex_rows_same (n : nat) (s : Series) :
  length (values s) = n → reindex_rows n n s = s.
Proof.
  intros H. unfold reindex_rows. rewrite Nat.ltb_irrefl.
  destruct s as [d vs]. simpl in *. f_equal. by apply resize_all_alt.
Qed.

Lemma concat_axis1_same (a b : DataFrame) (n : nat) :
  nrows a = n → nrows b = n →
  Forall (λ c : string * Series, length (values c.2) = n) (columns a) →
  Forall (λ c : string * Series, length (values c.2) = n) (columns b) →
  concat_axis1 a b = mk_frame n (columns a ++ columns b).
Proof.
  intros Ha Hb Hla Hlb. unfold concat_axis1. rewrite Ha, Hb, Nat.max_id. f_equal.
  f_equal.
  - transitivity (id <$> columns a); [|apply list_fmap_id].
    apply list_fmap_ext. intros i [l s] Hc. simpl.
    rewrite Forall_forall in Hla. apply list_elem_of_lookup_2 in Hc.
    by rewrite reindex_rows_same by apply (Hla _ Hc).
  - transitivity (id <$> columns b); [|apply list_fmap_id].
    apply list_fmap_ext. intros i [l s] Hc. simpl.
    rewrite Forall_forall in Hlb. apply list_elem_of_lookup_2 in Hc.
    by rewrite reindex_rows_same by apply (Hlb _ Hc).
Qed.

Lemma date_labels_subset (df : DataFrame) :
  filter (λ col, contains "Date" col = true) (labels df) ⊆ labels df.
Proof. intros x Hx. by apply list_elem_of_filter in Hx as [_ ?]. Qed.

End BirdsProofs.

(** ** The example tables *)

Ltac by_compute := apply (bool_decide_unpack _); vm_compute; exact I.

Lemma merge_A : merge forest_A grassland_A "AcceptedTSN" suffixes = Ok merged_A.
Proof. vm_compute. reflexivity. Qed.

Lemma normalize_A : normalize merged_A = Ok normalized_A.
Proof. vm_compute. reflexivity. Qed.

Lemma preprocess_A :
  returns (preprocess_data (Some forest_A) (Some grassland_A)) (Some normalized_A).
Proof. vm_compute. reflexivity. Qed.

Lemma preprocess_A_shown :
  shown (preprocess_data (Some forest_A) (Some grassland_A))
  = [Spinner "Merging data..."; Spinner "Filling missing values...";
     Spinner "Converting data types..."].
Proof. vm_compute. reflexivity. Qed.



Lemma merge_D : merge forest_D grassland_D "AcceptedTSN" suffixes = Ok merged_D.
Proof. vm_compute. reflexivity. Qed.

Lemma preprocess_D :
  returns (preprocess_data (Some forest_D) (Some grassland_D)) (Some normalized_D).
Proof. vm_compute. reflexivity. Qed.

Lemma merge_S : merge forest_S grassland_S "AcceptedTSN" suffixes = Ok merged_S.
Proof. vm_compute. reflexivity. Qed.

Lemma imputation_totality_counterexample :
  merge forest_A grassland_A "AcceptedTSN" suffixes = Ok merged_A
  ∧ returns (preprocess_data (Some forest_A) (Some grassland_A)) (Some normalized_A)
  ∧ getitem merged_A "Start_Time_grassland"
    = Ok (mk_series DObject [NaN; Str "10:00:00"])
  ∧ getitem normalized_A "Start_Time_grassland"
    = Ok (mk_series DObject [NaT; Time (mk_time 10 0 0 0)])
  ∧ ¬ imputation_total normalized_A.
Proof.
  split; [exact merge_A|]. split; [exact preprocess_A|].
  split; [vm_compute; reflexivity|]. split; [vm_compute; reflexivity|].
  intros H.
  assert (no_missing (mk_series DObject [NaT; Time (mk_time 10 0 0 0)])) as Hn.
  { apply (H "Start_Time_grassland"); [unfold normalized_A; simpl; solve_elem|by right]. }
  unfold no_missing in Hn. simpl in Hn. apply Forall_cons in Hn as [Hn _].
  discriminate Hn.
Qed.

Lemma imputation_witness :
  merge forest_A grassland_A "AcceptedTSN" suffixes = Ok merged_A
  ∧ NoDup (labels merged_A)
  ∧ returns (preprocess_data (Some forest_A) (Some grassland_A)) (Some normalized_A)
  ∧ Forall2 (λ mc oc : string * Series,
               oc.1 = mc.1 ∧
               ((mc.1 ∉ datetime_cols) →
                  oc.2 = impute mc.2 ∧
                  (is_number (dt mc.2) = true ∨ is_object (dt mc.2) = true →
                     no_missing oc.2)))
      (columns merged_A) (columns normalized_A).
Proof.
  split; [exact merge_A|]. split; [by_compute|]. split; [exact preprocess_A|].
  apply (imputation_outside_datetime_columns forest_A grassland_A merged_A normalized_A
           merge_A ltac:(by_compute) preprocess_A).
Defined.

Lemma normalize_twice_counterexample :
  merge forest_S grassland_S "AcceptedTSN" suffixes = Ok merged_S
  ∧ normalize merged_S = Ok normalized_S
  ∧ normalize normalized_S = Ok renormalized_S
  ∧ getitem normalized_S "Start_Time_forest"
    = Ok (mk_series DObject [Time (mk_time 8 30 0 250)])
  ∧ getitem renormalized_S "Start_Time_forest" = Ok (mk_series DDatetime [NaT])
  ∧ normalize normalized_S ≠ Ok normalized_S.
Proof.
  split; [exact merge_S|].
  split; [vm_compute; reflexivity|]. split; [vm_compute; reflexivity|].
  split; [vm_compute; reflexivity|]. split; [vm_compute; reflexivity|].
  assert (normalize normalized_S = Ok renormalized_S) as E by (vm_compute; reflexivity).
  rewrite E. discriminate.
Qed.

Lemma normalize_idempotent_witness :
  NoDup (labels merged_A)
  ∧ normalize merged_A = Ok normalized_A
  ∧ whole_second_times normalized_A
  ∧ normalize normalized_A = Ok normalized_A.
Proof.
  split; [by_compute|]. split; [exact normalize_A|]. split; [by_compute|].
  apply (normalize_idempotent_on_whole_seconds merged_A normalized_A
           ltac:(by_compute) normalize_A ltac:(by_compute)).
Defined.


Lemma load_data_counterexample :
  forest_only_files file_path_grassland = Raise (FileNotFoundError file_path_grassland)
  ∧ returns (load_data forest_only_files file_path_forest file_path_grassland)
      (Some forest_A, None)
  ∧ ¬ returns (load_data forest_only_files file_path_forest file_path_grassland)
        (None, None).
Proof.
  split; [vm_compute; reflexivity|].
  assert (returns (load_data forest_only_files file_path_forest file_path_grassland)
            (Some forest_A, None)) as H by (vm_compute; reflexivity).
  split; [exact H|]. unfold returns in *. rewrite H. discriminate.
Qed.

Lemma load_data_witness :
  ∃ partial,
    load_data forest_only_files file_path_forest file_path_grassland
    = ([StError ("Error loading file: "
                 +:+ str_exn (FileNotFoundError file_path_grassland))],
       Ok (partial, None))
    ∧ (forest_only_files file_path_forest
         = Raise (FileNotFoundError file_path_grassland) → partial = None)
    ∧ (∀ df1, read_workbook forest_only_files file_path_forest = Ok df1 →
         partial = Some df1)
    ∧ script forest_only_files
      = ([Spinner "Loading data...";
          StError ("Error loading file: "
                   +:+ str_exn (FileNotFoundError file_path_grassland));
          StError "Data loading failed. Please check file paths."],
         Ok None).
Proof.
  apply (load_data_source_not_found forest_only_files file_path_grassland).
  right. exists forest_A. split; vm_compute; reflexivity.
Defined.

Lemma join_completeness_witness :
  getitem forest_A "AcceptedTSN" = Ok (mk_series DInt [Num 1])
  ∧ getitem grassland_A "AcceptedTSN" = Ok (mk_series DInt [Num 2])
  ∧ merge forest_A grassland_A "AcceptedTSN" suffixes = Ok merged_A
  ∧ ∃ km r,
      getitem merged_A "AcceptedTSN" = Ok km ∧ values km !! r = Some (Num 1)
      ∧ ((Num 1 ∉ [Num 2]) →
           ∀ c, c ∈ grassland_part forest_A merged_A → missing_at r c)
      ∧ ((Num 1 ∉ [Num 1]) →
           ∀ c, c ∈ forest_part forest_A merged_A → c.1 ≠ "AcceptedTSN" →
                missing_at r c).
Proof.
  assert (getitem forest_A "AcceptedTSN" = Ok (mk_series DInt [Num 1])) as Hl
    by (vm_compute; reflexivity).
  assert (getitem grassland_A "AcceptedTSN" = Ok (mk_series DInt [Num 2])) as Hr
    by (vm_compute; reflexivity).
  split; [exact Hl|]. split; [exact Hr|]. split; [exact merge_A|].
  apply (join_completeness forest_A grassland_A merged_A _ _ (Num 1) Hl Hr merge_A).
  left. left.
Defined.

Lemma disjoint_key_counterexample :
  merge forest_D grassland_D "AcceptedTSN" suffixes = Ok merged_D
  ∧ returns (preprocess_data (Some forest_D) (Some grassland_D)) (Some normalized_D)
  ∧ nrows normalized_D = nrows forest_D + nrows grassland_D
  ∧ forest_only (outer_join_indexers [Num 1] [Num 2]) 0
  ∧ ¬ sentinels_at (grassland_part forest_D (fill_missing merged_D)) 0
  ∧ ¬ sentinels_at (grassland_part forest_D normalized_D) 0.
Proof.
  split; [exact merge_D|]. split; [exact preprocess_D|]. split; [reflexivity|].
  split; [by exists 0|].
  split; intros H;
    destruct (H ("Date_grassland",
                 mk_series DDatetime [NaT; Timestamp (mk_datetime 2021 7 1 midnight)]))
      as (v & Hv & Hs);
    try (vm_compute; solve_elem);
    vm_compute in Hv; injection Hv as <-; by destruct Hs.
Qed.

Lemma disjoint_key_witness :
  wf_frame forest_A ∧ wf_frame grassland_A
  ∧ getitem forest_A "AcceptedTSN" = Ok (mk_series DInt [Num 1])
  ∧ getitem grassland_A "AcceptedTSN" = Ok (mk_series DInt [Num 2])
  ∧ merge forest_A grassland_A "AcceptedTSN" suffixes = Ok merged_A
  ∧ NoDup (labels merged_A)
  ∧ returns (preprocess_data (Some forest_A) (Some grassland_A)) (Some normalized_A)
  ∧ (∀ k, k ∈ [Num 1] → k ∉ [Num 2])
  ∧ nrows normalized_A = nrows forest_A + nrows grassland_A
  ∧ (∀ r, forest_only (outer_join_indexers [Num 1] [Num 2]) r →
       ∀ c, c ∈ grassland_part forest_A normalized_A → filled_as_absent c r).
Proof.
  assert (getitem forest_A "AcceptedTSN" = Ok (mk_series DInt [Num 1])) as Hl
    by (vm_compute; reflexivity).
  assert (getitem grassland_A "AcceptedTSN" = Ok (mk_series DInt [Num 2])) as Hr
    by (vm_compute; reflexivity).
  assert (∀ k, k ∈ [Num 1] → k ∉ [Num 2]) as Hd.
  { intros k ->%list_elem_of_singleton Hin. by apply list_elem_of_singleton in Hin. }
  destruct (disjoint_key_row_count forest_A grassland_A merged_A normalized_A _ _
              ltac:(by_compute) ltac:(by_compute) Hl Hr merge_A ltac:(by_compute)
              preprocess_A)
    as (_ & _ & _ & Hfo & _ & Hdis).
  split; [by_compute|]. split; [by_compute|]. split; [exact Hl|]. split; [exact Hr|].
  split; [exact merge_A|]. split; [by_compute|]. split; [exact preprocess_A|].
  split; [exact Hd|]. split; [exact (proj1 (Hdis Hd))|exact Hfo].
Defined.

Lemma suffixing_witness :
  merge forest_A grassland_A "AcceptedTSN" suffixes = Ok merged_A
  ∧ count_label "AcceptedTSN" (labels merged_A) = 1
  ∧ labels merged_A
    = (suffixed "_forest" "AcceptedTSN" (labels grassland_A) <$> labels forest_A)
      ++ (suffixed "_grassland" "AcceptedTSN" (labels forest_A)
            <$> filter (λ x, x ≠ "AcceptedTSN") (labels grassland_A)).
Proof.
  split; [exact merge_A|].
  exact (suffixing_discipline forest_A grassland_A merged_A merge_A).
Defined.

Lemma normalize_failure_witness :
  NoDup (labels merged_A)
  ∧ ((∃ out, normalize merged_A = Ok out)
       ↔ Forall (λ l, l ∈ labels merged_A) datetime_cols)
  ∧ NoDup (labels forest_A)
  ∧ normalize forest_A = Raise (KeyError "Date_forest")
  ∧ (∀ e, normalize forest_A = Raise e →
       ∃ l, e = KeyError l ∧ l ∈ datetime_cols ∧ (l ∉ labels forest_A)).
Proof.
  split; [by_compute|].
  split; [exact (proj1 (normalize_fails_exactly_on_absent_column merged_A
                          ltac:(by_compute)))|].
  split; [by_compute|]. split; [vm_compute; reflexivity|].
  exact (proj2 (normalize_fails_exactly_on_absent_column forest_A ltac:(by_compute))).
Defined.

Lemma normalize_failure_counterexample :
  merge forest_X grassland_A "AcceptedTSN" suffixes = Ok merged_X
  ∧ count_label "Date_grassland" (labels merged_X) = 2
  ∧ Forall (λ l, l ∈ labels merged_X) datetime_cols
  ∧ normalize merged_X = Raise ValueError
  ∧ (preprocess_data (Some forest_X) (Some grassland_A)).2 = Raise ValueError
  ∧ ¬ ((∃ out, normalize merged_X = Ok out)
        ↔ Forall (λ l, l ∈ labels merged_X) datetime_cols).
Proof.
  assert (normalize merged_X = Raise ValueError) as E by (vm_compute; reflexivity).
  assert (Forall (λ l, l ∈ labels merged_X) datetime_cols) as Hall by by_compute.
  split; [vm_compute; reflexivity|]. split; [vm_compute; reflexivity|].
  split; [exact Hall|]. split; [exact E|]. split; [vm_compute; reflexivity|].
  intros [_ H]. destruct (H Hall) as [out Hout]. rewrite E in Hout. discriminate.
Qed.

Lemma merged_table_counterexample :
  merge forest_D grassland_D "AcceptedTSN" suffixes = Ok merged_D
  ∧ returns (preprocess_data (Some forest_D) (Some grassland_D)) (Some normalized_D)
  ∧ ¬ every_cell_present (fill_missing merged_D)
  ∧ ¬ every_cell_present normalized_D.
Proof.
  split; [exact merge_D|]. split; [exact preprocess_D|].
  split; intros H;
    assert (no_missing (mk_series DDatetime
                          [NaT; Timestamp (mk_datetime 2021 7 1 midnight)])) as Hn
      by (apply (H ("Date_grassland", _)); vm_compute; solve_elem);
    unfold no_missing in Hn; simpl in Hn; apply Forall_cons in Hn as [Hn _];
    discriminate Hn.
Qed.

Lemma merged_table_witness :
  merge forest_A grassland_A "AcceptedTSN" suffixes = Ok merged_A
  ∧ NoDup (labels merged_A)
  ∧ returns (preprocess_data (Some forest_A) (Some grassland_A)) (Some normalized_A)
  ∧ (∃ ks, getitem normalized_A "AcceptedTSN" = Ok ks
           ∧ (is_number (dt ks) = true ∨ is_object (dt ks) = true → no_missing ks))
  ∧ labels normalized_A = labels merged_A
  ∧ (∀ c, c ∈ grassland_part forest_A normalized_A →
       c.1 ∈ datetime_cols ∨ dt c.2 = DDatetime → cell_at c 0 = Some NaT).
Proof.
  destruct (merged_table_invariant forest_A grassland_A merged_A normalized_A
              merge_A ltac:(by_compute) preprocess_A)
    as (Hk & Hl & _ & _ & lk & rk & km & Gl & Gr & Gk & _ & Hfo & _ & Hrow & _).
  split; [exact merge_A|]. split; [by_compute|]. split; [exact preprocess_A|].
  split; [exact Hk|]. split; [exact Hl|].
  intros c Hc Hd. apply Hfo; [|done..].
  vm_compute in Gr. injection Gr as <-. vm_compute in Gk. injection Gk as <-.
  apply (Hrow 0 (Num 1)); [reflexivity|]. cbn [values]. solve_not_elem.
Defined.

(** * Further properties *)

(** ** [load_data] *)

Lemma load_handler_text (e : exn) :
  load_handler e = ([StError (load_error_text e)], Ok tt).
Proof. by destruct e. Qed.

Lemma load_data_cases (fs : filesystem) (p1 p2 : string) :
  load_data fs p1 p2 =
    match read_workbook fs p1 with
    | Raise e => ([StError (load_error_text e)], Ok (None, None))
    | Ok c1 =>
        match read_workbook fs p2 with
        | Raise e => ([StError (load_error_text e)], Ok (Some c1, None))
        | Ok c2 => ([], Ok (Some c1, Some c2))
        end
    end.
Proof.
  unfold load_data. destruct (read_workbook fs p1) as [c1|e].
  - destruct (read_workbook fs p2) as [c2|e]; [done|]. by rewrite load_handler_text.
  - by rewrite load_handler_text.
Qed.

(** X1.  [load_data] never raises: it returns a pair, shows at most one
    error, shows none exactly when both tables are returned, and returns a
    grassland table only together with a forest table. *)
Theorem load_data_never_raises (fs : filesystem) (p1 p2 : string) :
  ∃ r1 r2,
    (load_data fs p1 p2).2 = Ok (r1, r2)
    ∧ (is_Some r2 → is_Some r1)
    ∧ (shown (load_data fs p1 p2) = [] ↔ is_Some r1 ∧ is_Some r2)
    ∧ (shown (load_data fs p1 p2) = []
       ∨ ∃ text, shown (load_data fs p1 p2) = [StError text]).
Proof.
  rewrite load_data_cases. unfold shown.
  destruct (read_workbook fs p1) as [c1|e1]; [destruct (read_workbook fs p2) as [c2|e2]|].
  - exists (Some c1), (Some c2). simpl. split_and!; [done|by eauto| |by left].
    split; [by eauto|done].
  - exists (Some c1), None. simpl. split_and!; [done|by eauto| |by right; eauto].
    split; [done|]. by intros [_ [? [=]]].
  - exists None, None. simpl. split_and!; [done|by intros [? [=]]| |by right; eauto].
    split; [done|]. by intros [[? [=]] _].
Qed.

Lemma parse_sheets_raise (excel_data : ExcelFile) (names : list string)
    (sheet_dict : list (string * DataFrame)) :
  (∃ sheet e, sheet ∈ names ∧ parse excel_data sheet = Raise e) →
  ∃ e', parse_sheets excel_data names sheet_dict = Raise e'.
Proof.
  revert sheet_dict. induction names as [|n names IH]; intros d (sheet & e & Hin & Hp).
  - by apply elem_of_nil in Hin.
  - simpl. destruct (parse excel_data n) as [df|e0] eqn:E; simpl; [|by eexists].
    apply IH. exists sheet, e. split; [|done].
    apply elem_of_cons in Hin as [->|Hin]; [congruence|done].
Qed.

(** X2.  One sheet of the forest workbook that does not parse discards the
    whole workbook: [load_data] shows one error and returns no table at
    all. *)
Theorem load_data_unreadable_sheet (fs : filesystem) (p1 p2 : string)
    (excel_data : ExcelFile) (sheet : string) (e : exn) :
  fs p1 = Ok excel_data →
  sheet ∈ sheet_names excel_data →
  parse excel_data sheet = Raise e →
  ∃ e', load_data fs p1 p2 = ([StError (load_error_text e')], Ok (None, None)).
Proof.
  intros Hfs Hin Hp. rewrite load_data_cases. unfold read_workbook at 1. rewrite Hfs. simpl.
  destruct (parse_sheets_raise excel_data (sheet_names excel_data) []) as [e' ->].
  { by exists sheet, e. }
  simpl. by exists e'.
Qed.

Lemma dict_set_fresh (d : list (string * DataFrame)) (k : string) (v : DataFrame) :
  k ∉ d.*1 → dict_set d k v = d ++ [(k, v)].
Proof.
  induction d as [|[k' v'] d IH]; [done|]. simpl.
  intros [Hne Hk]%not_elem_of_cons. rewrite bool_decide_eq_false_2 by done.
  by rewrite IH.
Qed.

Lemma parse_sheets_readable (excel_data : ExcelFile) (names : list string)
    (sheet_dict : list (string * DataFrame)) :
  NoDup (sheet_dict.*1 ++ names) →
  Forall (λ n, ∃ df, parse excel_data n = Ok df) names →
  ∃ d', parse_sheets excel_data names sheet_dict = Ok d'
        ∧ d'.*2 = sheet_dict.*2
                  ++ omap (λ n, match parse excel_data n with
                                | Ok df => Some df
                                | Raise _ => None
                                end) names.
Proof.
  revert sheet_dict. induction names as [|n names IH]; intros d Hnd Hall.
  - exists d. by rewrite app_nil_r.
  - apply Forall_cons in Hall as [[df Hdf] Hall]. simpl. rewrite Hdf. simpl.
    apply NoDup_app in Hnd as (Hd & Hdis & Hn). apply NoDup_cons in Hn as [Hn Hns].
    rewrite dict_set_fresh by (intros Hin; apply (Hdis n Hin); left).
    destruct (IH (d ++ [(n, df)])) as (d' & -> & E); [|done|].
    + rewrite fmap_app. simpl. rewrite <- app_assoc. simpl.
      apply NoDup_app. split_and!; [done| |by apply NoDup_cons].
      intros x Hx. apply Hdis in Hx. done.
    + exists d'. split; [done|]. rewrite E, fmap_app. simpl. by rewrite <- app_assoc.
Qed.

Lemma read_workbook_readable (fs : filesystem) (p : string) (excel_data : ExcelFile) :
  fs p = Ok excel_data → readable excel_data →
  read_workbook fs p = concat (parsed_sheets excel_data)
  ∧ length (parsed_sheets excel_data) = length (sheet_names excel_data).
Proof.
  intros Hfs (Hnd & Hne & Hall). unfold read_workbook. rewrite Hfs. simpl.
  destruct (parse_sheets_readable excel_data (sheet_names excel_data) [] Hnd Hall)
    as (d' & -> & E).
  simpl. rewrite E. split; [done|]. unfold parsed_sheets.
  clear -Hall. induction Hall as [|n ns [df Hdf] _ IH]; [done|].
  simpl. rewrite Hdf. simpl. f_equal. exact IH.
Qed.

Lemma nrows_non_empties (frames : list DataFrame) :
  sum_list (nrows <$> non_empties frames) = sum_list (nrows <$> frames).
Proof.
  assert (sum_list (nrows <$> filter (λ df, blank df = false) frames)
          = sum_list (nrows <$> frames)) as E.
  { induction frames as [|df fs IH]; [done|]. rewrite filter_cons.
    destruct (decide (blank df = false)) as [H|H]; cbn; rewrite IH; [done|].
    apply not_false_is_true in H. unfold blank in H.
    apply andb_true_iff in H as [H%Nat.eqb_eq _]. by rewrite H. }
  unfold non_empties. destruct (filter _ frames); [done|exact E].
Qed.

Lemma concat_nrows (frames : list DataFrame) (c : DataFrame) :
  concat frames = Ok c → nrows c = sum_list (nrows <$> frames).
Proof.
  destruct frames as [|df fs]; [done|]. intros [= <-]. cbn [nrows].
  apply nrows_non_empties.
Qed.

(** X3.  When both workbooks are readable, [load_data] shows nothing and
    returns for each habitat the stack of all its sheets, in sheet order;
    the stack has as many rows as the sheets have together. *)
Theorem load_data_stacks_sheets (fs : filesystem) (p1 p2 : string)
    (excel_data_1 excel_data_2 : ExcelFile) :
  fs p1 = Ok excel_data_1 → fs p2 = Ok excel_data_2 →
  readable excel_data_1 → readable excel_data_2 →
  ∃ combined_data_1 combined_data_2,
    load_data fs p1 p2 = ([], Ok (Some combined_data_1, Some combined_data_2))
    ∧ concat (parsed_sheets excel_data_1) = Ok combined_data_1
    ∧ concat (parsed_sheets excel_data_2) = Ok combined_data_2
    ∧ nrows combined_data_1 = sum_list (nrows <$> parsed_sheets excel_data_1)
    ∧ nrows combined_data_2 = sum_list (nrows <$> parsed_sheets excel_data_2).
Proof.
  intros H1 H2 R1 R2.
  destruct (read_workbook_readable fs p1 _ H1 R1) as [E1 L1].
  destruct (read_workbook_readable fs p2 _ H2 R2) as [E2 L2].
  assert (∀ wb, readable wb → length (parsed_sheets wb) = length (sheet_names wb) →
            ∃ c, concat (parsed_sheets wb) = Ok c) as Hc.
  { intros wb (_ & Hne & _) Hl. destruct (parsed_sheets wb) as [|df dfs] eqn:E.
    - destruct (sheet_names wb); [done|discriminate].
    - by eexists. }
  destruct (Hc _ R1 L1) as [c1 C1]. destruct (Hc _ R2 L2) as [c2 C2].
  exists c1, c2. rewrite load_data_cases, E1, C1, E2, C2.
  split_and!; try done; by apply concat_nrows.
Qed.

(** ** Stacking sheets of one shape *)










(** ** Labels that end in a suffix *)

Lemma substring_whole (z : string) : substring 0 (String.length z) z = z.
Proof. induction z as [|a z IH]; [done|]. simpl. by rewrite IH. Qed.

Lemma substring_append_skip (y z : string) (k m : nat) :
  substring (String.length y + k) m (y +:+ z) = substring k m z.
Proof. induction y as [|a y IH]; [done|]. exact IH. Qed.

Lemma ends_with_append (sfx y : string) : ends_with sfx (y +:+ sfx) = true.
Proof.
  unfold ends_with. cbn zeta. rewrite length_append.
  replace (String.length y + String.length sfx - String.length sfx)
    with (String.length y + 0) by lia.
  rewrite substring_append_skip, substring_whole, String.eqb_refl.
  rewrite andb_true_r. apply Nat.leb_le. lia.
Qed.

Lemma forest_not_grassland (y : string) : ends_with "_forest" (y +:+ "_grassland") = false.
Proof.
  unfold ends_with. cbn zeta. rewrite length_append.
  replace (String.length y + String.length "_grassland" - String.length "_forest")
    with (String.length y + 3) by (simpl; lia).
  rewrite substring_append_skip. simpl. apply andb_false_r.
Qed.

Lemma suffixes_clash (x y : string) : x +:+ "_forest" ≠ y +:+ "_grassland".
Proof.
  intros E. pose proof (ends_with_append "_forest" x) as H.
  rewrite E, forest_not_grassland in H. discriminate.
Qed.

Lemma not_ends_with (sfx x y : string) : ends_with sfx x = false → x ≠ y +:+ sfx.
Proof. intros H ->. by rewrite ends_with_append in H. Qed.

(** ** The merge of clean inputs *)

Lemma suffixed_inj_on (sfx key : string) (other ls : list string) (x y : string) :
  Forall (λ x, ends_with sfx x = false) ls →
  x ∈ ls → y ∈ ls →
  suffixed sfx key other x = suffixed sfx key other y → x = y.
Proof.
  intros Hall Hx Hy. rewrite Forall_forall in Hall. unfold suffixed.
  repeat case_bool_decide; intros E.
  - by apply append_suffix_inj in E.
  - symmetry in E. by apply not_ends_with in E; [|apply Hall].
  - by apply not_ends_with in E; [|apply Hall].
  - done.
Qed.

Lemma renamer_left (on sfx : string) (left right : list string) :
  renamer (filter (λ x, x ∈ filter (λ x, x ≠ on) right) left) sfx <$> left
  = suffixed sfx on right <$> left.
Proof.
  apply list_fmap_ext. intros i x Hx. apply list_elem_of_lookup_2 in Hx.
  unfold renamer, suffixed. erewrite bool_decide_ext; [reflexivity|].
  rewrite !list_elem_of_filter. tauto.
Qed.

Lemma renamer_right (on sfx : string) (left right : list string) :
  renamer (filter (λ x, x ∈ filter (λ x, x ≠ on) right) left) sfx
    <$> filter (λ x, x ≠ on) right
  = suffixed sfx on left <$> filter (λ x, x ≠ on) right.
Proof.
  apply list_fmap_ext. intros i x Hx. apply list_elem_of_lookup_2 in Hx.
  unfold renamer, suffixed. erewrite bool_decide_ext; [reflexivity|].
  rewrite !list_elem_of_filter. apply list_elem_of_filter in Hx. tauto.
Qed.

Lemma duplicated_from_NoDup (seen l : list string) :
  NoDup l → (∀ x, x ∈ l → x ∉ seen) → Forall (λ b, b = false) (duplicated_from seen l).
Proof.
  intros Hnd. revert seen. induction Hnd as [|x l Hx _ IH]; intros seen Hs; [done|].
  simpl. apply Forall_cons. split.
  - apply bool_decide_eq_false_2, Hs. left.
  - apply IH. intros y Hy [->|Hin]%elem_of_cons; [done|].
    revert Hin. apply Hs. by right.
Qed.

Lemma new_duplicates_NoDup (old new : list string) :
  NoDup new → new_duplicates old new = [].
Proof.
  intros Hnd. unfold new_duplicates.
  destruct (filter _ _) as [|p ps] eqn:E; [done|].
  assert (p ∈ filter (λ p : string * (bool * bool), p.2.1 = true ∧ p.2.2 = false)
                (zip new (zip (duplicated new) (duplicated old)))) as Hp
    by (rewrite E; left).
  apply list_elem_of_filter in Hp as [[Ht _] Hp].
  destruct p as [x [a b]]. simpl in Ht. subst a.
  apply elem_of_zip_r, elem_of_zip_l in Hp.
  pose proof (duplicated_from_NoDup [] new Hnd) as Hall.
  rewrite Forall_forall in Hall. specialize (Hall (λ x _, not_elem_of_nil x) true Hp).
  discriminate.
Qed.

Lemma items_overlap_NoDup (left right : list string) (sfx : string * string) :
  NoDup (renamer (filter (λ x, x ∈ right) left) sfx.1 <$> left) →
  NoDup (renamer (filter (λ x, x ∈ right) left) sfx.2 <$> right) →
  ∃ p, items_overlap_with_suffix left right sfx = Ok p.
Proof.
  intros Hl Hr. unfold items_overlap_with_suffix.
  destruct (filter (λ x, x ∈ right) left) as [|x0 rest]; [by eexists|].
  rewrite !new_duplicates_NoDup by done. by eexists.
Qed.

Lemma unsuffixed_forest (ls : list string) :
  unsuffixed ls → Forall (λ x, ends_with "_forest" x = false) ls.
Proof. intros H. eapply Forall_impl; [exact H|]. by intros x [? _]. Qed.

Lemma unsuffixed_grassland (ls : list string) :
  unsuffixed ls → Forall (λ x, ends_with "_grassland" x = false) ls.
Proof. intros H. eapply Forall_impl; [exact H|]. by intros x [_ ?]. Qed.

Lemma unsuffixed_filter (P : string → Prop) `{∀ x, Decision (P x)} (ls : list string) :
  unsuffixed ls → unsuffixed (filter P ls).
Proof.
  unfold unsuffixed. rewrite !Forall_forall. intros Hall x Hx.
  apply Hall. by apply list_elem_of_filter in Hx as [_ Hx].
Qed.

Lemma numeric_not_refused (lk rk : Series) :
  is_number (dt lk) = true → is_number (dt rk) = true → refused_keys lk rk = false.
Proof.
  intros Hl Hr. unfold refused_keys, key_of_texts.
  destruct (dt lk), (dt rk); try discriminate; cbn; apply andb_false_r.
Qed.

Section Clean.

Variables f g : DataFrame.
Hypothesis wf_f : wf_frame f.
Hypothesis wf_g : wf_frame g.
Hypothesis key_f : "AcceptedTSN" ∈ labels f.
Hypothesis key_g : "AcceptedTSN" ∈ labels g.
Hypothesis num_keys : numeric_keys f g.
Hypothesis clean_f : unsuffixed (labels f).
Hypothesis clean_g : unsuffixed (labels g).

Lemma clean_left_NoDup :
  NoDup (suffixed "_forest" "AcceptedTSN" (labels g) <$> labels f).
Proof.
  apply NoDup_fmap_2_strong; [|apply wf_f].
  intros x y Hx Hy. by apply (suffixed_inj_on _ _ _ (labels f)); [apply unsuffixed_forest|..].
Qed.

Lemma clean_right_NoDup :
  NoDup (suffixed "_grassland" "AcceptedTSN" (labels f)
           <$> filter (λ x, x ≠ "AcceptedTSN") (labels g)).
Proof.
  apply NoDup_fmap_2_strong; [|apply NoDup_filter, wf_g].
  intros x y Hx Hy.
  apply (suffixed_inj_on _ _ _ (filter (λ x, x ≠ "AcceptedTSN") (labels g))); [|done..].
  by apply unsuffixed_grassland, unsuffixed_filter.
Qed.

Lemma clean_labels_NoDup :
  NoDup ((suffixed "_forest" "AcceptedTSN" (labels g) <$> labels f)
         ++ (suffixed "_grassland" "AcceptedTSN" (labels f)
               <$> filter (λ x, x ≠ "AcceptedTSN") (labels g))).
Proof.
  apply NoDup_app. split_and!; [apply clean_left_NoDup| |apply clean_right_NoDup].
  intros l (x & -> & Hx)%list_elem_of_fmap (y & E & Hy)%list_elem_of_fmap.
  apply list_elem_of_filter in Hy as [Hne Hy].
  pose proof clean_f as Cf. pose proof clean_g as Cg.
  unfold unsuffixed in Cf, Cg. rewrite Forall_forall in Cf, Cg.
  revert E. unfold suffixed. repeat case_bool_decide; intros E.
  - by apply suffixes_clash in E.
  - symmetry in E. apply not_ends_with in E; [done|]. by apply Cg.
  - apply not_ends_with in E; [done|]. by apply Cf.
  - subst y. tauto.
Qed.

Lemma clean_merge : ∃ merged, merge f g "AcceptedTSN" suffixes = Ok merged.
Proof.
  destruct (getitem_present f "AcceptedTSN") as [lk Gl]; [apply wf_f|done|].
  destruct (getitem_present g "AcceptedTSN") as [rk Gr]; [apply wf_g|done|].
  destruct (num_keys lk rk Gl Gr) as [Nl Nr].
  unfold merge. rewrite Gl, Gr. cbn [mbind result_bind].
  rewrite (numeric_not_refused lk rk Nl Nr).
  destruct (items_overlap_NoDup (labels f)
              (drop_label "AcceptedTSN" (columns g)).*1 suffixes) as [[ll rl] ->].
  - rewrite drop_label_labels. unfold suffixes. cbn [fst].
    fold (labels g). rewrite renamer_left. apply clean_left_NoDup.
  - rewrite drop_label_labels. unfold suffixes. cbn [snd].
    fold (labels g). rewrite renamer_right. apply clean_right_NoDup.
  - by eexists.
Qed.

Lemma clean_merged_wf (merged : DataFrame) :
  merge f g "AcceptedTSN" suffixes = Ok merged → wf_frame merged.
Proof.
  intros Hm. split.
  - rewrite (merge_labels _ _ _ _ _ Hm). apply clean_labels_NoDup.
  - apply Forall_forall. intros c Hc. by apply (merged_column_length f g).
Qed.

(** A column of the forest input named [x] shows up as [x_forest] exactly
    when the grassland input has a column [x] too. *)
Lemma clean_forest_label (merged : DataFrame) (x : string) :
  merge f g "AcceptedTSN" suffixes = Ok merged →
  x ≠ "AcceptedTSN" →
  x +:+ "_forest" ∈ labels merged ↔ x ∈ labels f ∧ x ∈ labels g.
Proof.
  intros Hm Hne. rewrite (merge_labels _ _ _ _ _ Hm). unfold suffixes. cbn [fst snd].
  pose proof clean_f as Cf. pose proof clean_g as Cg.
  unfold unsuffixed in Cf, Cg. rewrite Forall_forall in Cf, Cg.
  rewrite elem_of_app, !list_elem_of_fmap. split.
  - intros [(y & E & Hy)|(y & E & Hy)]; revert E; unfold suffixed; case_bool_decide as D;
      intros E.
    + apply append_suffix_inj in E. subst y. tauto.
    + symmetry in E. apply not_ends_with in E; [done|]. by apply Cf.
    + by apply suffixes_clash in E.
    + apply list_elem_of_filter in Hy as [_ Hy].
      symmetry in E. apply not_ends_with in E; [done|]. by apply Cg.
  - intros [Hf Hg]. left. exists x. split; [|done].
    unfold suffixed. by rewrite bool_decide_eq_true_2.
Qed.

Lemma clean_grassland_label (merged : DataFrame) (x : string) :
  merge f g "AcceptedTSN" suffixes = Ok merged →
  x ≠ "AcceptedTSN" →
  x +:+ "_grassland" ∈ labels merged ↔ x ∈ labels f ∧ x ∈ labels g.
Proof.
  intros Hm Hne. rewrite (merge_labels _ _ _ _ _ Hm). unfold suffixes. cbn [fst snd].
  pose proof clean_f as Cf. pose proof clean_g as Cg.
  unfold unsuffixed in Cf, Cg. rewrite Forall_forall in Cf, Cg.
  rewrite elem_of_app, !list_elem_of_fmap. split.
  - intros [(y & E & Hy)|(y & E & Hy)]; revert E; unfold suffixed; case_bool_decide as D;
      intros E.
    + symmetry in E. by apply suffixes_clash in E.
    + symmetry in E. apply not_ends_with in E; [done|]. by apply Cf.
    + apply append_suffix_inj in E. subst y.
      apply list_elem_of_filter in Hy as [_ Hy]. tauto.
    + apply list_elem_of_filter in Hy as [_ Hy].
      symmetry in E. apply not_ends_with in E; [done|]. by apply Cg.
  - intros [Hf Hg]. right. exists x. split.
    + unfold suffixed. by rewrite bool_decide_eq_true_2.
    + by apply list_elem_of_filter.
Qed.

Lemma clean_designated (merged : DataFrame) :
  merge f g "AcceptedTSN" suffixes = Ok merged →
  Forall (λ l, l ∈ labels merged) datetime_cols
  ↔ Forall (λ l, l ∈ labels f ∧ l ∈ labels g) required_cols.
Proof.
  intros Hm. unfold datetime_cols, date_cols, time_cols, required_cols.
  cbn [app]. rewrite !Forall_cons, !Forall_nil.
  change "Date_forest" with ("Date" +:+ "_forest").
  change "Date_grassland" with ("Date" +:+ "_grassland").
  change "Start_Time_forest" with ("Start_Time" +:+ "_forest").
  change "Start_Time_grassland" with ("Start_Time" +:+ "_grassland").
  change "End_Time_forest" with ("End_Time" +:+ "_forest").
  change "End_Time_grassland" with ("End_Time" +:+ "_grassland").
  rewrite !(clean_forest_label merged), !(clean_grassland_label merged) by done.
  tauto.
Qed.

End Clean.

(** X5.  Two well-formed inputs that both carry the key, as a column of
    numbers, and no label ending in one of the two suffixes always merge,
    into a well-formed table, and [preprocess_data] returns a table exactly
    when both inputs have the columns [Date], [Start_Time] and [End_Time];
    otherwise it raises the [KeyError] of one of the six designated
    columns. *)
Theorem preprocess_data_clean_inputs (f g : DataFrame) :
  wf_frame f → wf_frame g →
  "AcceptedTSN" ∈ labels f → "AcceptedTSN" ∈ labels g →
  numeric_keys f g →
  unsuffixed (labels f) → unsuffixed (labels g) →
  ∃ merged,
    merge f g "AcceptedTSN" suffixes = Ok merged
    ∧ wf_frame merged
    ∧ ((∃ out, returns (preprocess_data (Some f) (Some g)) (Some out))
       ↔ Forall (λ l, l ∈ labels f ∧ l ∈ labels g) required_cols)
    ∧ (∀ e, (preprocess_data (Some f) (Some g)).2 = Raise e →
         ∃ l, e = KeyError l ∧ l ∈ datetime_cols).
Proof.
  intros Wf Wg Kf Kg Nk Cf Cg.
  destruct (clean_merge f g Wf Wg Kf Kg Nk Cf Cg) as [merged Hm].
  pose proof (clean_merged_wf f g Wf Wg Cf Cg merged Hm) as Wm.
  pose proof (clean_designated f g Cf Cg merged Hm) as Hd.
  exists merged. split_and!; [done..| |].
  - rewrite <- Hd.
    destruct (convert_types_outcome (fill_missing merged)) as [[Hall [out Ho]]|(l & Hl & Hn & Ho)].
    { rewrite labels_fill_missing. apply Wm. }
    + rewrite labels_fill_missing in Hall. split; [done|]. intros _. exists out.
      apply preprocess_data_returns. unfold merge_and_normalize. by rewrite Hm.
    + rewrite labels_fill_missing in Hn. split.
      * intros [out Ho']. apply preprocess_data_returns in Ho'.
        unfold merge_and_normalize in Ho'. rewrite Hm in Ho'. simpl in Ho'.
        unfold normalize in Ho'. congruence.
      * intros Hall. rewrite Forall_forall in Hall. by apply Hall in Hl.
  - intros e. unfold preprocess_data. rewrite Hm. simpl.
    destruct (convert_types_outcome (fill_missing merged)) as [[Hall [out Ho]]|(l & Hl & Hn & Ho)].
    { rewrite labels_fill_missing. apply Wm. }
    + rewrite Ho. simpl. done.
    + rewrite Ho. simpl. intros [= <-]. by exists l.
Qed.

(** X6.  When either input lacks the key column, [preprocess_data] shows
    the first spinner only and raises the [KeyError] of the key. *)
Theorem preprocess_data_missing_key (f g : DataFrame) :
  NoDup (labels f) →
  ("AcceptedTSN" ∉ labels f) ∨ ("AcceptedTSN" ∉ labels g) →
  preprocess_data (Some f) (Some g)
  = ([Spinner "Merging data..."], Raise (KeyError "AcceptedTSN")).
Proof.
  intros Hnd H. unfold preprocess_data, merge.
  destruct (decide ("AcceptedTSN" ∈ labels f)) as [Hf|Hf].
  - destruct H as [H|H]; [done|].
    destruct (getitem_present f "AcceptedTSN" Hnd Hf) as [lk ->].
    by rewrite (getitem_absent g _ H).
  - by rewrite (getitem_absent f _ Hf).
Qed.

(** ** The cells of the converted columns *)

Lemma time_of_cell_typed (c : cell) : time_or_missing (time_of_cell c).
Proof. destruct c; simpl; try (by left). right. by eexists. Qed.

Lemma to_datetime_scalar_typed (fmt : format) (c : cell) :
  stamp_or_missing (to_datetime_scalar fmt c).
Proof.
  assert (∀ o, stamp_or_missing (of_parse o)) as H.
  { intros [d|]; [right; by eexists|by left]. }
  destruct c; cbn [to_datetime_scalar]; try (by left); try apply H.
  - destruct (_ || _); [by left|apply H].
  - destruct (in_bounds d); [right; by eexists|by left].
Qed.

Lemma time_col_not_date (l : string) : l ∈ time_cols → l ∉ date_cols.
Proof.
  unfold time_cols, date_cols. rewrite !elem_of_cons, !elem_of_nil.
  intros [->|[->|[->|[->|[]]]]] [E|[E|[]]]; discriminate.
Qed.

(** X7.  In the table the normalization returns for a merged table with
    unique labels, each of the four time columns holds only times of day
    and [NaT]; it is of object dtype, unless it has a cell and all its
    cells are [NaT], in which case it is of datetime dtype.  Each of the
    two date columns is of datetime dtype and, unless it already was
    before, holds only timestamps and [NaT].  The columns keep their
    length. *)
Theorem converted_columns_typed (merged out : DataFrame) (l : string) (s0 : Series) :
  NoDup (labels merged) →
  normalize merged = Ok out →
  getitem merged l = Ok s0 →
  ∃ s, getitem out l = Ok s
       ∧ length (values s) = length (values s0)
       ∧ (l ∈ time_cols →
            Forall time_or_missing (values s)
            ∧ (values s ≠ [] ∧ Forall (λ c, c = NaT) (values s) → dt s = DDatetime)
            ∧ (values s = [] ∨ (∃ t, Time t ∈ values s) → dt s = DObject))
       ∧ (l ∈ date_cols →
            dt s = DDatetime
            ∧ (dt s0 ≠ DDatetime → Forall stamp_or_missing (values s))).
Proof.
  intros _ Hn G. eexists. split; [by apply normalize_getitem|].
  destruct (fill_column_cells merged (l, s0)) as [Hdt Hcells].
  destruct (fill_column merged (l, s0)) as [l1 s1]. cbn [fst snd] in *.
  apply Forall2_length in Hcells.
  unfold convert_column. cbn [fst snd]. split_and!.
  - repeat case_bool_decide; cbn [snd]; unfold dt_time, to_datetime;
      destruct (dt s1); cbn [values]; by rewrite ?length_fmap.
  - intros Ht. rewrite bool_decide_eq_false_2 by by apply time_col_not_date.
    rewrite bool_decide_eq_true_2 by done. cbn [snd]. unfold dt_time. cbn zeta.
    cbn [dt values]. split_and!.
    + apply Forall_fmap, Forall_forall. intros c _. apply time_of_cell_typed.
    + intros Hall. by rewrite bool_decide_eq_true_2.
    + intros Hsome. rewrite bool_decide_eq_false_2; [done|]. intros [Hne Hall].
      destruct Hsome as [E|[t Hin]]; [done|].
      rewrite Forall_forall in Hall. by specialize (Hall _ Hin).
  - intros Hd. rewrite bool_decide_eq_true_2 by done. cbn [snd].
    split; [apply to_datetime_dt|]. intros Hne. rewrite <- Hdt in Hne.
    unfold to_datetime. destruct (dt s1); try done; cbn [values];
      apply Forall_fmap, Forall_forall; intros c _; apply to_datetime_scalar_typed.
Qed.

(** ** The script *)

Lemma preprocess_data_cases (f g : DataFrame) :
  preprocess_data (Some f) (Some g)
  = match merge f g "AcceptedTSN" suffixes with
    | Raise e => ([Spinner "Merging data..."], Raise e)
    | Ok m =>
        ([Spinner "Merging data..."; Spinner "Filling missing values...";
          Spinner "Converting data types..."],
         match convert_types (fill_missing m) with
         | Ok o => Ok (Some o)
         | Raise e => Raise e
         end)
    end.
Proof.
  unfold preprocess_data.
  destruct (merge f g "AcceptedTSN" suffixes) as [m|e]; simpl; [|done].
  by destruct (convert_types (fill_missing m)).
Qed.


(** ** [load_and_preprocess_data] of [birds.py] *)

Section BirdsLoad.
Variable infer_datetime : inference.

Lemma birds_load_Raise (files : csv_files) (forest_path grassland_path : string)
    (e : exn) :
  files forest_path = Raise e
  ∨ ((∃ F, files forest_path = Ok F) ∧ files grassland_path = Raise e) →
  ∃ text,
    load_and_preprocess_data infer_datetime files forest_path grassland_path
    = ([StError text], Ok (empty_frame, empty_frame, empty_frame)).
Proof.
  intros H. unfold load_and_preprocess_data, load_and_preprocess_body.
  destruct H as [->|[[F ->] ->]]; simpl; destruct e; by eexists.
Qed.

(** X9.  [load_and_preprocess_data] never raises, and whenever it shows
    anything it shows a single error and returns three empty tables: the
    tables already read or suffixed are discarded. *)
Theorem birds_load_never_raises (files : csv_files) (forest_path grassland_path : string) :
  ∃ r,
    (load_and_preprocess_data infer_datetime files forest_path grassland_path).2 = Ok r
    ∧ (shown (load_and_preprocess_data infer_datetime files forest_path grassland_path) = []
       ∨ ((∃ text,
             shown (load_and_preprocess_data infer_datetime files forest_path grassland_path)
             = [StError text])
          ∧ r = (empty_frame, empty_frame, empty_frame))).
Proof.
  unfold load_and_preprocess_data, shown.
  destruct (load_and_preprocess_body _ _ _ _) as [r|e].
  - exists r. split; [done|]. by left.
  - exists (empty_frame, empty_frame, empty_frame).
    destruct e; (split; [done|]); right; (split; [by eexists|done]).
Qed.

(** X10.  When the grassland file cannot be read, the forest table that was
    read is not returned: the function shows one error and returns three
    empty tables, as it does when the forest file cannot be read. *)
Theorem birds_load_unreadable_file (files : csv_files) (forest_path grassland_path : string)
    (e : exn) :
  files forest_path = Raise e
  ∨ ((∃ F, files forest_path = Ok F) ∧ files grassland_path = Raise e) →
  ∃ text,
    load_and_preprocess_data infer_datetime files forest_path grassland_path
    = ([StError text], Ok (empty_frame, empty_frame, empty_frame)).
Proof.
  intros [Hf|[[F Hf] Hg]]; unfold load_and_preprocess_data, load_and_preprocess_body.
  - rewrite Hf. cbn [mbind result_bind]. destruct e; by eexists.
  - rewrite Hf, Hg. cbn [mbind result_bind]. destruct e; by eexists.
Qed.

Lemma convert_date_cols_columns (cols : list string) (df : DataFrame) :
  wf_frame df → NoDup cols → cols ⊆ labels df →
  convert_date_cols infer_datetime cols df
  = Ok (mk_frame (nrows df)
          ((λ c : string * Series,
              if bool_decide (c.1 ∈ cols)
              then (c.1, to_datetime_infer infer_datetime c.2) else c)
             <$> columns df)).
Proof.
  revert df. induction cols as [|col cols IH]; intros df Hwf Hnd Hsub.
  - cbn [convert_date_cols]. destruct df as [n cs]. cbn [nrows columns]. do 2 f_equal.
    transitivity (id <$> cs); [by rewrite list_fmap_id|].
    apply list_fmap_ext. intros i c _. cbn beta.
    case_bool_decide as H; [by apply elem_of_nil in H|done].
  - apply NoDup_cons in Hnd as [Hcol Hnd]. cbn [convert_date_cols].
    destruct (getitem_present df col (proj1 Hwf)) as [s G]; [apply Hsub; left|].
    rewrite G. cbn [mbind result_bind].
    pose proof (wf_column_length _ _ _ Hwf G) as Hl.
    rewrite IH; [| |done|].
    + rewrite (setitem_unique (to_datetime_infer infer_datetime) _ _ _ G).
      cbn [nrows columns]. do 2 f_equal. rewrite <- list_fmap_compose.
      apply list_fmap_ext. intros i c _. cbn [compose].
      destruct (decide (c.1 = col)) as [E|E].
      * rewrite (bool_decide_eq_true_2 (c.1 = col)) by done. cbn [fst snd].
        rewrite (bool_decide_eq_false_2 (c.1 ∈ cols)) by (by rewrite E).
        rewrite bool_decide_eq_true_2; [done|]. rewrite E. left.
      * rewrite (bool_decide_eq_false_2 (c.1 = col)) by done.
        rewrite (bool_decide_ext (c.1 ∈ col :: cols) (c.1 ∈ cols)); [done|].
        rewrite elem_of_cons. tauto.
    + apply wf_setitem; [done|]. by rewrite to_datetime_infer_length.
    + rewrite labels_setitem. intros x Hx. apply Hsub. by right.
Qed.

Lemma date_loop (df : DataFrame) :
  wf_frame df →
  convert_date_cols infer_datetime
    (filter (λ col, contains "Date" col = true) (labels df)) df
  = Ok (mk_frame (nrows df) (date_column infer_datetime <$> columns df)).
Proof.
  intros Hwf. rewrite convert_date_cols_columns;
    [|done|apply NoDup_filter, Hwf|apply date_labels_subset].
  do 2 f_equal. apply list_fmap_ext. intros i c Hc. unfold date_column.
  apply list_elem_of_lookup_2 in Hc.
  destruct (contains "Date" c.1) eqn:E.
  - rewrite bool_decide_eq_true_2; [done|]. apply list_elem_of_filter. split; [done|].
    apply list_elem_of_fmap. by exists c.
  - rewrite bool_decide_eq_false_2; [done|]. intros [H _]%list_elem_of_filter. congruence.
Qed.

Lemma set_columns_suffix (df : DataFrame) (sfx : string) :
  set_columns df ((λ col, col +:+ sfx) <$> labels df)
  = mk_frame (nrows df) ((λ c : string * Series, (c.1 +:+ sfx, c.2)) <$> columns df).
Proof.
  unfold set_columns, labels. f_equal.
  induction (columns df) as [|c cs IH]; [done|]. cbn. by rewrite <- IH.
Qed.

(** What the function returns for two tables that load. *)
Lemma birds_load_Ok (files : csv_files) (forest_path grassland_path : string)
    (F G : DataFrame) :
  files forest_path = Ok F → files grassland_path = Ok G →
  wf_frame F → wf_frame G →
  let forest_df :=
    mk_frame (nrows F)
      (date_column infer_datetime
         <$> ((λ c : string * Series, (c.1 +:+ "_forest", c.2)) <$> columns F)) in
  let grassland_df :=
    mk_frame (nrows G)
      (date_column infer_datetime
         <$> ((λ c : string * Series, (c.1 +:+ "_grassland", c.2)) <$> columns G)) in
  let max_rows := Nat.min (nrows F) (nrows G) in
  load_and_preprocess_data infer_datetime files forest_path grassland_path
  = ([], Ok (mk_frame max_rows
               (columns (head_rows max_rows forest_df)
                ++ columns (head_rows max_rows grassland_df)),
             forest_df, grassland_df))
  ∧ wf_frame forest_df ∧ wf_frame grassland_df.
Proof.
  intros HF HG WF WG. cbn zeta.
  pose proof (wf_set_columns F "_forest" WF) as WF1.
  pose proof (wf_set_columns G "_grassland" WG) as WG1.
  rewrite set_columns_suffix in WF1. rewrite set_columns_suffix in WG1.
  pose proof (date_loop _ WF1) as EF. pose proof (date_loop _ WG1) as EG.
  destruct (convert_date_cols_wf infer_datetime _ _ WF1 (date_labels_subset _))
    as (F2 & EF' & WF2 & _).
  destruct (convert_date_cols_wf infer_datetime _ _ WG1 (date_labels_subset _))
    as (G2 & EG' & WG2 & _).
  assert (F2 = mk_frame (nrows F)
                 (date_column infer_datetime
                    <$> ((λ c : string * Series, (c.1 +:+ "_forest", c.2)) <$> columns F)))
    as -> by (cbn [nrows columns] in EF; congruence).
  assert (G2 = mk_frame (nrows G)
                 (date_column infer_datetime
                    <$> ((λ c : string * Series, (c.1 +:+ "_grassland", c.2)) <$> columns G)))
    as -> by (cbn [nrows columns] in EG; congruence).
  cbn [nrows columns] in EF, EG.
  split_and!; [|done..].
  unfold load_and_preprocess_data, load_and_preprocess_body. rewrite HF, HG.
  cbn [mbind result_bind]. rewrite !set_columns_suffix, EF. cbn [mbind result_bind].
  rewrite EG. cbn [mbind result_bind nrows].
  match goal with
  | |- context [concat_axis1 (head_rows ?n ?a) (head_rows ?n ?b)] =>
      destruct (head_rows_full n a WF2 ltac:(cbn [nrows]; lia)) as [HnF HlF];
      destruct (head_rows_full n b WG2 ltac:(cbn [nrows]; lia)) as [HnG HlG];
      rewrite (concat_axis1_same _ _ _ HnF HnG HlF HlG)
  end.
  reflexivity.
Qed.

Lemma date_column_label (c : string * Series) : (date_column infer_datetime c).1 = c.1.
Proof. unfold date_column. by destruct (contains "Date" c.1). Qed.

Lemma suffixed_table (sfx : string) (cols : list (string * Series)) :
  Forall2 (λ c0 c : string * Series,
             c.1 = c0.1 +:+ sfx
             ∧ c.2 = (if contains "Date" c.1
                      then to_datetime_infer infer_datetime c0.2 else c0.2)
             ∧ length (values c.2) = length (values c0.2))
    cols
    (date_column infer_datetime <$> ((λ c : string * Series, (c.1 +:+ sfx, c.2)) <$> cols)).
Proof.
  rewrite <- list_fmap_compose. apply Forall2_fmap_r, Forall_Forall2_diag, Forall_forall.
  intros c _. cbn [compose]. unfold date_column. cbn [fst snd].
  destruct (contains "Date" (c.1 +:+ sfx)) eqn:E; cbn [fst snd]; rewrite ?E.
  - split_and!; [done..|]. apply to_datetime_infer_length.
  - by split_and!.
Qed.

(** X11.  For two tables that load, the forest and grassland tables the
    function returns have the rows of the files; every label has received
    its habitat's suffix, a column whose new label contains ['Date'] has
    been converted once, keeping its length (a column already of datetime
    dtype is kept as it is), and every other column is the file's column
    unchanged. *)
Theorem birds_tables_suffixed (files : csv_files) (forest_path grassland_path : string)
    (F G : DataFrame) :
  files forest_path = Ok F → files grassland_path = Ok G →
  wf_frame F → wf_frame G →
  ∃ merged_df forest_df grassland_df,
    load_and_preprocess_data infer_datetime files forest_path grassland_path
    = ([], Ok (merged_df, forest_df, grassland_df))
    ∧ nrows forest_df = nrows F ∧ nrows grassland_df = nrows G
    ∧ Forall2 (λ c0 c : string * Series,
                 c.1 = c0.1 +:+ "_forest"
                 ∧ c.2 = (if contains "Date" c.1
                          then to_datetime_infer infer_datetime c0.2 else c0.2)
                 ∧ length (values c.2) = length (values c0.2))
        (columns F) (columns forest_df)
    ∧ Forall2 (λ c0 c : string * Series,
                 c.1 = c0.1 +:+ "_grassland"
                 ∧ c.2 = (if contains "Date" c.1
                          then to_datetime_infer infer_datetime c0.2 else c0.2)
                 ∧ length (values c.2) = length (values c0.2))
        (columns G) (columns grassland_df).
Proof.
  intros HF HG WF WG.
  destruct (birds_load_Ok files forest_path grassland_path F G HF HG WF WG) as (E & _ & _).
  eexists _, _, _. split; [exact E|]. cbn [nrows columns].
  split_and!; [done..| |]; apply suffixed_table.
Qed.

Lemma labels_head_rows (n : nat) (df : DataFrame) : labels (head_rows n df) = labels df.
Proof.
  unfold labels, head_rows. cbn [columns]. rewrite <- list_fmap_compose.
  by apply list_fmap_ext.
Qed.

Lemma labels_suffixed_table (n : nat) (sfx : string) (cols : list (string * Series)) :
  labels (mk_frame n (date_column infer_datetime
                        <$> ((λ c : string * Series, (c.1 +:+ sfx, c.2)) <$> cols)))
  = (λ col, col +:+ sfx) <$> cols.*1.
Proof.
  unfold labels. cbn [columns]. rewrite <- !list_fmap_compose.
  apply list_fmap_ext. intros i c _. cbn [compose]. by rewrite date_column_label.
Qed.

(** X12.  For two tables that load, the merged table is well formed: its
    labels are the suffixed forest labels followed by the suffixed
    grassland labels, no two of them equal, and every column has one cell
    per row. *)
Theorem birds_merged_well_formed (files : csv_files) (forest_path grassland_path : string)
    (F G : DataFrame) :
  files forest_path = Ok F → files grassland_path = Ok G →
  wf_frame F → wf_frame G →
  ∃ merged_df forest_df grassland_df,
    load_and_preprocess_data infer_datetime files forest_path grassland_path
    = ([], Ok (merged_df, forest_df, grassland_df))
    ∧ wf_frame merged_df
    ∧ labels merged_df
      = ((λ col, col +:+ "_forest") <$> labels F)
        ++ ((λ col, col +:+ "_grassland") <$> labels G).
Proof.
  intros HF HG WF WG.
  destruct (birds_load_Ok files forest_path grassland_path F G HF HG WF WG)
    as (E & WF2 & WG2).
  eexists _, _, _. split; [exact E|].
  match goal with
  | |- wf_frame (mk_frame ?n (columns (head_rows ?n ?a) ++ columns (head_rows ?n ?b))) ∧ _ =>
      destruct (head_rows_full n a WF2 ltac:(cbn [nrows]; lia)) as [_ HlF];
      destruct (head_rows_full n b WG2 ltac:(cbn [nrows]; lia)) as [_ HlG];
      assert (labels (mk_frame n (columns (head_rows n a) ++ columns (head_rows n b)))
              = ((λ col, col +:+ "_forest") <$> labels F)
                ++ ((λ col, col +:+ "_grassland") <$> labels G)) as HL
  end.
  { unfold labels at 1. cbn [columns]. rewrite fmap_app.
    fold (labels (head_rows (nrows F `min` nrows G)
                    (mk_frame (nrows F)
                       (date_column infer_datetime
                          <$> ((λ c : string * Series, (c.1 +:+ "_forest", c.2))
                                 <$> columns F))))).
    fold (labels (head_rows (nrows F `min` nrows G)
                    (mk_frame (nrows G)
                       (date_column infer_datetime
                          <$> ((λ c : string * Series, (c.1 +:+ "_grassland", c.2))
                                 <$> columns G))))).
    by rewrite !labels_head_rows, !labels_suffixed_table. }
  split; [|exact HL]. split.
  - rewrite HL. apply NoDup_app. split_and!.
    + apply NoDup_fmap_2; [|apply WF]. intros x y. apply append_suffix_inj.
    + intros l (x & -> & _)%list_elem_of_fmap (y & E' & _)%list_elem_of_fmap.
      by apply suffixes_clash in E'.
    + apply NoDup_fmap_2; [|apply WG]. intros x y. apply append_suffix_inj.
  - cbn [columns nrows]. by apply Forall_app.
Qed.

Lemma getitem_elem (df : DataFrame) (l : string) (s : Series) :
  NoDup (labels df) → (l, s) ∈ columns df → getitem df l = Ok s.
Proof.
  intros Hnd Hin. destruct (getitem_present df l Hnd) as [s0 G].
  { apply list_elem_of_fmap. by exists (l, s). }
  pose proof (unique_column df l s0 G (l, s) Hin eq_refl) as E.
  injection E as ->. exact G.
Qed.

Lemma suffixed_labels_NoDup (F G : DataFrame) :
  wf_frame F → wf_frame G →
  NoDup (((λ col, col +:+ "_forest") <$> labels F)
         ++ ((λ col, col +:+ "_grassland") <$> labels G)).
Proof.
  intros WF WG. apply NoDup_app. split_and!.
  - apply NoDup_fmap_2; [|apply WF]. intros x y. apply append_suffix_inj.
  - intros l (x & -> & _)%list_elem_of_fmap (y & E' & _)%list_elem_of_fmap.
    by apply suffixes_clash in E'.
  - apply NoDup_fmap_2; [|apply WG]. intros x y. apply append_suffix_inj.
Qed.

(** The column of the side-by-side table that comes from one column of a
    file. *)
Lemma head_of_suffixed (n m : nat) (sfx : string) (cols : list (string * Series))
    (c : string * Series) :
  c ∈ cols →
  (c.1 +:+ sfx,
   head_series n (if contains "Date" (c.1 +:+ sfx)
                  then to_datetime_infer infer_datetime c.2 else c.2))
  ∈ columns (head_rows n
               (mk_frame m
                  (date_column infer_datetime
                     <$> ((λ c : string * Series, (c.1 +:+ sfx, c.2)) <$> cols)))).
Proof.
  intros Hc. unfold head_rows. cbn [columns]. rewrite <- !list_fmap_compose.
  apply list_elem_of_fmap. exists c. split; [|done]. cbn [compose].
  unfold date_column. cbn [fst snd]. by destruct (contains "Date" (c.1 +:+ sfx)).
Qed.

(** C10.  [load_and_preprocess_data] of [birds.py] joins on no key: for two
    tables that load, its merged table has exactly
    [min (len forest) (len grassland)] rows, its columns are the suffixed
    columns of the forest file followed by those of the grassland file, and
    each of them has the dtype and holds the first [min] cells of the file's
    column (converted first when its label contains ['Date']), in the file's
    order: row [i] of the merged table is row [i] of either file side by
    side, whatever the keys, and every later row of the longer file is left
    out. *)
Theorem side_by_side_truncation (files : csv_files) (forest_path grassland_path : string)
    (F G : DataFrame) :
  files forest_path = Ok F → files grassland_path = Ok G →
  wf_frame F → wf_frame G →
  ∃ merged_df forest_df grassland_df,
    load_and_preprocess_data infer_datetime files forest_path grassland_path
    = ([], Ok (merged_df, forest_df, grassland_df))
    ∧ nrows forest_df = nrows F ∧ nrows grassland_df = nrows G
    ∧ nrows merged_df = Nat.min (nrows F) (nrows G)
    ∧ labels merged_df
      = ((λ col, col +:+ "_forest") <$> labels F)
        ++ ((λ col, col +:+ "_grassland") <$> labels G)
    ∧ (∀ c, c ∈ columns F →
         ∃ s, getitem merged_df (c.1 +:+ "_forest") = Ok s
              ∧ dt s = dt (if contains "Date" (c.1 +:+ "_forest")
                           then to_datetime_infer infer_datetime c.2 else c.2)
              ∧ values s
                = firstn (Nat.min (nrows F) (nrows G))
                    (values (if contains "Date" (c.1 +:+ "_forest")
                             then to_datetime_infer infer_datetime c.2 else c.2)))
    ∧ (∀ c, c ∈ columns G →
         ∃ s, getitem merged_df (c.1 +:+ "_grassland") = Ok s
              ∧ dt s = dt (if contains "Date" (c.1 +:+ "_grassland")
                           then to_datetime_infer infer_datetime c.2 else c.2)
              ∧ values s
                = firstn (Nat.min (nrows F) (nrows G))
                    (values (if contains "Date" (c.1 +:+ "_grassland")
                             then to_datetime_infer infer_datetime c.2 else c.2))).
Proof.
  intros HF HG WF WG.
  destruct (birds_load_Ok files forest_path grassland_path F G HF HG WF WG)
    as (E & _ & _).
  cbn zeta in E.
  match type of E with
  | _ = (_, Ok (?m, ?a, ?b)) =>
      assert (labels m
              = ((λ col, col +:+ "_forest") <$> labels F)
                ++ ((λ col, col +:+ "_grassland") <$> labels G)) as HL;
      [|exists m, a, b]
  end.
  { unfold labels at 1. cbn [columns]. rewrite fmap_app.
    fold (labels (head_rows (nrows F `min` nrows G)
                    (mk_frame (nrows F)
                       (date_column infer_datetime
                          <$> ((λ c : string * Series, (c.1 +:+ "_forest", c.2))
                                 <$> columns F))))).
    fold (labels (head_rows (nrows F `min` nrows G)
                    (mk_frame (nrows G)
                       (date_column infer_datetime
                          <$> ((λ c : string * Series, (c.1 +:+ "_grassland", c.2))
                                 <$> columns G))))).
    by rewrite !labels_head_rows, !labels_suffixed_table. }
  split; [exact E|]. split_and!; [done..| |].
  - intros c Hc. eexists. split.
    + apply getitem_elem.
      * rewrite HL. by apply suffixed_labels_NoDup.
      * cbn [columns]. apply elem_of_app. left. by apply head_of_suffixed.
    + split; reflexivity.
  - intros c Hc. eexists. split.
    + apply getitem_elem.
      * rewrite HL. by apply suffixed_labels_NoDup.
      * cbn [columns]. apply elem_of_app. right. by apply head_of_suffixed.
    + split; reflexivity.
Qed.

End BirdsLoad.

(** ** The page of [app.py] *)

Lemma script_load_failure (fs : filesystem) (e : exn) :
  read_workbook fs file_path_forest = Raise e
  ∨ ((∃ df1, read_workbook fs file_path_forest = Ok df1)
     ∧ read_workbook fs file_path_grassland = Raise e) →
  script fs
  = ([Spinner "Loading data..."; StError (load_error_text e);
      StError "Data loading failed. Please check file paths."], Ok None).
Proof.
  intros H. unfold script. rewrite load_data_cases.
  destruct H as [->|[[df1 ->] ->]]; reflexivity.
Qed.

Lemma run_sections_None (bodies : list (DataFrame → St DataFrame)) :
  run_sections bodies None = ([], inl None).
Proof. induction bodies as [|b bs IH]; [done|]. simpl. by rewrite IH. Qed.

Lemma page_without_table
    (sections : list (DataFrame → St DataFrame)) (flyover : DataFrame → St unit)
    (id_method : DataFrame → St DataFrame) (fs : filesystem) (l : list event) :
  script fs = (l, Ok None) →
  page sections flyover id_method fs
  = (l, inr (TypeError "'NoneType' object is not subscriptable")).
Proof.
  intros H. unfold page. rewrite H.
  cbn [of_St mbind Page_bind]. rewrite run_sections_None.
  cbn. by rewrite app_nil_r.
Qed.

Lemma script_result (fs : filesystem) (forest_df grassland_df : DataFrame) :
  read_workbook fs file_path_forest = Ok forest_df →
  read_workbook fs file_path_grassland = Ok grassland_df →
  (script fs).2 = match merge_and_normalize forest_df grassland_df with
                  | Ok processed_df => Ok (Some processed_df)
                  | Raise e => Raise e
                  end.
Proof.
  intros H1 H2. unfold script. rewrite load_data_cases, H1, H2.
  cbn -[preprocess_data merge_and_normalize]. rewrite preprocess_data_cases.
  unfold merge_and_normalize, normalize.
  destruct (merge forest_df grassland_df "AcceptedTSN" suffixes) as [m|e]; simpl; [|done].
  by destruct (convert_types (fill_missing m)).
Qed.

(** X13.  When a workbook cannot be read the page does not end with the
    two error messages: every guarded section is skipped, and the flyover
    statements, which are not guarded, subscript [None] and raise a
    [TypeError]. *)
Theorem page_crashes_after_failed_load
    (sections : list (DataFrame → St DataFrame)) (flyover : DataFrame → St unit)
    (id_method : DataFrame → St DataFrame) (fs : filesystem) (e : exn) :
  read_workbook fs file_path_forest = Raise e
  ∨ ((∃ df1, read_workbook fs file_path_forest = Ok df1)
     ∧ read_workbook fs file_path_grassland = Raise e) →
  page sections flyover id_method fs
  = ([Spinner "Loading data..."; StError (load_error_text e);
      StError "Data loading failed. Please check file paths."],
     inr (TypeError "'NoneType' object is not subscriptable")).
Proof.
  intros H. apply page_without_table. by apply script_load_failure.
Qed.

(** X14.  The page runs to its end only when both workbooks were read and
    the merge and the normalization succeeded. *)
Theorem page_completes_only_with_table
    (sections : list (DataFrame → St DataFrame)) (flyover : DataFrame → St unit)
    (id_method : DataFrame → St DataFrame) (fs : filesystem) :
  (page sections flyover id_method fs).2 = inl tt →
  ∃ forest_df grassland_df processed_df,
    read_workbook fs file_path_forest = Ok forest_df
    ∧ read_workbook fs file_path_grassland = Ok grassland_df
    ∧ merge_and_normalize forest_df grassland_df = Ok processed_df
    ∧ returns (script fs) (Some processed_df).
Proof.
  intros H.
  destruct (read_workbook fs file_path_forest) as [f|e] eqn:E1.
  - destruct (read_workbook fs file_path_grassland) as [g|e] eqn:E2.
    + pose proof (script_result fs f g E1 E2) as Hs.
      destruct (merge_and_normalize f g) as [out|e] eqn:Em.
      * exists f, g, out. split_and!; [done..|exact Hs].
      * unfold page in H. destruct (script fs) as [l [o|e']]; simpl in Hs; [done|].
        by cbn in H.
    + rewrite (page_without_table _ _ _ fs _ (script_load_failure fs e
                 (or_intror (conj (ex_intro _ f E1) E2)))) in H. done.
  - rewrite (page_without_table _ _ _ fs _ (script_load_failure fs e (or_introl E1))) in H.
    done.
Qed.

(** ** The page of [birds.py] *)

Lemma series_nunique_le (s : Series) : series_nunique s ≤ length (values s).
Proof.
  unfold series_nunique.
  etrans; [apply length_remove_dups_le|]. rewrite length_fmap. apply length_filter.
Qed.

Section BirdsPage.
Variable infer_datetime : inference.

Lemma labels_loaded (sfx : string) (df : DataFrame) :
  labels (loaded infer_datetime sfx df) = (λ col, col +:+ sfx) <$> labels df.
Proof. apply labels_suffixed_table. Qed.

Lemma elem_of_labels_loaded (sfx : string) (df : DataFrame) (x : string) :
  x +:+ sfx ∈ labels (loaded infer_datetime sfx df) ↔ x ∈ labels df.
Proof.
  rewrite labels_loaded, list_elem_of_fmap. split.
  - by intros (y & ->%append_suffix_inj & Hy).
  - intros Hx. by exists x.
Qed.

Lemma filter_relabel (h : string * Series → string * Series) (sfx x : string)
    (cols : list (string * Series)) :
  (∀ c, (h c).1 = c.1 +:+ sfx) →
  filter (λ c : string * Series, c.1 = x +:+ sfx) (h <$> cols)
  = h <$> filter (λ c : string * Series, c.1 = x) cols.
Proof.
  intros Hh. induction cols as [|c cs IH]; [done|].
  rewrite fmap_cons, !filter_cons, Hh.
  destruct (decide (c.1 = x)) as [->|Hne].
  - rewrite decide_True by done. rewrite fmap_cons. f_equal. exact IH.
  - rewrite decide_False; [exact IH|]. by intros ?%append_suffix_inj.
Qed.

Lemma getitem_loaded (sfx : string) (df : DataFrame) (x : string) (s : Series) :
  getitem df x = Ok s →
  contains "Date" (x +:+ sfx) = false →
  getitem (loaded infer_datetime sfx df) (x +:+ sfx) = Ok s.
Proof.
  intros G Hd. unfold loaded, getitem in *. cbn [columns].
  rewrite <- list_fmap_compose, filter_relabel
    by (intros c; cbn [compose]; by rewrite date_column_label).
  destruct (filter _ (columns df)) as [|c [|c' rest]] eqn:Ef; try done.
  injection G as <-. cbn.
  assert (c ∈ filter (λ c : string * Series, c.1 = x) (columns df)) as Hin
    by (rewrite Ef; left).
  apply list_elem_of_filter in Hin as [Hl _]. unfold date_column. cbn [fst snd].
  by rewrite Hl, Hd.
Qed.

Lemma birds_page_loaded (files : csv_files) (F G : DataFrame) :
  files FOREST_FILE = Ok F → files GRASSLAND_FILE = Ok G →
  wf_frame F → wf_frame G →
  birds_page infer_datetime files
  = if (Nat.min (nrows F) (nrows G) =? 0)
       || (length (columns F) + length (columns G) =? 0)
    then []
    else Heading
         :: summary_metrics (loaded infer_datetime "_forest" F)
              (loaded infer_datetime "_grassland" G)
         ++ Tabs
         :: render_habitat_analysis (loaded infer_datetime "_forest" F) "Forest" "_forest"
         ++ render_habitat_analysis (loaded infer_datetime "_grassland" G)
              "Grassland" "_grassland".
Proof.
  intros HF HG WF WG. unfold birds_page.
  destruct (birds_load_Ok infer_datetime files _ _ F G HF HG WF WG) as (-> & _ & _).
  cbn [fmap list_fmap app]. unfold df_empty. cbn [nrows columns].
  unfold head_rows. cbn [columns]. by rewrite length_app, !length_fmap.
Qed.

(** X15.  When a file cannot be read the page shows the loader's error
    and nothing else: the script stops on the empty merged table. *)
Theorem birds_page_stops_on_failure (files : csv_files) (e : exn) :
  files FOREST_FILE = Raise e
  ∨ ((∃ F, files FOREST_FILE = Ok F) ∧ files GRASSLAND_FILE = Raise e) →
  ∃ text, birds_page infer_datetime files = [Shown (StError text)].
Proof.
  intros H. destruct (birds_load_Raise infer_datetime files _ _ e H) as [text E].
  exists text. unfold birds_page. by rewrite E.
Qed.

(** X16.  When both files load and one of them has no row, the page shows
    nothing at all, not even an error: the merged table has as many rows
    as the shorter table, and the script stops on it. *)
Theorem birds_page_stops_without_rows (files : csv_files) (F G : DataFrame) :
  files FOREST_FILE = Ok F → files GRASSLAND_FILE = Ok G →
  wf_frame F → wf_frame G →
  nrows F = 0 ∨ nrows G = 0 →
  birds_page infer_datetime files = [].
Proof.
  intros HF HG WF WG H0. rewrite (birds_page_loaded files F G) by done.
  assert (Nat.min (nrows F) (nrows G) = 0) as -> by lia. done.
Qed.

Lemma render_loaded (sfx habitat_name : string) (df : DataFrame) :
  render_habitat_analysis (loaded infer_datetime sfx df) habitat_name sfx
  = if bool_decide (Forall (λ col, col ∈ labels df) analysis_cols)
    then [Analyses habitat_name]
    else [Warning ("Required columns not found in " +:+ habitat_name
                   +:+ " data. Cannot render charts.")].
Proof.
  unfold render_habitat_analysis. cbn zeta. cbn [forallb].
  rewrite !(bool_decide_ext _ _ (elem_of_labels_loaded sfx df _)).
  unfold analysis_cols.
  repeat case_bool_decide; cbn [andb]; try done.
  all: try (exfalso; match goal with
                     | H : ¬ Forall _ _ |- _ => apply H; by repeat constructor
                     end).
  all: try (exfalso; match goal with
                     | H : Forall _ _ |- _ =>
                         repeat (apply Forall_cons in H as [? H]); done
                     end).
Qed.

Lemma metrics_loaded (F G : DataFrame) :
  wf_frame F → wf_frame G →
  (∀ sf sg, getitem F "Common_Name" = Ok sf → getitem G "Common_Name" = Ok sg →
     summary_metrics (loaded infer_datetime "_forest" F)
       (loaded infer_datetime "_grassland" G)
     = [Metric "Unique Species (Forest)" (series_nunique sf) (nrows F);
        Metric "Unique Species (Grassland)" (series_nunique sg) (nrows G)]
     ∧ series_nunique sf ≤ nrows F ∧ series_nunique sg ≤ nrows G)
  ∧ (("Common_Name" ∉ labels F) ∨ ("Common_Name" ∉ labels G) →
     summary_metrics (loaded infer_datetime "_forest" F)
       (loaded infer_datetime "_grassland" G)
     = [Info "Cannot calculate summary metrics. Check if data contains 'Common_Name' column."]).
Proof.
  intros WF WG. unfold summary_metrics. cbn zeta.
  change "Common_Name_forest" with ("Common_Name" +:+ "_forest").
  change "Common_Name_grassland" with ("Common_Name" +:+ "_grassland").
  rewrite !(bool_decide_ext _ _ (elem_of_labels_loaded _ _ _)).
  split.
  - intros sf sg Gf Gg.
    destruct (getitem_Ok_count _ _ _ Gf) as [_ Hf].
    destruct (getitem_Ok_count _ _ _ Gg) as [_ Hg].
    rewrite !bool_decide_eq_true_2
      by (apply list_elem_of_fmap; by eexists (_, _)).
    cbn [andb]. rewrite (getitem_loaded "_forest" F "Common_Name" sf Gf) by done.
    cbn [mbind result_bind].
    rewrite (getitem_loaded "_grassland" G "Common_Name" sg Gg) by done.
    cbn [mbind result_bind nrows loaded]. split; [done|].
    rewrite <- (wf_column_length F _ _ WF Gf), <- (wf_column_length G _ _ WG Gg).
    split; apply series_nunique_le.
  - intros [H|H].
    + by rewrite (bool_decide_eq_false_2 _ H).
    + rewrite (bool_decide_eq_false_2 _ H). by rewrite andb_false_r.
Qed.

(** X17.  When both files load with at least one row each, the page shows
    the heading, then the metrics, then the two tabs.  The metrics are the
    numbers of distinct species names of the two files, each at most the
    file's row count, when both files have a [Common_Name] column, and an
    information box otherwise; a tab shows its analyses exactly when the
    file has the four columns they read, and a warning otherwise. *)
Theorem birds_page_rendered (files : csv_files) (F G : DataFrame) :
  files FOREST_FILE = Ok F → files GRASSLAND_FILE = Ok G →
  wf_frame F → wf_frame G →
  0 < nrows F → 0 < nrows G → columns F ≠ [] →
  ∃ metrics forest_tab grassland_tab,
    birds_page infer_datetime files
    = Heading :: metrics ++ Tabs :: forest_tab ++ grassland_tab
    ∧ (∀ sf sg,
         getitem F "Common_Name" = Ok sf → getitem G "Common_Name" = Ok sg →
         metrics = [Metric "Unique Species (Forest)" (series_nunique sf) (nrows F);
                    Metric "Unique Species (Grassland)" (series_nunique sg) (nrows G)]
         ∧ series_nunique sf ≤ nrows F ∧ series_nunique sg ≤ nrows G)
    ∧ (("Common_Name" ∉ labels F) ∨ ("Common_Name" ∉ labels G) →
       metrics
       = [Info "Cannot calculate summary metrics. Check if data contains 'Common_Name' column."])
    ∧ forest_tab
      = (if bool_decide (Forall (λ col, col ∈ labels F) analysis_cols)
         then [Analyses "Forest"]
         else [Warning "Required columns not found in Forest data. Cannot render charts."])
    ∧ grassland_tab
      = (if bool_decide (Forall (λ col, col ∈ labels G) analysis_cols)
         then [Analyses "Grassland"]
         else [Warning "Required columns not found in Grassland data. Cannot render charts."]).
Proof.
  intros HF HG WF WG NF NG CF. rewrite (birds_page_loaded files F G) by done.
  assert ((Nat.min (nrows F) (nrows G) =? 0)
          || (length (columns F) + length (columns G) =? 0) = false) as ->.
  { apply orb_false_intro; apply Nat.eqb_neq; [lia|].
    destruct (columns F); [done|]. simpl. lia. }
  destruct (metrics_loaded F G WF WG) as [M1 M2].
  eexists _, _, _. split; [reflexivity|].
  split_and!; [exact M1|exact M2|apply render_loaded..].
Qed.

End BirdsPage.

(** ** The temporal section of [app.py] *)

Lemma normalize_wf (merged out : DataFrame) :
  wf_frame merged → normalize merged = Ok out → wf_frame out.
Proof.
  intros [Hnd Hlen] Hn. split.
  - by rewrite (normalize_labels _ _ Hn).
  - rewrite (normalize_columns _ _ Hn). cbn [columns nrows].
    rewrite <- list_fmap_compose. apply Forall_fmap, Forall_forall.
    intros c Hc. cbn [compose]. rewrite convert_column_length, fill_column_length.
    rewrite Forall_forall in Hlen. by apply Hlen.
Qed.

Lemma labels_assign (df : DataFrame) (l : string) (s : Series) :
  labels (assign df l s) = if bool_decide (l ∈ labels df) then labels df
                           else labels df ++ [l].
Proof.
  unfold assign. case_bool_decide; [apply labels_setitem|].
  unfold labels. cbn [columns]. by rewrite fmap_app.
Qed.

Lemma wf_assign (df : DataFrame) (l : string) (s : Series) :
  wf_frame df → length (values s) = nrows df → wf_frame (assign df l s).
Proof.
  intros Hwf Hs. unfold assign. case_bool_decide as Hin; [by apply wf_setitem|].
  destruct Hwf as [Hnd Hlen]. split.
  - unfold labels. cbn [columns]. rewrite fmap_app. apply NoDup_app. split_and!; [done| |].
    + intros x Hx [->|[]%elem_of_nil]%elem_of_cons. done.
    + apply NoDup_singleton.
  - cbn [columns nrows]. apply Forall_app. split; [done|]. by apply Forall_singleton.
Qed.

Lemma nrows_assign (df : DataFrame) (l : string) (s : Series) :
  nrows (assign df l s) = nrows df.
Proof. unfold assign. by case_bool_decide. Qed.

Lemma getitem_assign_same (df : DataFrame) (l : string) (s : Series) :
  NoDup (labels df) → getitem (assign df l s) l = Ok s.
Proof.
  intros Hnd. unfold assign. case_bool_decide as Hin.
  - destruct (getitem_present df l Hnd Hin) as [s0 G].
    unfold setitem.
    rewrite (getitem_fmap (λ c : string * Series,
                             if bool_decide (c.1 = l) then (c.1, s) else c))
      by (intros c; by case_bool_decide).
    rewrite G. cbn [fst snd]. by rewrite bool_decide_eq_true_2.
  - unfold getitem. cbn [columns]. rewrite filter_app.
    assert (filter (λ c : string * Series, c.1 = l) (columns df) = []) as ->.
    { apply (getitem_absent df l) in Hin. unfold getitem in Hin.
      by destruct (filter _ (columns df)) as [|? [|? ?]]. }
    rewrite filter_cons_True by done. done.
Qed.

Lemma getitem_assign_other (df : DataFrame) (l l' : string) (s : Series) :
  l' ≠ l → getitem (assign df l s) l' = getitem df l'.
Proof.
  intros Hne. unfold assign. case_bool_decide as Hin.
  - unfold setitem.
    rewrite (getitem_fmap (λ c : string * Series,
                             if bool_decide (c.1 = l) then (c.1, s) else c))
      by (intros c; by case_bool_decide).
    destruct (getitem df l') as [s0|e]; [|done]. cbn [fst snd].
    by rewrite bool_decide_eq_false_2.
  - unfold getitem. cbn [columns]. rewrite filter_app.
    rewrite filter_cons_False by (cbn; congruence). by rewrite app_nil_r.
Qed.

Lemma normalized_designated (merged out : DataFrame) (l : string) :
  NoDup (labels merged) → normalize merged = Ok out → l ∈ datetime_cols →
  ∃ s0, getitem merged l = Ok s0.
Proof.
  intros Hnd Hn Hl. unfold normalize in Hn.
  destruct (convert_types_outcome (fill_missing merged)) as [[Hall _]|(l' & _ & _ & E)].
  - by rewrite labels_fill_missing.
  - rewrite Forall_forall in Hall. specialize (Hall l Hl).
    rewrite labels_fill_missing in Hall. by apply getitem_present.
  - congruence.
Qed.

Lemma normalized_date_forest (merged out : DataFrame) :
  NoDup (labels merged) → normalize merged = Ok out →
  ∃ s, getitem out "Date_forest" = Ok s ∧ dt s = DDatetime.
Proof.
  intros Hnd Hn.
  destruct (normalized_designated merged out "Date_forest" Hnd Hn) as [s0 G].
  { unfold datetime_cols, date_cols. cbn. left. }
  eexists. split; [by apply (normalize_getitem merged out)|].
  unfold convert_column. cbn [fst snd]. rewrite bool_decide_eq_true_2 by left.
  apply to_datetime_dt.
Qed.

Lemma mask_values_all {A} (mask : list bool) (vs : list A) :
  Forall (λ b, b = true) mask → length vs ≤ length mask → mask_values mask vs = vs.
Proof.
  unfold mask_values. intros Hall. revert vs.
  induction Hall as [|b mask -> _ IH]; intros [|v vs] Hlen; try done.
  - cbn [length] in Hlen. lia.
  - cbn [zip zip_with]. rewrite filter_cons_True by done. rewrite fmap_cons. cbn [snd].
    f_equal. apply IH. cbn [length] in Hlen. lia.
Qed.

Lemma count_all_true (mask : list bool) :
  Forall (λ b, b = true) mask → length (filter (λ b : bool, b = true) mask) = length mask.
Proof.
  induction 1 as [|b mask -> _ IH]; [done|]. rewrite filter_cons_True by done.
  simpl. by rewrite IH.
Qed.

Lemma mask_rows_all (mask : list bool) (df : DataFrame) :
  wf_frame df → Forall (λ b, b = true) mask → length mask = nrows df →
  mask_rows mask df = df.
Proof.
  intros [_ Hlen] Hall Hm. unfold mask_rows. rewrite (count_all_true _ Hall), Hm.
  destruct df as [n cols]. cbn [nrows columns] in *. f_equal.
  transitivity (id <$> cols); [|apply list_fmap_id].
  apply list_fmap_ext. intros i [l [d vs]] Hc. cbn.
  rewrite Forall_forall in Hlen. apply list_elem_of_lookup_2, Hlen in Hc. cbn in Hc.
  rewrite mask_values_all; [done..|lia].
Qed.

Lemma season_of_cases (c : cell) :
  season_of c ∈ [Str "Winter"; Str "Spring"; Str "Summer"; Str "Autumn"; NaN].
Proof.
  unfold season_of. destruct c as [z| | | | | |]; try solve [solve_elem].
  destruct z as [|p|p]; try solve [solve_elem].
  do 5 (try (destruct p as [p|p|]; try solve [solve_elem])).
Qed.

Lemma dt_field_length (f : datetime → nat) (s s' : Series) :
  dt_field f s = Ok s' → length (values s') = length (values s).
Proof.
  unfold dt_field. destruct (dt s); try done. intros [= <-]. cbn. by rewrite length_fmap.
Qed.

Lemma dt_field_Ok (f : datetime → nat) (s : Series) :
  dt s = DDatetime →
  ∃ s', dt_field f s = Ok s' ∧ length (values s') = length (values s).
Proof.
  intros E. unfold dt_field. rewrite E. eexists. split; [done|]. cbn.
  by rewrite length_fmap.
Qed.

(** X18.  On the table the normalization returns, the temporal features
    are always computed: [Date_forest] is there and of datetime dtype.  The
    table stays well formed and keeps every column labelled otherwise; its
    [Season] column holds one of the four season names, or a missing cell
    where the forest date is missing, and never ['Unknown']: the filter of
    the seasonal trends keeps every row, those without a season
    included. *)
Theorem temporal_features_of_normalized (merged out : DataFrame) :
  wf_frame merged → normalize merged = Ok out →
  ∃ df season,
    temporal_features out = Ok df
    ∧ wf_frame df ∧ nrows df = nrows out
    ∧ getitem df "Season" = Ok season
    ∧ Forall (λ c, c ∈ [Str "Winter"; Str "Spring"; Str "Summer"; Str "Autumn"; NaN])
        (values season)
    ∧ mask_rows (ne_scalar (Str "Unknown") season) df = df
    ∧ (∀ l, l ∉ ["Year"; "Month"; "Season"] → getitem df l = getitem out l).
Proof.
  intros Wm Hn. pose proof (normalize_wf _ _ Wm Hn) as Wo.
  destruct (normalized_date_forest merged out (proj1 Wm) Hn) as (ds & Gd & Dd).
  pose proof (wf_column_length _ _ _ Wo Gd) as Ld.
  destruct (dt_field_Ok year ds Dd) as (years & Ey & Ly).
  destruct (dt_field_Ok month ds Dd) as (months & Em & Lm).
  unfold temporal_features. rewrite Gd. cbn [mbind result_bind].
  rewrite Ey. cbn [mbind result_bind].
  rewrite getitem_assign_other by done. rewrite Gd. cbn [mbind result_bind].
  rewrite Em. cbn [mbind result_bind].
  assert (wf_frame (assign out "Year" years)) as W1.
  { apply wf_assign; [done|]. by rewrite Ly. }
  assert (wf_frame (assign (assign out "Year" years) "Month" months)) as W2.
  { apply wf_assign; [done|]. by rewrite Lm, nrows_assign. }
  rewrite (getitem_assign_same _ "Month" months) by apply W1.
  cbn [mbind result_bind].
  assert (length (values (map_season months)) = nrows out) as Ls.
  { cbn. by rewrite length_fmap, Lm. }
  assert (wf_frame (assign (assign (assign out "Year" years) "Month" months)
                      "Season" (map_season months))) as W3.
  { apply wf_assign; [done|]. by rewrite Ls, !nrows_assign. }
  eexists _, (map_season months). split_and!; [reflexivity|done|by rewrite !nrows_assign| | | |].
  - apply getitem_assign_same, W2.
  - cbn [map_season values]. apply Forall_fmap, Forall_forall. intros c _.
    apply season_of_cases.
  - apply mask_rows_all; [done| |].
    + unfold ne_scalar. apply Forall_fmap, Forall_forall. intros c Hc. cbn [compose].
      cbn [map_season values] in Hc. apply list_elem_of_fmap in Hc as (m & -> & _).
      pose proof (season_of_cases m) as Hs.
      repeat (apply elem_of_cons in Hs as [->|Hs]; [done|]). by apply elem_of_nil in Hs.
    + unfold ne_scalar. by rewrite length_fmap, Ls, !nrows_assign.
  - intros l Hl. apply not_elem_of_cons in Hl as [H1 Hl].
    apply not_elem_of_cons in Hl as [H2 Hl]. apply not_elem_of_cons in Hl as [H3 _].
    by rewrite !getitem_assign_other.
Qed.

(** ** The distribution of start hours *)

Lemma normalized_time_cells (merged out : DataFrame) (l : string) (s : Series) :
  NoDup (labels merged) → normalize merged = Ok out → l ∈ time_cols →
  getitem out l = Ok s → Forall time_or_missing (values s).
Proof.
  intros Hnd Hn Hl G.
  destruct (normalized_designated merged out l Hnd Hn) as [s0 G0].
  { unfold datetime_cols. apply elem_of_app. by right. }
  rewrite (normalize_getitem merged out l s0 Hn G0) in G. injection G as <-.
  unfold convert_column. cbn [fst snd].
  rewrite bool_decide_eq_false_2 by by apply time_col_not_date.
  rewrite bool_decide_eq_true_2 by done. cbn [snd dt_time values].
  apply Forall_fmap, Forall_forall. intros c _. apply time_of_cell_typed.
Qed.

Lemma length_mask_values {A} (mask : list bool) (vs : list A) :
  length mask = length vs →
  length (mask_values mask vs) = length (filter (λ b : bool, b = true) mask).
Proof.
  unfold mask_values. revert vs.
  induction mask as [|b mask IH]; intros [|v vs] Hlen; try done.
  cbn [zip zip_with]. rewrite !filter_cons. cbn [fst].
  destruct (decide (b = true)); cbn [fmap list_fmap length]; [f_equal|];
    apply IH; cbn in Hlen; lia.
Qed.

Lemma getitem_mask_rows (mask : list bool) (df : DataFrame) (l : string) :
  getitem (mask_rows mask df) l
  = match getitem df l with
    | Ok s => Ok (mk_series (dt s) (mask_values mask (values s)))
    | Raise e => Raise e
    end.
Proof.
  unfold mask_rows.
  by rewrite (getitem_fmap
                (λ c : string * Series,
                   (c.1, mk_series (dt c.2) (mask_values mask (values c.2))))).
Qed.

Lemma wf_mask_rows (mask : list bool) (df : DataFrame) :
  wf_frame df → length mask = nrows df → wf_frame (mask_rows mask df).
Proof.
  intros [Hnd Hlen] Hm. split.
  - unfold labels, mask_rows. cbn [columns]. rewrite <- list_fmap_compose.
    assert ((fst ∘ (λ c : string * Series,
                      (c.1, mk_series (dt c.2) (mask_values mask (values c.2)))))
              <$> columns df = labels df) as ->; [|done].
    by apply list_fmap_ext.
  - unfold mask_rows. cbn [columns nrows]. apply Forall_fmap, Forall_forall.
    intros c Hc. cbn. rewrite Forall_forall in Hlen.
    apply length_mask_values. rewrite Hm. symmetry. by apply Hlen.
Qed.

(** Rows the mask drops do not matter to a reading that gives nothing on
    their cells. *)
Lemma omap_mask_values {A B} (g : A → option B) (mask : list bool) (vs : list A) :
  length mask = length vs →
  (∀ i v, mask !! i = Some false → vs !! i = Some v → g v = None) →
  omap g (mask_values mask vs) = omap g vs.
Proof.
  unfold mask_values. revert vs.
  induction mask as [|b mask IH]; intros [|v vs] Hlen H; try done.
  cbn [zip zip_with]. rewrite filter_cons. cbn [fst].
  assert (omap g (filter (λ p : bool * A, p.1 = true) (zip mask vs)).*2 = omap g vs) as E.
  { apply IH; [cbn in Hlen; lia|]. intros i w Hi Hw. by apply (H (S i) w). }
  destruct b.
  - rewrite decide_True by done. cbn [fmap list_fmap snd omap list_omap]. by rewrite E.
  - rewrite decide_False by done. cbn [omap list_omap].
    rewrite (H 0 v) by done. exact E.
Qed.

Lemma omap_dropna (vs : list cell) :
  omap number_of_cell (dropna_values vs) = omap number_of_cell vs.
Proof.
  unfold dropna_values. induction vs as [|c vs IH]; [done|].
  rewrite filter_cons. destruct (decide (isna c = false)) as [E|E].
  - cbn [omap list_omap]. by rewrite IH.
  - cbn [omap list_omap]. rewrite IH. by destruct c.
Qed.

Lemma digits_no_colon (w n : nat) : ":"%char ∉ zero_pad w n.
Proof.
  revert n. induction w as [|w IH]; intros n; [apply not_elem_of_nil|].
  cbn [zero_pad]. apply not_elem_of_app. split; [apply IH|].
  apply not_elem_of_cons. split; [|apply not_elem_of_nil].
  unfold digit_char. intros E. apply (f_equal nat_of_ascii) in E.
  assert (n mod 10 < 10) as Hlt by (apply Nat.mod_upper_bound; lia).
  rewrite nat_ascii_embedding in E by lia.
  change (nat_of_ascii ":"%char) with 58 in E. lia.
Qed.

Lemma length_zero_pad (w n : nat) : length (zero_pad w n) = w.
Proof.
  revert n. induction w as [|w IH]; intros n; [done|].
  cbn [zero_pad]. rewrite length_app, IH. cbn. lia.
Qed.

Lemma strptime_fraction (t : time) :
  microsecond t ≠ 0 → strptime FmtTime (isoformat t) = None.
Proof.
  intros Hus. unfold strptime, isoformat.
  rewrite list_ascii_of_string_of_list_ascii.
  apply Nat.eqb_neq in Hus. rewrite Hus.
  rewrite (split_on_app _ _ _ (digits_no_colon 2 (hour t))).
  rewrite (split_on_app _ _ _ (digits_no_colon 2 (minute t))).
  rewrite split_on_no_sep.
  - assert (field 1 2 (zero_pad 2 (second t) ++ "."%char :: zero_pad 6 (microsecond t))
            = None) as ->.
    { unfold field. rewrite length_app. cbn [length]. rewrite !length_zero_pad. done. }
    destruct (field 1 2 (zero_pad 2 (hour t))); [|done].
    by destruct (field 1 2 (zero_pad 2 (minute t))).
  - apply not_elem_of_app. split; [apply digits_no_colon|].
    apply not_elem_of_cons. split; [done|apply digits_no_colon].
Qed.

Lemma isoformat_not_missing (t : time) :
  bool_decide (isoformat t = "") || bool_decide (isoformat t ∈ nat_strings) = false.
Proof.
  assert (∃ a b rest, isoformat t = String a (String b (String ":" rest)))
    as (a & b & rest & ->).
  { unfold isoformat. cbn [zero_pad app string_of_list_ascii]. by eexists _, _, _. }
  rewrite bool_decide_eq_false_2 by done. rewrite bool_decide_eq_false_2; [done|].
  unfold nat_strings. intros H.
  repeat (apply elem_of_cons in H as [H|H]; [discriminate|]). by apply elem_of_nil in H.
Qed.

(** The hour read back from the text of a cell. *)
Lemma read_hour (c : cell) :
  time_or_missing c → (∀ t, c = Time t → valid_time t) →
  number_of_cell
    (field_of_cell (λ d, hour (tod d)) (to_datetime_scalar FmtTime (Str (str_cell c))))
  = counted_hour c.
Proof.
  intros [->|[t ->]] Hv; [done|].
  cbn [str_cell to_datetime_scalar counted_hour]. rewrite isoformat_not_missing.
  destruct (microsecond t =? 0) eqn:E.
  - apply Nat.eqb_eq in E. destruct (Hv t eq_refl) as (Hh & Hm & Hs).
    rewrite strptime_isoformat by done. done.
  - apply Nat.eqb_neq in E. by rewrite strptime_fraction.
Qed.

Lemma elem_of_insert_sorted (z x : Z) (l : list Z) :
  x ∈ insert_sorted z l ↔ x = z ∨ x ∈ l.
Proof.
  induction l as [|y l IH]; cbn [insert_sorted].
  - rewrite elem_of_cons. tauto.
  - destruct (z <=? y)%Z; rewrite !elem_of_cons; [tauto|]. rewrite IH. tauto.
Qed.

Lemma elem_of_sort_numbers (x : Z) (l : list Z) : x ∈ sort_numbers l ↔ x ∈ l.
Proof.
  unfold sort_numbers. induction l as [|y l IH]; [done|].
  cbn [foldr]. rewrite elem_of_insert_sorted, elem_of_cons, IH. tauto.
Qed.

Lemma insert_sorted_ascending (z : Z) (l : list Z) :
  StronglySorted Z.lt l → z ∉ l → StronglySorted Z.lt (insert_sorted z l).
Proof.
  induction 1 as [|y l Hs IH Hy]; intros Hz; cbn [insert_sorted].
  - by repeat constructor.
  - apply not_elem_of_cons in Hz as [Hne Hz].
    destruct (z <=? y)%Z eqn:E.
    + apply Z.leb_le in E. constructor; [by constructor|].
      constructor; [lia|]. eapply Forall_impl; [exact Hy|]. intros a Ha. simpl in Ha. lia.
    + apply Z.leb_gt in E. constructor; [by apply IH|].
      apply Forall_forall. intros a [->|Ha]%elem_of_insert_sorted; [done|].
      rewrite Forall_forall in Hy. by apply Hy.
Qed.

Lemma sort_numbers_ascending (l : list Z) :
  NoDup l → StronglySorted Z.lt (sort_numbers l).
Proof.
  unfold sort_numbers. induction 1 as [|y l Hy _ IH]; [constructor|].
  cbn [foldr]. apply insert_sorted_ascending; [done|].
  by rewrite (elem_of_sort_numbers y l).
Qed.

Lemma count_sorted_keys (numbers : list Z) :
  (count_sorted numbers).*1 = sort_numbers (remove_dups numbers).
Proof.
  unfold count_sorted. rewrite <- list_fmap_compose.
  transitivity (id <$> sort_numbers (remove_dups numbers)); [|apply list_fmap_id].
  by apply list_fmap_ext.
Qed.

Lemma count_sorted_entries (numbers : list Z) (z : Z) (n : nat) :
  (z, n) ∈ count_sorted numbers →
  z ∈ numbers ∧ n = length (filter (λ y, y = z) numbers) ∧ 0 < n.
Proof.
  unfold count_sorted. intros (z' & [= -> ->] & Hz)%list_elem_of_fmap.
  apply (proj1 (elem_of_sort_numbers z' _)) in Hz.
  apply (proj1 (elem_of_remove_dups _ _)) in Hz.
  split_and!; [done..|].
  destruct (filter _ numbers) as [|a rest] eqn:E; [|simpl; lia].
  assert (z' ∈ filter (λ y, y = z') numbers) as H by by apply list_elem_of_filter.
  rewrite E in H. by apply elem_of_nil in H.
Qed.

Lemma ne_unknown_time (s : Series) :
  Forall time_or_missing (values s) →
  Forall (λ b, b = true) (ne_scalar (Str "Unknown") s).
Proof.
  intros H. unfold ne_scalar. apply Forall_fmap. eapply Forall_impl; [exact H|].
  by intros c [->|[t ->]].
Qed.

Lemma Forall_mask_values {A} (P : A → Prop) (mask : list bool) (vs : list A) :
  Forall P vs → Forall P (mask_values mask vs).
Proof.
  intros H. unfold mask_values. apply Forall_fmap, Forall_forall.
  intros [b v] [_ Hin]%list_elem_of_filter. apply elem_of_zip_r in Hin.
  rewrite Forall_forall in H. by apply H.
Qed.

Lemma omap_fmap_compose {A B C} (g : A → B) (h : B → option C) (l : list A) :
  omap h (g <$> l) = omap (h ∘ g) l.
Proof. induction l as [|a l IH]; [done|]. cbn. by rewrite IH. Qed.

Lemma omap_ext_in {A B} (g h : A → option B) (l : list A) :
  (∀ a, a ∈ l → g a = h a) → omap g l = omap h l.
Proof.
  intros H. apply list_omap_ext, Forall_Forall2_diag, Forall_forall. exact H.
Qed.

(** The hours one start-time column contributes, through the row filter. *)
Lemma column_hours (mask : list bool) (s : Series) :
  length mask = length (values s) →
  Forall time_or_missing (values s) →
  (∀ t, Time t ∈ values s → valid_time t) →
  (∀ i v, mask !! i = Some false → values s !! i = Some v → isna v = true) →
  omap number_of_cell
    (values (dt_hour (to_datetime FmtTime
                        (astype_str (mk_series (dt s) (mask_values mask (values s)))))))
  = omap counted_hour (values s).
Proof.
  intros Hlen Ht Hv Hm.
  cbn [dt_hour values astype_str to_datetime dt].
  rewrite !omap_fmap_compose.
  rewrite omap_mask_values; [|done|].
  - apply omap_ext_in. intros c Hc. cbn [compose]. apply read_hour.
    + rewrite Forall_forall in Ht. by apply Ht.
    + intros t ->. by apply Hv.
  - intros i v Hi Hs. specialize (Hm i v Hi Hs).
    rewrite Forall_forall in Ht. apply list_elem_of_lookup_2, Ht in Hs.
    destruct Hs as [->|[t ->]]; [done|discriminate].
Qed.

Lemma start_hours (df : DataFrame) (sf sg : Series) :
  wf_frame df →
  getitem df "Start_Time_forest" = Ok sf →
  getitem df "Start_Time_grassland" = Ok sg →
  Forall time_or_missing (values sf) → Forall time_or_missing (values sg) →
  (∀ t, Time t ∈ values sf ++ values sg → valid_time t) →
  observation_time_analysis df
  = Ok (count_sorted (omap counted_hour (values sf ++ values sg))).
Proof.
  intros Wdf Gf Gg Tf Tg Hv.
  pose proof (wf_column_length _ _ _ Wdf Gf) as Lf.
  pose proof (wf_column_length _ _ _ Wdf Gg) as Lg.
  unfold observation_time_analysis, dropna_all. cbn [getitems].
  rewrite Gf, Gg. cbn [mbind result_bind].
  set (mask := (λ i, negb (all_missing_at [sf; sg] i)) <$> seq 0 (nrows df)).
  assert (length mask = nrows df) as Lm by (subst mask; by rewrite length_fmap, length_seq).
  pose proof (wf_mask_rows mask df Wdf Lm) as W1.
  rewrite !getitem_mask_rows, Gf, Gg. cbn [mbind result_bind].
  set (sf1 := mk_series (dt sf) (mask_values mask (values sf))).
  set (sg1 := mk_series (dt sg) (mask_values mask (values sg))).
  assert (length (values sf1) = nrows (mask_rows mask df)) as Lf1.
  { subst sf1. cbn. apply length_mask_values. congruence. }
  assert (length (values sg1) = nrows (mask_rows mask df)) as Lg1.
  { subst sg1. cbn. apply length_mask_values. congruence. }
  rewrite (mask_rows_all _ _ W1).
  2:{ apply Forall_forall. intros b Hb.
      apply elem_of_lookup_zip_with in Hb as (i & x & y & -> & Hx & _).
      assert (Forall (λ b, b = true) (ne_scalar (Str "Unknown") sf1)) as Hall.
      { apply ne_unknown_time. subst sf1. cbn. by apply Forall_mask_values. }
      rewrite Forall_forall in Hall. rewrite (Hall x); [done|].
      by eapply list_elem_of_lookup_2. }
  2:{ rewrite length_zip_with. unfold ne_scalar. rewrite !length_fmap. lia. }
  rewrite !getitem_mask_rows, Gf. cbn [mbind result_bind]. fold sf1.
  rewrite getitem_assign_other by done.
  rewrite getitem_mask_rows, Gg. cbn [mbind result_bind]. fold sg1.
  set (hf := dt_hour (to_datetime FmtTime (astype_str sf1))).
  set (hg := dt_hour (to_datetime FmtTime (astype_str sg1))).
  assert (wf_frame (assign (mask_rows mask df) "Start_Hour_forest" hf)) as W2.
  { apply wf_assign; [done|]. subst hf. cbn. by rewrite !length_fmap. }
  rewrite (getitem_assign_other _ "Start_Hour_grassland" "Start_Hour_forest") by done.
  rewrite (getitem_assign_same _ "Start_Hour_forest" hf) by apply W1.
  cbn [mbind result_bind].
  rewrite (getitem_assign_same _ "Start_Hour_grassland" hg) by apply W2.
  cbn [mbind result_bind]. f_equal. unfold value_counts_sorted. f_equal.
  rewrite omap_dropna, !omap_app. subst hf hg sf1 sg1 mask.
  assert (∀ s : Series, s ∈ [sf; sg] →
            ∀ i v, ((λ i, negb (all_missing_at [sf; sg] i)) <$> seq 0 (nrows df)) !! i
                   = Some false →
                   values s !! i = Some v → isna v = true) as Hmask.
  { intros s Hs i v Hi Hsv. rewrite list_lookup_fmap in Hi.
    destruct (seq 0 (nrows df) !! i) as [j|] eqn:Ej; [|done].
    apply lookup_seq in Ej as [-> _]. cbn [fmap option_fmap option_map] in Hi.
    injection Hi as Hi.
    apply negb_false_iff in Hi. unfold all_missing_at in Hi.
    apply andb_true_iff in Hi as [H1 H2]. apply andb_true_iff in H2 as [H2 _].
    apply elem_of_cons in Hs as [->|Hs]; [by rewrite Hsv in H1|].
    apply elem_of_cons in Hs as [->|Hs]; [by rewrite Hsv in H2|].
    by apply elem_of_nil in Hs. }
  f_equal; apply column_hours; try done.
  - rewrite length_fmap, length_seq. congruence.
  - intros t Ht. apply Hv, elem_of_app. by left.
  - apply Hmask. left.
  - rewrite length_fmap, length_seq. congruence.
  - intros t Ht. apply Hv, elem_of_app. by right.
  - apply Hmask. right. left.
Qed.

Lemma temporal_features_keeps (df df' : DataFrame) :
  wf_frame df → temporal_features df = Ok df' →
  wf_frame df'
  ∧ ∀ l, l ∉ ["Year"; "Month"; "Season"] → getitem df' l = getitem df l.
Proof.
  intros W H. unfold temporal_features in H.
  destruct (getitem df "Date_forest") as [ds|] eqn:Gd; [|done]. cbn [mbind result_bind] in H.
  pose proof (wf_column_length _ _ _ W Gd) as Ld.
  destruct (dt_field year ds) as [years|] eqn:Ey; [|done]. cbn [mbind result_bind] in H.
  rewrite getitem_assign_other in H by done. rewrite Gd in H. cbn [mbind result_bind] in H.
  destruct (dt_field month ds) as [months|] eqn:Em; [|done]. cbn [mbind result_bind] in H.
  apply dt_field_length in Ey, Em.
  assert (wf_frame (assign df "Year" years)) as W1.
  { apply wf_assign; [done|]. congruence. }
  assert (wf_frame (assign (assign df "Year" years) "Month" months)) as W2.
  { apply wf_assign; [done|]. rewrite nrows_assign. congruence. }
  rewrite (getitem_assign_same _ "Month" months) in H by apply W1.
  cbn [mbind result_bind] in H. injection H as <-. split.
  - apply wf_assign; [done|]. cbn. rewrite length_fmap, !nrows_assign. congruence.
  - intros l Hl. apply not_elem_of_cons in Hl as [H1 Hl].
    apply not_elem_of_cons in Hl as [H2 Hl]. apply not_elem_of_cons in Hl as [H3 _].
    by rewrite !getitem_assign_other.
Qed.

(** X19.  The distribution of start hours the page shows counts, hour by
    hour, the start times of both habitats that have no fraction of a
    second: neither the removal of the rows without any start time nor the
    ['Unknown'] filter changes it, and a start time with a fraction of a
    second is left out since its text does not read back under
    ['%H:%M:%S'].  Its hours are below 24 and ascending, its counts
    positive. *)
Theorem start_hour_distribution (merged out df : DataFrame) (sf sg : Series) :
  wf_frame merged → normalize merged = Ok out →
  temporal_features out = Ok df →
  getitem out "Start_Time_forest" = Ok sf →
  getitem out "Start_Time_grassland" = Ok sg →
  (∀ t, Time t ∈ values sf ++ values sg → valid_time t) →
  let counts := count_sorted (omap counted_hour (values sf ++ values sg)) in
  observation_time_analysis df = Ok counts
  ∧ StronglySorted Z.lt counts.*1
  ∧ Forall (λ p : Z * nat, (0 ≤ p.1 < 24)%Z ∧ 0 < p.2) counts.
Proof.
  intros Wm Hn Ht Gf Gg Hv counts.
  pose proof (normalize_wf _ _ Wm Hn) as Wo.
  destruct (temporal_features_keeps out df Wo Ht) as [Wd Hk].
  assert (Forall time_or_missing (values sf)) as Tf.
  { apply (normalized_time_cells merged out "Start_Time_forest"); [apply Wm|done| |done].
    unfold time_cols. solve_elem. }
  assert (Forall time_or_missing (values sg)) as Tg.
  { apply (normalized_time_cells merged out "Start_Time_grassland"); [apply Wm|done| |done].
    unfold time_cols. solve_elem. }
  split_and!.
  - apply start_hours; try done.
    + rewrite Hk; [done|]. solve_not_elem.
    + rewrite Hk; [done|]. solve_not_elem.
  - subst counts. rewrite count_sorted_keys. apply sort_numbers_ascending, NoDup_remove_dups.
  - apply Forall_forall. intros [z n] Hin.
    apply count_sorted_entries in Hin as (Hz & _ & Hn0). split; [|done].
    apply list_elem_of_omap in Hz as (c & Hc & Hh). cbn [fst].
    destruct c as [| | | |t| |]; try done. cbn [counted_hour] in Hh.
    destruct (microsecond t =? 0); [|done]. injection Hh as <-.
    destruct (Hv t Hc) as (Hh & _). lia.
Qed.

(** ** The species counts *)

Lemma elem_of_mask_values {A} (mask : list bool) (vs : list A) (x : A) :
  x ∈ mask_values mask vs ↔ ∃ i, mask !! i = Some true ∧ vs !! i = Some x.
Proof.
  unfold mask_values. rewrite list_elem_of_fmap. split.
  - intros ([b y] & -> & [Hb Hin]%list_elem_of_filter). cbn in Hb. subst b.
    apply list_elem_of_lookup_1 in Hin as [i Hi].
    apply lookup_zip_with_Some in Hi as (b & y' & [= <- <-] & Hm & Hv). by exists i.
  - intros (i & Hm & Hv). exists (true, x). split; [done|].
    apply list_elem_of_filter. split; [done|].
    apply (list_elem_of_lookup_2 _ i). apply lookup_zip_with_Some. by exists true, x.
Qed.

Lemma mask_values_nil_r {A} (mask : list bool) : mask_values mask (@nil A) = [].
Proof. unfold mask_values. by destruct mask. Qed.

Lemma mask_values_cons {A} (b : bool) (mask : list bool) (x : A) (xs : list A) :
  mask_values (b :: mask) (x :: xs)
  = if b then x :: mask_values mask xs else mask_values mask xs.
Proof.
  unfold mask_values. cbn [zip zip_with]. rewrite filter_cons. cbn [fst].
  destruct b; [by rewrite decide_True|by rewrite decide_False].
Qed.

Lemma lookup_mask_values_zip {A B} (mask : list bool) (xs : list A) (ys : list B)
    (p : A * B) :
  p ∈ zip (mask_values mask xs) (mask_values mask ys) →
  ∃ i, mask !! i = Some true ∧ xs !! i = Some p.1 ∧ ys !! i = Some p.2.
Proof.
  revert xs ys. induction mask as [|b mask IH]; intros xs ys.
  - cbn. by intros ?%elem_of_nil.
  - destruct xs as [|x xs].
    { rewrite mask_values_nil_r. cbn. by intros ?%elem_of_nil. }
    destruct ys as [|y ys].
    { rewrite (mask_values_nil_r (b :: mask)), zip_with_nil_r. by intros ?%elem_of_nil. }
    rewrite !mask_values_cons. destruct b.
    + cbn [zip zip_with]. intros [->|Hin]%elem_of_cons.
      * by exists 0.
      * destruct (IH xs ys Hin) as (i & H1 & H2 & H3). by exists (S i).
    + intros Hin. destruct (IH xs ys Hin) as (i & H1 & H2 & H3). by exists (S i).
Qed.

Lemma isna_py_key (c : cell) : isna (py_key c) = isna c.
Proof. by destruct c. Qed.

Lemma py_key_idem (c : cell) : py_key (py_key c) = py_key c.
Proof. by destruct c. Qed.

Lemma length_remove_dups_subseteq (l k : list cell) :
  (∀ x, x ∈ l → x ∈ k) → length (remove_dups l) ≤ length (remove_dups k).
Proof.
  intros H. apply submseteq_length, NoDup_submseteq; [apply NoDup_remove_dups|].
  intros x. rewrite !elem_of_remove_dups. apply H.
Qed.

Lemma length_remove_dups_fmap (h : cell → cell) (l : list cell) :
  length (remove_dups (h <$> l)) ≤ length (remove_dups l).
Proof.
  rewrite <- (length_fmap h (remove_dups l)).
  etrans; [|apply (length_remove_dups_le (h <$> remove_dups l))].
  apply length_remove_dups_subseteq. intros x (y & -> & Hy)%list_elem_of_fmap.
  apply list_elem_of_fmap. exists y. split; [done|]. by rewrite elem_of_remove_dups.
Qed.

Section GroupProofs.

Variable sort_keys : list cell → list cell.
Hypothesis sort_keys_perm : ∀ ks, sort_keys ks ≡ₚ ks.

(** What [nunique_by] returns, by the two columns it reads. *)
Lemma nunique_by_columns (col counted : string) (v : cell) (df : DataFrame)
    (s tsn : Series) :
  getitem df col = Ok s → getitem df counted = Ok tsn →
  nunique_by sort_keys col v counted df
  = Ok (groupby_nunique sort_keys
          (mk_series (dt s) (mask_values (ne_scalar v s) (values s)))
          (mk_series (dt tsn) (mask_values (ne_scalar v s) (values tsn)))).
Proof.
  intros Gs Gt. unfold nunique_by. rewrite Gs. cbn [mbind result_bind].
  by rewrite !getitem_mask_rows, Gs, Gt.
Qed.

Lemma elem_of_group_keys (k : cell) (keys : list cell) :
  k ∈ group_keys sort_keys keys ↔ ∃ c, c ∈ keys ∧ isna c = false ∧ py_key c = k.
Proof.
  unfold group_keys. rewrite (sort_keys_perm _), elem_of_remove_dups, list_elem_of_fmap.
  unfold dropna_values. split.
  - intros (c & -> & [Hna Hc]%list_elem_of_filter). by exists c.
  - intros (c & Hc & Hna & <-). exists c. split; [done|]. by apply list_elem_of_filter.
Qed.

Lemma groupby_nunique_keys (keys species : Series) :
  (groupby_nunique sort_keys keys species).*1 = group_keys sort_keys (values keys).
Proof.
  unfold groupby_nunique. rewrite <- list_fmap_compose.
  transitivity (id <$> group_keys sort_keys (values keys)); [|apply list_fmap_id].
  by apply list_fmap_ext.
Qed.

(** X20.  The table of distinct counts by a column has one row per key of
    the column that is neither missing nor the sentinel, each key once;
    the sentinel is never a group.  The count of a group is at most the
    number of distinct cells of the counted column in the whole table, and
    at least one when the counted column has no missing cell. *)
Theorem nunique_by_groups (col counted : string) (v : cell) (df : DataFrame)
    (s tsn : Series) :
  wf_frame df →
  getitem df col = Ok s → getitem df counted = Ok tsn →
  ∃ groups,
    nunique_by sort_keys col v counted df = Ok groups
    ∧ NoDup groups.*1
    ∧ (∀ k, k ∈ groups.*1
            ↔ ∃ c, c ∈ values s ∧ isna c = false ∧ py_eq c v = false ∧ py_key c = k)
    ∧ (∀ k n, (k, n) ∈ groups →
         n ≤ series_nunique tsn ∧ (no_missing tsn → 0 < n)).
Proof.
  intros Wdf Gs Gt.
  pose proof (wf_column_length _ _ _ Wdf Gs) as Ls.
  pose proof (wf_column_length _ _ _ Wdf Gt) as Lt.
  eexists. split; [by apply nunique_by_columns|].
  rewrite groupby_nunique_keys. cbn [values]. split_and!.
  - unfold group_keys. rewrite (sort_keys_perm _). apply NoDup_remove_dups.
  - intros k. rewrite elem_of_group_keys. split.
    + intros (c & Hc & Hna & Hk). exists c.
      apply elem_of_mask_values in Hc as (i & Hm & Hv). unfold ne_scalar in Hm.
      rewrite list_lookup_fmap, Hv in Hm. cbn in Hm. injection Hm as Hm.
      apply negb_true_iff in Hm. split_and!; [by eapply list_elem_of_lookup_2|done..].
    + intros (c & Hc & Hna & Hv & Hk). exists c. split_and!; [|done..].
      apply list_elem_of_lookup_1 in Hc as [i Hi]. apply elem_of_mask_values. exists i.
      split; [|done]. unfold ne_scalar. rewrite list_lookup_fmap, Hi. cbn. by rewrite Hv.
  - intros k n Hin. unfold groupby_nunique in Hin.
    apply list_elem_of_fmap in Hin as (k' & [= -> ->] & Hk). cbn [values]. split.
    + unfold series_nunique. apply length_remove_dups_subseteq.
      intros x (y & -> & Hy)%list_elem_of_fmap. apply list_elem_of_fmap. exists y.
      split; [done|]. unfold dropna_values in *.
      apply list_elem_of_filter in Hy as [Hna Hy]. apply list_elem_of_filter.
      split; [done|]. unfold group_species in Hy.
      apply list_elem_of_fmap in Hy as ([a b] & -> & [_ Hp]%list_elem_of_filter).
      apply lookup_mask_values_zip in Hp as (i & _ & _ & Hb).
      by eapply list_elem_of_lookup_2.
    + intros Hnm. apply elem_of_group_keys in Hk as (c & Hc & Hna & Hck).
      cbn [values] in Hc.
      apply list_elem_of_lookup_1 in Hc as [j Hj].
      assert (length (mask_values (ne_scalar v s) (values s))
              = length (mask_values (ne_scalar v s) (values tsn))) as Hlen.
      { rewrite !length_mask_values; [done|..]; unfold ne_scalar; rewrite length_fmap;
          congruence. }
      destruct (lookup_lt_is_Some_2 (mask_values (ne_scalar v s) (values tsn)) j)
        as [t Ht].
      { rewrite <- Hlen. by eapply lookup_lt_Some. }
      assert (t ∈ values tsn) as Htin.
      { apply list_elem_of_lookup_2 in Ht.
        apply elem_of_mask_values in Ht as (i & _ & Hi). by eapply list_elem_of_lookup_2. }
      assert (py_key t ∈ remove_dups
                (py_key <$> dropna_values
                   (group_species k' (mask_values (ne_scalar v s) (values s))
                      (mask_values (ne_scalar v s) (values tsn))))) as Hmem.
      { apply elem_of_remove_dups, list_elem_of_fmap. exists t. split; [done|].
        apply list_elem_of_filter. split.
        - unfold no_missing in Hnm. rewrite Forall_forall in Hnm. by apply Hnm.
        - unfold group_species. apply list_elem_of_fmap. exists (c, t). split; [done|].
          apply list_elem_of_filter. split; [done|].
          apply (list_elem_of_lookup_2 _ j). apply lookup_zip_with_Some. by exists c, t. }
      destruct (remove_dups _) as [|a rest]; [by apply elem_of_nil in Hmem|simpl; lia].
Qed.

End GroupProofs.

Lemma absent_cell_sentinel (c : string * Series) (r : nat) (a : cell) :
  (c.1 ∉ datetime_cols) →
  is_number (dt c.2) = true ∨ is_object (dt c.2) = true →
  filled_as_absent c r → values c.2 !! r = Some a →
  a = sentinel_of (dt c.2).
Proof.
  intros Hl Hd Hf Ha. unfold filled_as_absent, cell_at in Hf. rewrite Ha in Hf.
  rewrite bool_decide_eq_false_2 in Hf by done. injection Hf as ->.
  unfold sentinel_of. destruct (is_number (dt c.2)); [done|].
  destruct Hd as [Hd|Hd]; [done|]. by rewrite Hd.
Qed.

Lemma py_key_sentinel (d : dtype) : py_key (sentinel_of d) = sentinel_of d.
Proof. unfold sentinel_of. by destruct (is_number d). Qed.

(** A row that holds the sentinel is kept by a filter on another value and
    lands in the sentinel's group, or is dropped by the filter on the
    sentinel. *)
Lemma sentinel_row (c : string * Series) (v : cell) (r : nat) :
  values c.2 !! r = Some (sentinel_of (dt c.2)) →
  ne_scalar v c.2 !! r = Some true →
  py_eq (sentinel_of (dt c.2)) v = false.
Proof.
  intros Ha Hm. unfold ne_scalar in Hm. rewrite list_lookup_fmap, Ha in Hm.
  cbn in Hm. injection Hm as Hm. by apply negb_true_iff in Hm.
Qed.

Section HabitatGroups.

Context (f g merged out df : DataFrame) (lk rk : Series).
Variable sort_keys : list cell → list cell.
Hypothesis Hmerge : merge f g "AcceptedTSN" suffixes = Ok merged.
Hypothesis Hlk : getitem f "AcceptedTSN" = Ok lk.
Hypothesis Hrk : getitem g "AcceptedTSN" = Ok rk.
Hypothesis Hwf : wf_frame merged.
Hypothesis Hout : normalize merged = Ok out.
Hypothesis Hfeat : temporal_features out = Ok df.

Let ix := outer_join_indexers (values lk) (values rk).
Let keys := key_series lk rk ix.

Lemma species_column : getitem out "AcceptedTSN" = Ok (impute keys).
Proof.
  pose proof (merged_key_column f g merged lk rk Hmerge Hlk Hrk) as Gk.
  rewrite (normalize_getitem merged out _ _ Hout Gk).
  destruct (getitem_Ok_count _ _ _ Gk) as [Hc Hin].
  rewrite (fill_column_impute merged _ _ Hc Hin). cbn [snd].
  rewrite convert_column_other; [done|]. cbn [fst].
  unfold datetime_cols, date_cols, time_cols. solve_not_elem.
Qed.

Lemma habitat_column (c : string * Series) :
  c ∈ columns out → (c.1 ∉ ["Year"; "Month"; "Season"]) →
  getitem df c.1 = Ok c.2 ∧ getitem df "AcceptedTSN" = Ok (impute keys)
  ∧ length (values c.2) = length ix ∧ length (values (impute keys)) = length ix.
Proof.
  intros Hc Hl. pose proof (normalize_wf _ _ Hwf Hout) as Wo.
  destruct (temporal_features_keeps out df Wo Hfeat) as [_ Hk].
  assert (getitem out c.1 = Ok c.2) as Gc.
  { destruct (getitem_present out c.1 (proj1 Wo)) as [s Gs].
    - apply list_elem_of_fmap. by exists c.
    - pose proof (unique_column _ _ _ Gs c Hc eq_refl) as E. rewrite E at 2. done. }
  pose proof (normalized_nrows f g merged out lk rk Hmerge Hlk Hrk Hout) as Hn.
  split_and!.
  - by rewrite Hk.
  - rewrite Hk; [apply species_column|]. solve_not_elem.
  - unfold ix. rewrite <- Hn. by apply (wf_column_length out c.1).
  - unfold ix. rewrite <- Hn.
    apply (wf_column_length out "AcceptedTSN"); [done|apply species_column].
Qed.

(** The species key of a row that has a source row in the given input is,
    up to the fill, a key of that input. *)
Lemma species_of_row (r : nat) (t : cell) (side : list cell) :
  values (impute keys) !! r = Some t →
  (∀ p k, ix !! r = Some p → values keys !! r = Some k → k ∈ side) →
  ∃ h : cell → cell, t ∈ h <$> side ∧ ∀ x, h x = (if is_number (dt keys) then fillna_cell (Num 0) x
                   else if is_object (dt keys) then fillna_cell (Str "Unknown") x
                   else x).
Proof.
  intros Ht Hside.
  assert (r < length (values keys)) as Hr.
  { apply lookup_lt_Some in Ht. unfold impute, fillna in Ht.
    destruct (is_number (dt keys)); [cbn in Ht; by rewrite length_fmap in Ht|].
    destruct (is_object (dt keys)); [cbn in Ht; by rewrite length_fmap in Ht|done]. }
  destruct (lookup_lt_is_Some_2 _ _ Hr) as [k Hk].
  assert (r < length ix) as Hr' by (subst keys; cbn in Hr; by rewrite length_fmap in Hr).
  destruct (lookup_lt_is_Some_2 _ _ Hr') as [p Hp].
  rewrite (impute_lookup _ _ _ Hk) in Ht. injection Ht as <-.
  eexists (λ x, if is_number (dt keys) then fillna_cell (Num 0) x
                else if is_object (dt keys) then fillna_cell (Str "Unknown") x else x).
  split; [|done]. apply list_elem_of_fmap. exists k. split; [done|]. by apply (Hside p).
Qed.

Lemma count_bound (c : string * Series) (v : cell) (side : list cell)
    (P : cell → Prop) :
  c ∈ columns out → (c.1 ∉ ["Year"; "Month"; "Season"]) →
  (∀ r p a k, ne_scalar v c.2 !! r = Some true →
              values c.2 !! r = Some a → P (py_key a) →
              ix !! r = Some p → values keys !! r = Some k → k ∈ side) →
  ∃ groups,
    species_count_by sort_keys c.1 v df = Ok groups
    ∧ ∀ k n, (k, n) ∈ groups → P k → n ≤ nunique side.
Proof.
  intros Hc Hl Hside. destruct (habitat_column c Hc Hl) as (Gc & Gt & Lc & Lt).
  eexists. split; [by apply nunique_by_columns|].
  intros k n Hin HP. unfold groupby_nunique in Hin.
  apply list_elem_of_fmap in Hin as (k' & [= -> ->] & _). cbn [values].
  set (h := λ x, if is_number (dt keys) then fillna_cell (Num 0) x
                 else if is_object (dt keys) then fillna_cell (Str "Unknown") x else x).
  etrans; [|apply (length_remove_dups_fmap (py_key ∘ h) side)].
  apply length_remove_dups_subseteq.
  intros x (t & -> & Ht)%list_elem_of_fmap.
  apply list_elem_of_filter in Ht as [_ Ht]. unfold group_species in Ht.
  apply list_elem_of_fmap in Ht as ([a b] & -> & [Hk Hp]%list_elem_of_filter).
  apply lookup_mask_values_zip in Hp as (r & Hm & Ha & Hb). cbn [fst snd] in *.
  destruct (species_of_row r b side Hb) as (h' & Hin & Hh).
  { intros p k0. apply (Hside r p a k0); [done|done|by rewrite Hk]. }
  apply list_elem_of_fmap in Hin as (k0 & -> & Hk0).
  apply list_elem_of_fmap. exists k0. split; [|done]. cbn [compose]. by rewrite Hh.
Qed.

(** X21.  A species count by a column of one habitat, whatever the value
    [v] the filter removes: every group other than the group of the
    column's sentinel counts species of that habitat only, so it counts no
    more than the number of distinct species keys of the habitat's own
    input.  The rows that come from the other input alone hold the sentinel
    in that column; when [v] is that sentinel they are filtered out and the
    bound holds of every group, and when it is not (['Unknown'] on a column
    of numbers) they make up the group of the sentinel, which is not
    bounded in this way. *)
Theorem habitat_groups_count_own_species (c : string * Series) (v : cell) :
  (c.1 ∉ datetime_cols) → (c.1 ∉ ["Year"; "Month"; "Season"]) →
  is_number (dt c.2) = true ∨ is_object (dt c.2) = true →
  (c ∈ grassland_part f out →
   ∃ groups,
     species_count_by sort_keys c.1 v df = Ok groups
     ∧ ∀ k n, (k, n) ∈ groups →
         k ≠ sentinel_of (dt c.2) ∨ py_eq (sentinel_of (dt c.2)) v = true →
         n ≤ nunique (values rk))
  ∧ (c ∈ forest_part f out → c.1 ≠ "AcceptedTSN" →
     ∃ groups,
       species_count_by sort_keys c.1 v df = Ok groups
       ∧ ∀ k n, (k, n) ∈ groups →
           k ≠ sentinel_of (dt c.2) ∨ py_eq (sentinel_of (dt c.2)) v = true →
           n ≤ nunique (values lk)).
Proof.
  intros Hd Hl Hdt.
  assert (∀ r a, filled_as_absent c r → ne_scalar v c.2 !! r = Some true →
            values c.2 !! r = Some a →
            py_key a ≠ sentinel_of (dt c.2) ∨ py_eq (sentinel_of (dt c.2)) v = true →
            False) as Habs.
  { intros r a Hf Hm Ha HP.
    pose proof (absent_cell_sentinel c r a Hd Hdt Hf Ha) as ->.
    pose proof (sentinel_row c v r Ha Hm) as E. rewrite py_key_sentinel in HP.
    destruct HP as [HP|HP]; [done|congruence]. }
  split.
  - intros Hc.
    apply (count_bound c v (values rk)
             (λ k, k ≠ sentinel_of (dt c.2) ∨ py_eq (sentinel_of (dt c.2)) v = true));
      [|done|].
    { rewrite (merged_parts f out). apply elem_of_app. by right. }
    intros r p a k Hm Ha HP Hp Hk. unfold keys, ix in Hp, Hk.
    destruct (indexer_entry _ _ p (list_elem_of_lookup_2 _ _ _ Hp))
      as [(i & j & k0 & -> & Hi & Hj)|[(i & k0 & -> & Hi & Hn)|(j & k0 & -> & Hj & Hn)]].
    + rewrite (key_cell_left lk rk r i (Some j) k0 Hp Hi) in Hk. injection Hk as <-.
      by eapply list_elem_of_lookup_2.
    + exfalso.
      pose proof (grassland_absent f g merged out lk rk Hmerge Hlk Hrk (proj1 Hwf) Hout
                    r c (ex_intro _ i Hp) Hc) as Hf.
      by apply (Habs r a).
    + rewrite (key_cell_right lk rk r j k0 Hp Hj) in Hk. injection Hk as <-.
      by eapply list_elem_of_lookup_2.
  - intros Hc Hne.
    apply (count_bound c v (values lk)
             (λ k, k ≠ sentinel_of (dt c.2) ∨ py_eq (sentinel_of (dt c.2)) v = true));
      [|done|].
    { rewrite (merged_parts f out). apply elem_of_app. by left. }
    intros r p a k Hm Ha HP Hp Hk. unfold keys, ix in Hp, Hk.
    destruct (indexer_entry _ _ p (list_elem_of_lookup_2 _ _ _ Hp))
      as [(i & j & k0 & -> & Hi & Hj)|[(i & k0 & -> & Hi & Hn)|(j & k0 & -> & Hj & Hn)]].
    + rewrite (key_cell_left lk rk r i (Some j) k0 Hp Hi) in Hk. injection Hk as <-.
      by eapply list_elem_of_lookup_2.
    + rewrite (key_cell_left lk rk r i None k0 Hp Hi) in Hk. injection Hk as <-.
      by eapply list_elem_of_lookup_2.
    + exfalso.
      pose proof (forest_absent f g merged out lk rk Hmerge Hlk Hrk (proj1 Hwf) Hout
                    r c (ex_intro _ j Hp) Hc Hne) as Hf.
      by apply (Habs r a).
Qed.

End HabitatGroups.

(** ** Further examples *)

Lemma load_data_unreadable_sheet_witness :
  broken_files file_path_forest = Ok broken_workbook
  ∧ "Sheet2" ∈ sheet_names broken_workbook
  ∧ parse broken_workbook "Sheet2" = Raise OtherError
  ∧ ∃ e', load_data broken_files file_path_forest file_path_grassland
          = ([StError (load_error_text e')], Ok (None, None)).
Proof.
  split; [reflexivity|]. split; [by_compute|]. split; [reflexivity|].
  apply (load_data_unreadable_sheet broken_files file_path_forest file_path_grassland
           broken_workbook "Sheet2" OtherError);
    [reflexivity|by_compute|reflexivity].
Defined.

Lemma readable_one_sheet (df : DataFrame) : readable (one_sheet df).
Proof.
  split_and!.
  - apply NoDup_singleton.
  - done.
  - apply Forall_singleton. by exists df.
Defined.

Lemma load_data_stacks_sheets_witness :
  both_files file_path_forest = Ok (one_sheet forest_A)
  ∧ both_files file_path_grassland = Ok (one_sheet grassland_A)
  ∧ readable (one_sheet forest_A) ∧ readable (one_sheet grassland_A)
  ∧ ∃ combined_data_1 combined_data_2,
      load_data both_files file_path_forest file_path_grassland
      = ([], Ok (Some combined_data_1, Some combined_data_2))
      ∧ nrows combined_data_1 = sum_list (nrows <$> parsed_sheets (one_sheet forest_A)).
Proof.
  destruct (load_data_stacks_sheets both_files file_path_forest file_path_grassland
              (one_sheet forest_A) (one_sheet grassland_A)
              ltac:(vm_compute; reflexivity) ltac:(vm_compute; reflexivity)
              (readable_one_sheet forest_A) (readable_one_sheet grassland_A))
    as (c1 & c2 & E & _ & _ & N1 & _).
  split; [vm_compute; reflexivity|]. split; [vm_compute; reflexivity|].
  split; [apply readable_one_sheet|]. split; [apply readable_one_sheet|].
  by exists c1, c2.
Defined.


Lemma preprocess_data_clean_inputs_witness :
  wf_frame forest_A ∧ wf_frame grassland_A
  ∧ "AcceptedTSN" ∈ labels forest_A ∧ "AcceptedTSN" ∈ labels grassland_A
  ∧ numeric_keys forest_A grassland_A
  ∧ unsuffixed (labels forest_A) ∧ unsuffixed (labels grassland_A)
  ∧ ∃ merged, merge forest_A grassland_A "AcceptedTSN" suffixes = Ok merged
              ∧ wf_frame merged.
Proof.
  assert (unsuffixed (labels forest_A)) as U1 by (unfold unsuffixed; by_compute).
  assert (unsuffixed (labels grassland_A)) as U2 by (unfold unsuffixed; by_compute).
  assert (numeric_keys forest_A grassland_A) as N.
  { intros lk rk Hl Hr. vm_compute in Hl, Hr. injection Hl as <-. injection Hr as <-.
    by split. }
  destruct (preprocess_data_clean_inputs forest_A grassland_A
              ltac:(by_compute) ltac:(by_compute) ltac:(by_compute) ltac:(by_compute)
              N U1 U2) as (merged & E & W & _).
  split; [by_compute|]. split; [by_compute|]. split; [by_compute|]. split; [by_compute|].
  split; [exact N|]. split; [exact U1|]. split; [exact U2|]. by exists merged.
Defined.

Lemma preprocess_data_missing_key_witness :
  NoDup (labels no_key)
  ∧ (("AcceptedTSN" ∉ labels no_key) ∨ ("AcceptedTSN" ∉ labels grassland_A))
  ∧ preprocess_data (Some no_key) (Some grassland_A)
    = ([Spinner "Merging data..."], Raise (KeyError "AcceptedTSN")).
Proof.
  assert ("AcceptedTSN" ∉ labels no_key) as H by by_compute.
  split; [by_compute|]. split; [by left|].
  apply (preprocess_data_missing_key no_key grassland_A ltac:(by_compute)). by left.
Defined.

Lemma converted_columns_typed_witness :
  NoDup (labels merged_A)
  ∧ normalize merged_A = Ok normalized_A
  ∧ getitem merged_A "Start_Time_forest" = Ok (mk_series DObject [Str "08:00:00"; NaN])
  ∧ ∃ s, getitem normalized_A "Start_Time_forest" = Ok s
         ∧ length (values s) = 2 ∧ Forall time_or_missing (values s)
         ∧ dt s = DObject.
Proof.
  destruct (converted_columns_typed merged_A normalized_A "Start_Time_forest"
              (mk_series DObject [Str "08:00:00"; NaN]) ltac:(by_compute) normalize_A
              ltac:(vm_compute; reflexivity)) as (s & G & Hlen & Ht & _).
  split; [by_compute|]. split; [exact normalize_A|]. split; [vm_compute; reflexivity|].
  exists s. split; [exact G|]. split; [exact Hlen|].
  destruct Ht as (Hall & _ & Hobj); [unfold time_cols; solve_elem|].
  split; [exact Hall|]. apply Hobj. right. exists (mk_time 8 0 0 0).
  vm_compute in G. injection G as <-. cbn [values]. solve_elem.
Defined.


Lemma birds_load_unreadable_file_witness :
  ((∃ F, forest_csv_only FOREST_FILE = Ok F)
   ∧ forest_csv_only GRASSLAND_FILE = Raise (FileNotFoundError GRASSLAND_FILE))
  ∧ ∃ text,
      load_and_preprocess_data iso_dates forest_csv_only
        FOREST_FILE GRASSLAND_FILE
      = ([StError text], Ok (empty_frame, empty_frame, empty_frame)).
Proof.
  assert ((∃ F, forest_csv_only FOREST_FILE = Ok F)
          ∧ forest_csv_only GRASSLAND_FILE = Raise (FileNotFoundError GRASSLAND_FILE))
    as H by (split; [by exists forest_A|reflexivity]).
  split; [exact H|].
  apply (birds_load_unreadable_file iso_dates forest_csv_only
           FOREST_FILE GRASSLAND_FILE (FileNotFoundError GRASSLAND_FILE)).
  by right.
Defined.

Lemma birds_tables_suffixed_witness :
  two_csv_files FOREST_FILE = Ok forest_A
  ∧ two_csv_files GRASSLAND_FILE = Ok two_rows
  ∧ wf_frame forest_A ∧ wf_frame two_rows
  ∧ ∃ merged_df forest_df grassland_df,
      load_and_preprocess_data iso_dates two_csv_files
        FOREST_FILE GRASSLAND_FILE
      = ([], Ok (merged_df, forest_df, grassland_df))
      ∧ nrows forest_df = nrows forest_A ∧ nrows grassland_df = nrows two_rows.
Proof.
  destruct (birds_tables_suffixed iso_dates two_csv_files
              FOREST_FILE GRASSLAND_FILE forest_A two_rows
              ltac:(vm_compute; reflexivity) ltac:(vm_compute; reflexivity)
              ltac:(by_compute) ltac:(by_compute))
    as (m & fd & gd & E & N1 & N2 & _).
  split; [vm_compute; reflexivity|]. split; [vm_compute; reflexivity|].
  split; [by_compute|]. split; [by_compute|].
  by exists m, fd, gd.
Defined.

Lemma birds_merged_well_formed_witness :
  two_csv_files FOREST_FILE = Ok forest_A
  ∧ two_csv_files GRASSLAND_FILE = Ok two_rows
  ∧ wf_frame forest_A ∧ wf_frame two_rows
  ∧ ∃ merged_df forest_df grassland_df,
      load_and_preprocess_data iso_dates two_csv_files
        FOREST_FILE GRASSLAND_FILE
      = ([], Ok (merged_df, forest_df, grassland_df))
      ∧ wf_frame merged_df.
Proof.
  destruct (birds_merged_well_formed iso_dates two_csv_files
              FOREST_FILE GRASSLAND_FILE forest_A two_rows
              ltac:(vm_compute; reflexivity) ltac:(vm_compute; reflexivity)
              ltac:(by_compute) ltac:(by_compute))
    as (m & fd & gd & E & W & _).
  split; [vm_compute; reflexivity|]. split; [vm_compute; reflexivity|].
  split; [by_compute|]. split; [by_compute|].
  by exists m, fd, gd.
Defined.

Lemma page_crashes_after_failed_load_witness :
  ((∃ df1, read_workbook forest_only_files file_path_forest = Ok df1)
   ∧ read_workbook forest_only_files file_path_grassland
     = Raise (FileNotFoundError file_path_grassland))
  ∧ page [] (λ _, mret tt) (λ df, mret df) forest_only_files
    = ([Spinner "Loading data...";
        StError (load_error_text (FileNotFoundError file_path_grassland));
        StError "Data loading failed. Please check file paths."],
       inr (TypeError "'NoneType' object is not subscriptable")).
Proof.
  assert ((∃ df1, read_workbook forest_only_files file_path_forest = Ok df1)
          ∧ read_workbook forest_only_files file_path_grassland
            = Raise (FileNotFoundError file_path_grassland)) as H.
  { split; [exists forest_A|]; vm_compute; reflexivity. }
  split; [exact H|].
  apply (page_crashes_after_failed_load [] (λ _, mret tt) (λ df, mret df)
           forest_only_files (FileNotFoundError file_path_grassland)).
  by right.
Defined.

Lemma page_completes_only_with_table_witness :
  (page [] (λ _, mret tt) (λ df, mret df) both_files).2 = inl tt
  ∧ ∃ forest_df grassland_df processed_df,
      read_workbook both_files file_path_forest = Ok forest_df
      ∧ read_workbook both_files file_path_grassland = Ok grassland_df
      ∧ merge_and_normalize forest_df grassland_df = Ok processed_df.
Proof.
  assert ((page [] (λ _, mret tt) (λ df, mret df) both_files).2 = inl tt) as H
    by (vm_compute; reflexivity).
  destruct (page_completes_only_with_table [] (λ _, mret tt) (λ df, mret df)
              both_files H) as (f & g & out & E1 & E2 & E3 & _).
  split; [exact H|]. exists f, g, out. split; [exact E1|]. split; [exact E2|exact E3].
Defined.

Lemma birds_page_stops_on_failure_witness :
  ((∃ F, forest_csv_only FOREST_FILE = Ok F)
   ∧ forest_csv_only GRASSLAND_FILE = Raise (FileNotFoundError GRASSLAND_FILE))
  ∧ ∃ text, birds_page iso_dates forest_csv_only
            = [Shown (StError text)].
Proof.
  assert ((∃ F, forest_csv_only FOREST_FILE = Ok F)
          ∧ forest_csv_only GRASSLAND_FILE = Raise (FileNotFoundError GRASSLAND_FILE))
    as H by (split; [by exists forest_A|reflexivity]).
  split; [exact H|].
  apply (birds_page_stops_on_failure iso_dates forest_csv_only
           (FileNotFoundError GRASSLAND_FILE)).
  by right.
Defined.

Lemma birds_page_stops_without_rows_witness :
  header_only_files FOREST_FILE = Ok forest_A
  ∧ header_only_files GRASSLAND_FILE = Ok no_rows
  ∧ wf_frame forest_A ∧ wf_frame no_rows
  ∧ (nrows forest_A = 0 ∨ nrows no_rows = 0)
  ∧ birds_page iso_dates header_only_files = [].
Proof.
  split; [vm_compute; reflexivity|]. split; [vm_compute; reflexivity|].
  split; [by_compute|]. split; [by_compute|]. split; [by right|].
  apply (birds_page_stops_without_rows iso_dates
           header_only_files forest_A no_rows);
    [vm_compute; reflexivity|vm_compute; reflexivity|by_compute|by_compute|by right].
Defined.

Lemma birds_page_rendered_witness :
  sighting_files FOREST_FILE = Ok (sightings ["Robin"; "Robin"; "Wren"])
  ∧ sighting_files GRASSLAND_FILE = Ok (sightings ["Lark"])
  ∧ wf_frame (sightings ["Robin"; "Robin"; "Wren"]) ∧ wf_frame (sightings ["Lark"])
  ∧ 0 < nrows (sightings ["Robin"; "Robin"; "Wren"]) ∧ 0 < nrows (sightings ["Lark"])
  ∧ columns (sightings ["Robin"; "Robin"; "Wren"]) ≠ []
  ∧ ∃ metrics forest_tab grassland_tab,
      birds_page iso_dates sighting_files
      = Heading :: metrics ++ Tabs :: forest_tab ++ grassland_tab
      ∧ forest_tab = [Analyses "Forest"] ∧ grassland_tab = [Analyses "Grassland"].
Proof.
  destruct (birds_page_rendered iso_dates sighting_files
              (sightings ["Robin"; "Robin"; "Wren"]) (sightings ["Lark"])
              ltac:(vm_compute; reflexivity) ltac:(vm_compute; reflexivity)
              ltac:(by_compute) ltac:(by_compute)
              ltac:(vm_compute; lia) ltac:(vm_compute; lia) ltac:(discriminate))
    as (M & TF & TG & E & _ & _ & HF & HG).
  split; [vm_compute; reflexivity|]. split; [vm_compute; reflexivity|].
  split; [by_compute|]. split; [by_compute|].
  split; [vm_compute; lia|]. split; [vm_compute; lia|]. split; [discriminate|].
  exists M, TF, TG. split; [exact E|]. split.
  - rewrite HF. rewrite bool_decide_eq_true_2; [done|]. by_compute.
  - rewrite HG. rewrite bool_decide_eq_true_2; [done|]. by_compute.
Defined.

Lemma temporal_features_of_normalized_witness :
  wf_frame merged_A ∧ normalize merged_A = Ok normalized_A
  ∧ ∃ df season, temporal_features normalized_A = Ok df
                 ∧ getitem df "Season" = Ok season
                 ∧ mask_rows (ne_scalar (Str "Unknown") season) df = df.
Proof.
  destruct (temporal_features_of_normalized merged_A normalized_A
              ltac:(by_compute) normalize_A)
    as (df & season & E & _ & _ & G & _ & M & _).
  split; [by_compute|]. split; [exact normalize_A|]. by exists df, season.
Defined.

Lemma normalize_S : normalize merged_S = Ok normalized_S.
Proof. vm_compute. reflexivity. Qed.

Lemma start_hour_distribution_witness :
  wf_frame merged_S ∧ normalize merged_S = Ok normalized_S
  ∧ temporal_features normalized_S = Ok featured_S
  ∧ getitem normalized_S "Start_Time_forest"
    = Ok (mk_series DObject [Time (mk_time 8 30 0 250)])
  ∧ getitem normalized_S "Start_Time_grassland"
    = Ok (mk_series DObject [Time (mk_time 10 0 0 0)])
  ∧ (∀ t, Time t ∈ [Time (mk_time 8 30 0 250)] ++ [Time (mk_time 10 0 0 0)] →
       valid_time t)
  ∧ observation_time_analysis featured_S = Ok [(10%Z, 1)].
Proof.
  assert (∀ t, Time t ∈ [Time (mk_time 8 30 0 250)] ++ [Time (mk_time 10 0 0 0)] →
            valid_time t) as Hv.
  { intros t Ht. cbn [app] in Ht.
    apply elem_of_cons in Ht as [[= ->]|Ht]; [unfold valid_time; cbn; lia|].
    apply elem_of_cons in Ht as [[= ->]|Ht]; [unfold valid_time; cbn; lia|].
    by apply elem_of_nil in Ht. }
  destruct (start_hour_distribution merged_S normalized_S featured_S
              (mk_series DObject [Time (mk_time 8 30 0 250)])
              (mk_series DObject [Time (mk_time 10 0 0 0)])
              ltac:(by_compute) normalize_S
              ltac:(vm_compute; reflexivity) ltac:(vm_compute; reflexivity)
              ltac:(vm_compute; reflexivity) Hv) as (E & _ & _).
  split; [by_compute|]. split; [exact normalize_S|].
  split; [vm_compute; reflexivity|]. split; [vm_compute; reflexivity|].
  split; [vm_compute; reflexivity|]. split; [exact Hv|]. exact E.
Defined.

Lemma nunique_by_groups_witness :
  (∀ ks : list cell, id ks ≡ₚ ks)
  ∧ wf_frame normalized_A
  ∧ getitem normalized_A "Observer_forest"
    = Ok (mk_series DObject [Str "Ann"; Str "Unknown"])
  ∧ getitem normalized_A "AcceptedTSN" = Ok (mk_series DInt [Num 1; Num 2])
  ∧ ∃ groups,
      nunique_by id "Observer_forest" (Str "Unknown") "AcceptedTSN" normalized_A
      = Ok groups
      ∧ NoDup groups.*1.
Proof.
  destruct (nunique_by_groups id (λ ks, reflexivity ks) "Observer_forest"
              "AcceptedTSN" (Str "Unknown") normalized_A
              (mk_series DObject [Str "Ann"; Str "Unknown"])
              (mk_series DInt [Num 1; Num 2])
              ltac:(by_compute) ltac:(vm_compute; reflexivity)
              ltac:(vm_compute; reflexivity)) as (groups & E & Hnd & _).
  split; [intros ks; reflexivity|]. split; [by_compute|].
  split; [vm_compute; reflexivity|]. split; [vm_compute; reflexivity|].
  by exists groups.
Defined.

Lemma habitat_groups_witness :
  merge forest_A grassland_A "AcceptedTSN" suffixes = Ok merged_A
  ∧ getitem forest_A "AcceptedTSN" = Ok (mk_series DInt [Num 1])
  ∧ getitem grassland_A "AcceptedTSN" = Ok (mk_series DInt [Num 2])
  ∧ wf_frame merged_A
  ∧ normalize merged_A = Ok normalized_A
  ∧ temporal_features normalized_A = Ok featured_A
  ∧ ("Observer_grassland", mk_series DObject [Str "Unknown"; Str "Bob"])
    ∈ grassland_part forest_A normalized_A
  ∧ ∃ groups,
      species_count_by id "Observer_grassland" (Str "Unknown") featured_A = Ok groups
      ∧ ∀ k n, (k, n) ∈ groups → n ≤ nunique [Num 2].
Proof.
  assert (("Observer_grassland", mk_series DObject [Str "Unknown"; Str "Bob"])
          ∈ grassland_part forest_A normalized_A) as Hc by by_compute.
  destruct (habitat_groups_count_own_species forest_A grassland_A merged_A normalized_A
              featured_A (mk_series DInt [Num 1]) (mk_series DInt [Num 2]) id
              merge_A ltac:(vm_compute; reflexivity) ltac:(vm_compute; reflexivity)
              ltac:(by_compute) normalize_A ltac:(vm_compute; reflexivity)
              ("Observer_grassland", mk_series DObject [Str "Unknown"; Str "Bob"])
              (Str "Unknown")
              ltac:(by_compute) ltac:(by_compute) ltac:(by right)) as [Hg _].
  split; [exact merge_A|]. split; [vm_compute; reflexivity|].
  split; [vm_compute; reflexivity|]. split; [by_compute|]. split; [exact normalize_A|].
  split; [vm_compute; reflexivity|]. split; [exact Hc|].
  destruct (Hg Hc) as (groups & E & Hb). exists groups. split; [exact E|].
  intros k n Hin. apply (Hb k n Hin). right. reflexivity.
Defined.

Lemma side_by_side_witness :
  two_csv_files FOREST_FILE = Ok forest_A
  ∧ two_csv_files GRASSLAND_FILE = Ok two_rows
  ∧ wf_frame forest_A ∧ wf_frame two_rows
  ∧ ∃ merged_df forest_df grassland_df,
      load_and_preprocess_data iso_dates two_csv_files FOREST_FILE GRASSLAND_FILE
      = ([], Ok (merged_df, forest_df, grassland_df))
      ∧ nrows grassland_df = 2
      ∧ nrows merged_df = 1
      ∧ getitem merged_df "AcceptedTSN_forest" = Ok (mk_series DInt [Num 1])
      ∧ getitem merged_df "AcceptedTSN_grassland" = Ok (mk_series DInt [Num 2]).
Proof.
  destruct (side_by_side_truncation iso_dates two_csv_files
              FOREST_FILE GRASSLAND_FILE forest_A two_rows
              ltac:(vm_compute; reflexivity) ltac:(vm_compute; reflexivity)
              ltac:(by_compute) ltac:(by_compute))
    as (m & fd & gd & E & _ & Hg & Hn & _).
  split; [vm_compute; reflexivity|]. split; [vm_compute; reflexivity|].
  split; [by_compute|]. split; [by_compute|].
  exists m, fd, gd. split; [exact E|]. split; [exact Hg|]. split; [exact Hn|].
  vm_compute in E. injection E as <- _ _. split; vm_compute; reflexivity.
Defined.
